(** * Amazon Ads audit dashboards: metrics, action rules and drill-down filters

    A shallow embedding of the five scripts of the repository
    ([dash_audit.py], [amazon_ads_audit.py], [Back_up_Final.py],
    [amazon_ads_audit_Server.py]; [minimal_app.py] has no logic) and the
    properties of their metric formulas, action classifiers, drill-down
    filters and summaries.

    Numbers.  The scripts compute on pandas float64 columns.  A cell is
    modelled by [num]: an exact rational, or one of the three IEEE special
    values that pandas produces and propagates (+inf, -inf, NaN; a blank
    spreadsheet cell is read as NaN).  Division by zero, NaN propagation and
    comparisons with NaN follow IEEE 754 / numpy; binary rounding error and
    signed zeros are not modelled. *)

From Stdlib Require Import List Bool ZArith QArith Qround Qreduction Qabs Lia Lqa.
From Stdlib Require Import Strings.String Strings.Ascii.
From Stdlib Require Import Permutation Sorted Mergesort Orders.
Import ListNotations.

Open Scope Q_scope.

(* ================================================================== *)
(** ** pandas/numpy numbers *)
(* ================================================================== *)

Module Pandas.

Inductive num : Type :=
| Fin (q : Q)
| PInf
| NInf
| NaN.

Definition Qlt_bool (a b : Q) : bool := negb (Qle_bool b a).

Definition num_of_Z (z : Z) : num := Fin (inject_Z z).

(** numpy true division [a / b]: x/0 is +-inf, 0/0 is NaN. *)
Definition div (a b : num) : num :=
  match a, b with
  | NaN, _ | _, NaN => NaN
  | Fin x, Fin y =>
      if Qeq_bool y 0 then
        if Qeq_bool x 0 then NaN
        else if Qlt_bool 0 x then PInf else NInf
      else Fin (Qred (x / y))
  | Fin _, PInf | Fin _, NInf => Fin 0
  | PInf, Fin y => if Qlt_bool y 0 then NInf else PInf
  | NInf, Fin y => if Qlt_bool y 0 then PInf else NInf
  | PInf, PInf | PInf, NInf | NInf, PInf | NInf, NInf => NaN
  end.

(** [a * b]: inf * 0 is NaN. *)
Definition mul (a b : num) : num :=
  match a, b with
  | NaN, _ | _, NaN => NaN
  | Fin x, Fin y => Fin (Qred (x * y))
  | Fin x, PInf | PInf, Fin x =>
      if Qeq_bool x 0 then NaN else if Qlt_bool 0 x then PInf else NInf
  | Fin x, NInf | NInf, Fin x =>
      if Qeq_bool x 0 then NaN else if Qlt_bool 0 x then NInf else PInf
  | PInf, PInf | NInf, NInf => PInf
  | PInf, NInf | NInf, PInf => NInf
  end.

(** [a + b]: inf + (-inf) is NaN. *)
Definition add (a b : num) : num :=
  match a, b with
  | NaN, _ | _, NaN => NaN
  | Fin x, Fin y => Fin (Qred (x + y))
  | PInf, NInf | NInf, PInf => NaN
  | PInf, _ | _, PInf => PInf
  | NInf, _ | _, NInf => NInf
  end.

(** Comparisons [a < b], [a > b], [a == b], [a >= b]: False as soon as one
    side is NaN. *)
Definition ltb (a b : num) : bool :=
  match a, b with
  | NaN, _ | _, NaN => false
  | Fin x, Fin y => Qlt_bool x y
  | NInf, NInf => false
  | NInf, _ => true
  | _, NInf => false
  | PInf, _ => false
  | Fin _, PInf => true
  end.

Definition gtb (a b : num) : bool := ltb b a.

Definition eqb (a b : num) : bool :=
  match a, b with
  | Fin x, Fin y => Qeq_bool x y
  | PInf, PInf | NInf, NInf => true
  | _, _ => false
  end.

Definition geb (a b : num) : bool := gtb a b || eqb a b.

(** [Series.fillna(v)]: only NaN is replaced. *)
Definition fillna (a v : num) : num :=
  match a with NaN => v | _ => a end.

(** [Series.replace(old, new)] for a numeric [old]. *)
Definition replace (a old new : num) : num :=
  if eqb a old then new else a.

(** [Series.replace([float('inf'), -float('inf')], 0)]. *)
Definition replace_inf (a v : num) : num :=
  match a with PInf | NInf => v | _ => a end.

(** Round half to even, as [numpy.rint]. *)
Definition rint (q : Q) : Z :=
  let f := Qfloor q in
  match Qcompare (q - inject_Z f) (1 # 2) with
  | Lt => f
  | Gt => (f + 1)%Z
  | Eq => if Z.even f then f else (f + 1)%Z
  end.

Definition Qround2 (q : Q) : Q := Qred (inject_Z (rint (q * 100)) / 100).

(** [Series.round(2)] and Python's [round(x, 2)]. *)
Definition round2 (a : num) : num :=
  match a with Fin q => Fin (Qround2 q) | _ => a end.

Definition is_finite (a : num) : Prop :=
  match a with Fin _ => True | _ => False end.

(** [Series.sum()]: NaN cells are skipped (skipna=True). *)
Definition sum (s : list num) : num :=
  fold_left (fun acc x => match x with NaN => acc | _ => add acc x end) s (Fin 0).

(** [Series.mean()]: NaN cells are skipped; the mean of nothing is NaN. *)
Definition mean (s : list num) : num :=
  let kept := filter (fun x => match x with NaN => false | _ => true end) s in
  div (sum kept) (num_of_Z (Z.of_nat (List.length kept))).

End Pandas.
Import Pandas.

Declare Scope num_scope.
Delimit Scope num_scope with num.
Bind Scope num_scope with num.
Notation "a / b" := (div a b) : num_scope.
Notation "a * b" := (mul a b) : num_scope.
Notation "a <? b" := (ltb a b) : num_scope.
Notation "a >? b" := (gtb a b) : num_scope.
Notation "a =? b" := (eqb a b) : num_scope.
Notation "a >=? b" := (geb a b) : num_scope.

Open Scope string_scope.

(* ================================================================== *)
(** ** Python strings *)
(* ================================================================== *)

(** Texts are byte strings; white space and letter case outside ASCII are
    not modelled. *)
Module Py.

(** ASCII white space removed by [str.strip()]: TAB, LF, VT, FF, CR,
    FS, GS, RS, US and the space. *)
Definition isspace (c : ascii) : bool :=
  let n := nat_of_ascii c in
  ((9 <=? n) && (n <=? 13) || (28 <=? n) && (n <=? 32))%nat.

Fixpoint lstrip (s : string) : string :=
  match s with
  | EmptyString => EmptyString
  | String c s' => if isspace c then lstrip s' else s
  end.

Fixpoint rstrip (s : string) : string :=
  match s with
  | EmptyString => EmptyString
  | String c s' =>
      match rstrip s' with
      | EmptyString => if isspace c then EmptyString else String c EmptyString
      | r => String c r
      end
  end.

Definition strip (s : string) : string := rstrip (lstrip s).

Definition lower_ascii (c : ascii) : ascii :=
  let n := nat_of_ascii c in
  if ((65 <=? n) && (n <=? 90))%nat then ascii_of_nat (n + 32) else c.

Fixpoint lower (s : string) : string :=
  match s with
  | EmptyString => EmptyString
  | String c s' => String (lower_ascii c) (lower s')
  end.

End Py.

(* ================================================================== *)
(** ** dash_audit.py *)
(* ================================================================== *)

Module Dash_audit.

Section calculate_metrics.
Variable target_acos : num.

(** [campaigns["CTR"] = (campaigns["Clicks"] / campaigns["Impressions"]).fillna(0)] *)
Definition campaigns_CTR (Clicks Impressions : num) : num :=
  fillna (Clicks / Impressions)%num (Fin 0).

(** [campaigns["CPC"] = campaigns["Spend"] / campaigns["Clicks"].replace(0, 1)] *)
Definition campaigns_CPC (Spend Clicks : num) : num :=
  (Spend / replace Clicks (Fin 0) (Fin 1))%num.

(** [campaigns["ACOS"] = campaigns["Spend"] / campaigns["Sales"].replace(0, 1)] *)
Definition campaigns_ACOS (Spend Sales : num) : num :=
  (Spend / replace Sales (Fin 0) (Fin 1))%num.

(** [keywords["Max Bid"] = (keywords["Sales"] / keywords["Clicks"].replace(0, 1)) * target_acos] *)
Definition keywords_Max_Bid (Sales Clicks : num) : num :=
  ((Sales / replace Clicks (Fin 0) (Fin 1)) * target_acos)%num.

(** The row lambda of [keywords["Action"]]; the baseline is [Spend]. *)
Definition keywords_Action (Max_Bid Spend Clicks Orders : num) : string :=
  if (Max_Bid >? Spend)%num then "Increase Bid"
  else if (Max_Bid <? Spend)%num then "Reduce Bid"
  else if (Clicks >? Fin 4)%num && (Orders =? Fin 0)%num then "Pause"
  else "Do Nothing".

(** [search_terms["ACOS"] = search_terms["Spend"] / search_terms["Sales"].replace(0, 1)] *)
Definition search_terms_ACOS (Spend Sales : num) : num :=
  (Spend / replace Sales (Fin 0) (Fin 1))%num.

(** The row lambda of [search_terms["Action"]]. *)
Definition search_terms_Action (ACOS Orders Clicks : num) : string :=
  if (ACOS <? target_acos)%num && (Orders >? Fin 2)%num then "Graduate"
  else if (Clicks >? Fin 3)%num && (Orders =? Fin 0)%num then "Negate"
  else "Do Nothing".

End calculate_metrics.

(** [round(campaigns['ACOS'].mean() * 100, 1)] is the summary's
    "Average ACOS"; the value before rounding to one decimal: *)
Definition summary_Average_ACOS (ACOS : list num) : num :=
  (mean ACOS * Fin 100)%num.

End Dash_audit.

(* ================================================================== *)
(** ** amazon_ads_audit.py *)
(* ================================================================== *)

Module Amazon_ads_audit.

Section calculate_metrics.
Variable target_acos : num.

Definition campaigns_CTR (Clicks Impressions : num) : num :=
  fillna (Clicks / Impressions)%num (Fin 0).

Definition campaigns_CPC (Spend Clicks : num) : num :=
  (Spend / replace Clicks (Fin 0) (Fin 1))%num.

Definition campaigns_ACOS (Spend Sales : num) : num :=
  (Spend / replace Sales (Fin 0) (Fin 1))%num.

(** The row lambda of [placements["Action"]], after
    [placements["Percentage"].fillna(0)] and [placements["ACOS"].fillna(0)]. *)
Definition placements_Action (ACOS Percentage : num) : string :=
  if (ACOS <? target_acos)%num && (Percentage >? Fin 0)%num
  then "Increase Placement Percentage"
  else if (ACOS >? target_acos)%num && (Percentage >? Fin 0)%num
  then "Decrease Placement Percentage"
  else "Do Nothing".

Definition keywords_Max_Bid (Sales Clicks : num) : num :=
  ((Sales / replace Clicks (Fin 0) (Fin 1)) * target_acos)%num.

(** The row lambda of [keywords["Action"]]; the baseline is [CPC]. *)
Definition keywords_Action (Max_Bid CPC Clicks Orders : num) : string :=
  if (Max_Bid >? CPC)%num then "Increase Bid"
  else if (Max_Bid <? CPC)%num then "Reduce Bid"
  else if (Clicks >? Fin 4)%num && (Orders =? Fin 0)%num then "Pause"
  else "Do Nothing".

Definition search_terms_ACOS (Spend Sales : num) : num :=
  (Spend / replace Sales (Fin 0) (Fin 1))%num.

Definition search_terms_Action (ACOS Orders Clicks : num) : string :=
  if (ACOS <? target_acos)%num && (Orders >? Fin 2)%num then "Graduate"
  else if (Clicks >? Fin 3)%num && (Orders =? Fin 0)%num then "Negate"
  else "Do Nothing".

End calculate_metrics.

(** [generate_audit_summary]: ["ACOS": round(campaigns['ACOS'].mean() * 100, 1)];
    the value before rounding to one decimal. *)
Definition summary_ACOS (ACOS : list num) : num :=
  (mean ACOS * Fin 100)%num.

End Amazon_ads_audit.

(* ================================================================== *)
(** ** Back_up_Final.py *)
(* ================================================================== *)

Module Back_up_Final.

Section calculate_metrics.
Variable target_acos : num.

(** [((campaigns["Clicks"] / campaigns["Impressions"]).fillna(0) * 100).round(2)] *)
Definition campaigns_CTR (Clicks Impressions : num) : num :=
  round2 (fillna (Clicks / Impressions)%num (Fin 0) * Fin 100)%num.

(** [(campaigns["Spend"] / campaigns["Clicks"].replace(0, 1) * 100).round(2)] *)
Definition campaigns_CPC (Spend Clicks : num) : num :=
  round2 (Spend / replace Clicks (Fin 0) (Fin 1) * Fin 100)%num.

(** [(campaigns["Spend"] / campaigns["Sales"].replace(0, 1) * 100).round(2)] *)
Definition campaigns_ACOS (Spend Sales : num) : num :=
  round2 (Spend / replace Sales (Fin 0) (Fin 1) * Fin 100)%num.

(** [((campaigns["Orders"] / campaigns["Clicks"]).fillna(0) * 100).round(2)] *)
Definition campaigns_Conversion_Rate (Orders Clicks : num) : num :=
  round2 (fillna (Orders / Clicks)%num (Fin 0) * Fin 100)%num.

(** The value compared by the action lambda; the column is rounded to two
    decimals only after the actions are assigned. *)
Definition keywords_Max_Bid (Sales Clicks : num) : num :=
  ((Sales / replace Clicks (Fin 0) (Fin 1)) * target_acos)%num.

(** The row lambda of [keywords["Action"]]; the baseline is [Spend]. *)
Definition keywords_Action (Max_Bid Spend Clicks Orders : num) : string :=
  if (Max_Bid >? Spend)%num then "Increase Bid"
  else if (Max_Bid <? Spend)%num then "Reduce Bid"
  else if (Clicks >? Fin 4)%num && (Orders =? Fin 0)%num then "Pause"
  else "Do Nothing".

(** [search_terms["ACOS"] = search_terms["Spend"] / search_terms["7 Day Total Sales "]] *)
Definition search_terms_ACOS (Spend Sales_7_Day : num) : num :=
  (Spend / Sales_7_Day)%num.

(** The row lambda of [search_terms["Action"]]; [Orders_7_Day] is the
    column "7 Day Total Orders (#)". *)
Definition search_terms_Action (ACOS Orders_7_Day Clicks : num) : string :=
  if (ACOS <? target_acos)%num && (Orders_7_Day >=? Fin 2)%num then "Graduate"
  else if (Clicks >? Fin 3)%num && (Orders_7_Day =? Fin 0)%num then "Negate"
  else "Do Nothing".

End calculate_metrics.

End Back_up_Final.

(* ================================================================== *)
(** ** amazon_ads_audit_Server.py: calculate_metrics *)
(* ================================================================== *)

Module Server.

Section calculate_metrics.
Variable target_acos : num.

Definition campaigns_CTR (Clicks Impressions : num) : num :=
  round2 (fillna (Clicks / Impressions)%num (Fin 0) * Fin 100)%num.

Definition campaigns_CPC (Spend Clicks : num) : num :=
  round2 (Spend / replace Clicks (Fin 0) (Fin 1) * Fin 100)%num.

Definition campaigns_ACOS (Spend Sales : num) : num :=
  round2 (Spend / replace Sales (Fin 0) (Fin 1) * Fin 100)%num.

Definition campaigns_Conversion_Rate (Orders Clicks : num) : num :=
  round2 (fillna (Orders / Clicks)%num (Fin 0) * Fin 100)%num.

(** [keywords["RPC"] = (keywords["Sales"] / keywords["Clicks"].replace(0, 1))] *)
Definition keywords_RPC (Sales Clicks : num) : num :=
  (Sales / replace Clicks (Fin 0) (Fin 1))%num.

(** [keywords["Max Bid"] = keywords["RPC"] * target_acos]; rounded to two
    decimals only after the actions are assigned. *)
Definition keywords_Max_Bid (Sales Clicks : num) : num :=
  (keywords_RPC Sales Clicks * target_acos)%num.

(** The row lambda of [keywords["Action"]]; the baseline is [CPC]. *)
Definition keywords_Action (Max_Bid CPC Clicks Orders : num) : string :=
  if (Max_Bid >? CPC)%num then "Increase Bid"
  else if (Max_Bid <? CPC)%num then "Reduce Bid"
  else if (Clicks >? Fin 4)%num && (Orders =? Fin 0)%num then "Pause"
  else "Do Nothing".

(** [((search_terms["Spend"] / search_terms["Sales"]).replace([inf, -inf], 0) * 100).round(2)] *)
Definition search_terms_ACOS (Spend Sales : num) : num :=
  round2 (replace_inf (Spend / Sales)%num (Fin 0) * Fin 100)%num.

(** The row lambda of [search_terms["Action"]] on a row whose
    "Match Type" cell is a string. *)
Definition search_terms_Action (ACOS Orders Clicks : num) (Match_Type : string) : string :=
  if (ACOS <? target_acos * Fin 100)%num && (Orders >=? Fin 2)%num
     && negb (Py.lower (Py.strip Match_Type) =? "exact")%string
  then "Graduate"
  else if (Clicks >? Fin 3)%num && (Orders =? Fin 0)%num then "Negate"
  else "Do Nothing".

End calculate_metrics.

End Server.

(* ================================================================== *)
(** ** The three result tables and the pandas selections used on them *)
(* ================================================================== *)

(** A row carries its DataFrame index label and the columns that the
    filters and the summary read; boolean indexing and column projection
    keep rows whole, so the remaining columns travel with the index.
    Column names are those of [amazon_ads_audit_Server.py] after its
    renaming; [Back_up_Final.py] reads the same columns under their export
    names ("Campaign Name (Informational only)" for [Campaign_1],
    "Keyword Text" / "Targeting" for [Keyword], "Customer Search Term" for
    [CST], "Campaign Name" for the search terms' [Campaign]).  A key cell is
    a string; [isin] and [unique] treat a blank key as one more value. *)

Module Campaigns.
Record row : Type := mk
  { index : nat; Campaign_1 : string; Spend : num; Sales : num; Clicks : num }.
End Campaigns.

Module Keywords.
Record row : Type := mk
  { index : nat; Campaign_1 : string; Keyword : string; Action : string }.
End Keywords.

Module Search_terms.
Record row : Type := mk
  { index : nat; Campaign : string; Keyword : string; CST : string;
    Action : string }.
End Search_terms.

Record tables : Type := mk_tables
  { campaigns : list Campaigns.row;
    keywords : list Keywords.row;
    search_terms : list Search_terms.row }.

Module Frame.

(** [values.isin(selection)] on one cell. *)
Definition isin (v : string) (selection : list string) : bool :=
  existsb (String.eqb v) selection.

(** [Series.unique()]: first occurrences, in order of appearance. *)
Fixpoint unique (s : list string) : list string :=
  match s with
  | [] => []
  | v :: s' => v :: filter (fun w => negb (String.eqb w v)) (unique s')
  end.

(** Number of rows whose key is [v]. *)
Definition count_key {A} (key : A -> string) (v : string) (df : list A) : nat :=
  List.length (filter (fun r => String.eqb (key r) v) df).

(** [df[df.duplicated(subset=[key], keep=False)]]: every row whose key
    occurs in more than one row of [df]. *)
Definition duplicated_keep_False {A} (key : A -> string) (df : list A) : list A :=
  filter (fun r => (2 <=? count_key key (key r) df)%nat) df.

End Frame.
Import Frame.

(** [sort_values(by="CST", ascending=True)].  pandas sorts with an
    unstable quicksort, so the order among rows with equal text is not
    fixed by the source; the model is a merge sort on Python's string
    order, and the properties below use only that the result is an ordered
    rearrangement of the rows. *)
Module CST_order <: Orders.TotalLeBool.
Definition t := Search_terms.row.
Definition leb (r1 r2 : t) : bool :=
  String.leb (Search_terms.CST r1) (Search_terms.CST r2).
Lemma leb_total : forall r1 r2, leb r1 r2 = true \/ leb r2 r1 = true.
Proof. intros r1 r2; apply String.leb_total. Qed.
End CST_order.

Module CST_sort := Mergesort.Sort CST_order.

Definition sort_values_CST (df : list Search_terms.row) : list Search_terms.row :=
  CST_sort.sort df.

(* ================================================================== *)
(** ** amazon_ads_audit_Server.py: update_output *)
(* ================================================================== *)

Module Server_app.

(** The summary dictionary. *)
Record summary : Type := mk_summary
  { Total_Campaigns : nat;
    Total_Keywords : nat;
    Total_Search_Terms : nat;
    ACOS : num;
    Total_Revenue : num;
    Total_Clicks : num }.

Record output : Type := mk_output
  { audit_summary : summary;
    campaign_options : list string;
    campaign_table : list Campaigns.row;
    keyword_options : list string;
    keyword_table : list Keywords.row;
    search_term_options : list string;
    search_term_table : list Search_terms.row }.

(** First [if ctx.triggered] block: the keyword action chosen by the
    button that fired the callback; [triggered] is the component id of
    [ctx.triggered[0]], or [None] when nothing triggered. *)
Definition action_filter_of (triggered : option string) : option string :=
  match triggered with
  | None => None
  | Some button_id =>
      if button_id =? "increase-bid-btn" then Some "Increase Bid"
      else if button_id =? "reduce-bid-btn" then Some "Reduce Bid"
      else if button_id =? "pause-btn" then Some "Pause"
      else if button_id =? "do-nothing-btn" then Some "Do Nothing"
      else if button_id =? "reset-btn" then None
      else None
  end.

(** Second [if ctx.triggered] block: [(search_term_filter, find_duplicates)]. *)
Definition search_term_filter_of (triggered : option string) : option string * bool :=
  match triggered with
  | None => (None, false)
  | Some button_id =>
      if button_id =? "graduate-btn" then (Some "Graduate", false)
      else if button_id =? "negate-btn" then (Some "Negate", false)
      else if button_id =? "do-nothing-search-btn" then (Some "Do Nothing", false)
      else if button_id =? "duplicate-btn" then (None, true)
      else (None, false)
  end.

(** [campaigns = campaigns[campaigns["Campaign_1"].isin(keywords["Campaign_1"].unique())]] *)
Definition campaigns_of_keywords (campaigns : list Campaigns.row)
    (keywords : list Keywords.row) : list Campaigns.row :=
  let filtered_campaigns := unique (map Keywords.Campaign_1 keywords) in
  filter (fun r => isin (Campaigns.Campaign_1 r) filtered_campaigns) campaigns.

(** [keywords = keywords[keywords["Keyword"].isin(search_terms["Keyword"].unique())]] *)
Definition keywords_of_search_terms (keywords : list Keywords.row)
    (search_terms : list Search_terms.row) : list Keywords.row :=
  let filtered_keywords := unique (map Search_terms.Keyword search_terms) in
  filter (fun r => isin (Keywords.Keyword r) filtered_keywords) keywords.

(** [if action_filter: ... else: ...] *)
Definition apply_action_filter (metrics : tables) (action_filter : option string) : tables :=
  match action_filter with
  | Some a =>
      let keywords := filter (fun r => Keywords.Action r =? a) (keywords metrics) in
      let filtered_keywords := unique (map Keywords.Keyword keywords) in
      let search_terms :=
        filter (fun r => isin (Search_terms.Keyword r) filtered_keywords)
               (search_terms metrics) in
      let campaigns := campaigns_of_keywords (campaigns metrics) keywords in
      mk_tables campaigns keywords search_terms
  | None => mk_tables (campaigns metrics) (keywords metrics) (search_terms metrics)
  end.

(** [if selected_search_terms: ...] *)
Definition apply_selected_search_terms (t : tables) (selected_search_terms : list string) : tables :=
  match selected_search_terms with
  | [] => t
  | _ =>
      let search_terms :=
        filter (fun r => isin (Search_terms.CST r) selected_search_terms) (search_terms t) in
      let keywords := keywords_of_search_terms (keywords t) search_terms in
      let campaigns := campaigns_of_keywords (campaigns t) keywords in
      mk_tables campaigns keywords search_terms
  end.

(** [if search_term_filter: ...] *)
Definition apply_search_term_filter (t : tables) (search_term_filter : option string) : tables :=
  match search_term_filter with
  | Some a =>
      let search_terms := filter (fun r => Search_terms.Action r =? a) (search_terms t) in
      let keywords := keywords_of_search_terms (keywords t) search_terms in
      let campaigns := campaigns_of_keywords (campaigns t) keywords in
      mk_tables campaigns keywords search_terms
  | None => t
  end.

(** [if find_duplicates: ...] *)
Definition apply_find_duplicates (t : tables) (find_duplicates : bool) : tables :=
  if find_duplicates then
    let duplicate_terms := duplicated_keep_False Search_terms.CST (search_terms t) in
    let search_terms := sort_values_CST duplicate_terms in
    let keywords := keywords_of_search_terms (keywords t) search_terms in
    let campaigns := campaigns_of_keywords (campaigns t) keywords in
    mk_tables campaigns keywords search_terms
  else t.

(** [if selected_campaigns: ...] *)
Definition apply_selected_campaigns (t : tables) (selected_campaigns : list string) : tables :=
  match selected_campaigns with
  | [] => t
  | _ =>
      mk_tables
        (filter (fun r => isin (Campaigns.Campaign_1 r) selected_campaigns) (campaigns t))
        (filter (fun r => isin (Keywords.Campaign_1 r) selected_campaigns) (keywords t))
        (filter (fun r => isin (Search_terms.Campaign r) selected_campaigns) (search_terms t))
  end.

(** [if selected_keywords: ...] *)
Definition apply_selected_keywords (t : tables) (selected_keywords : list string) : tables :=
  match selected_keywords with
  | [] => t
  | _ =>
      let keywords :=
        filter (fun r => isin (Keywords.Keyword r) selected_keywords) (keywords t) in
      let search_terms :=
        filter (fun r => isin (Search_terms.Keyword r) selected_keywords) (search_terms t) in
      let campaigns := campaigns_of_keywords (campaigns t) keywords in
      mk_tables campaigns keywords search_terms
  end.

(** [average_acos = (total_spend / total_sales * 100) if total_sales > 0 else 0] *)
Definition average_acos (campaigns : list Campaigns.row) : num :=
  let total_spend := sum (map Campaigns.Spend campaigns) in
  let total_sales := sum (map Campaigns.Sales campaigns) in
  if (total_sales >? Fin 0)%num then (total_spend / total_sales * Fin 100)%num
  else Fin 0.

Definition make_summary (t : tables) : summary :=
  {| Total_Campaigns := List.length (campaigns t);
     Total_Keywords := List.length (keywords t);
     Total_Search_Terms := List.length (search_terms t);
     ACOS := round2 (average_acos (campaigns t));
     Total_Revenue := round2 (sum (map Campaigns.Sales (campaigns t)));
     Total_Clicks := sum (map Campaigns.Clicks (campaigns t)) |}.
(* [Total_Clicks] is the sum that the source passes to [int(...)]. *)

(** The body of [update_output] from [metrics = calculate_metrics(...)] on:
    the filters in source order, the three option lists taken where the
    source takes them, and the summary of the final tables. *)
Definition update_output (metrics : tables) (triggered : option string)
    (selected_campaigns selected_keywords selected_search_terms : list string) : output :=
  let action_filter := action_filter_of triggered in
  let t1 := apply_action_filter metrics action_filter in
  let search_term_options := unique (map Search_terms.CST (search_terms t1)) in
  let t2 := apply_selected_search_terms t1 selected_search_terms in
  let '(search_term_filter, find_duplicates) := search_term_filter_of triggered in
  let t3 := apply_search_term_filter t2 search_term_filter in
  let t4 := apply_find_duplicates t3 find_duplicates in
  let campaign_options := unique (map Campaigns.Campaign_1 (campaigns t4)) in
  let t5 := apply_selected_campaigns t4 selected_campaigns in
  let keyword_options := unique (map Keywords.Keyword (keywords t5)) in
  let t6 := apply_selected_keywords t5 selected_keywords in
  {| audit_summary := make_summary t6;
     campaign_options := campaign_options;
     campaign_table := campaigns t6;
     keyword_options := keyword_options;
     keyword_table := keywords t6;
     search_term_options := search_term_options;
     search_term_table := search_terms t6 |}.

(** The filtered triple of an output. *)
Definition result (o : output) : tables :=
  mk_tables (campaign_table o) (keyword_table o) (search_term_table o).

End Server_app.

(** *** The dashboard around the callback

    Dash calls [update_output] whenever one of its inputs changes, with the
    id of the changed component in [ctx.triggered] and the current value of
    every dropdown.  Buttons have no output wired to the dropdowns, so a
    click leaves the three selections as they are. *)
Module Dashboard.

Inductive event : Type :=
| Click (button_id : string)
| Select_campaigns (value : list string)
| Select_keywords (value : list string)
| Select_search_terms (value : list string).

Record selection : Type := mk_selection
  { campaign_dropdown : list string;
    keyword_dropdown : list string;
    search_term_dropdown : list string }.

Definition no_selection : selection := mk_selection [] [] [].

Definition component_id (e : event) : string :=
  match e with
  | Click button_id => button_id
  | Select_campaigns _ => "campaign-dropdown"
  | Select_keywords _ => "keyword-dropdown"
  | Select_search_terms _ => "search-term-dropdown"
  end.

Definition set_value (s : selection) (e : event) : selection :=
  match e with
  | Click _ => s
  | Select_campaigns v => mk_selection v (keyword_dropdown s) (search_term_dropdown s)
  | Select_keywords v => mk_selection (campaign_dropdown s) v (search_term_dropdown s)
  | Select_search_terms v => mk_selection (campaign_dropdown s) (keyword_dropdown s) v
  end.

(** One interaction: the dropdown state after it and what the callback shows. *)
Definition fire (metrics : tables) (s : selection) (e : event)
  : selection * Server_app.output :=
  let s' := set_value s e in
  (s', Server_app.update_output metrics (Some (component_id e))
         (campaign_dropdown s') (keyword_dropdown s') (search_term_dropdown s')).

(** Dropdown state after a sequence of interactions. *)
Definition selections_after (s : selection) (es : list event) : selection :=
  fold_left set_value es s.

(** What is on screen after the interactions [es] followed by [e]. *)
Definition shown_after (metrics : tables) (es : list event) (e : event)
  : Server_app.output :=
  snd (fire metrics (selections_after no_selection es) e).

End Dashboard.

(* ================================================================== *)
(** ** Back_up_Final.py: update_output *)
(* ================================================================== *)

Module Back_up_Final_app.

(** The callback has no buttons: the explicit selections only, in the
    order search terms, campaigns, keywords. *)
Definition update_output (metrics : tables)
    (selected_campaigns selected_keywords selected_search_terms : list string)
  : Server_app.output :=
  let t0 := mk_tables (campaigns metrics) (keywords metrics) (search_terms metrics) in
  let search_term_options := unique (map Search_terms.CST (search_terms t0)) in
  let t1 := Server_app.apply_selected_search_terms t0 selected_search_terms in
  let campaign_options := unique (map Campaigns.Campaign_1 (campaigns t1)) in
  let t2 := Server_app.apply_selected_campaigns t1 selected_campaigns in
  let keyword_options := unique (map Keywords.Keyword (keywords t2)) in
  let t3 := Server_app.apply_selected_keywords t2 selected_keywords in
  {| Server_app.audit_summary := Server_app.make_summary t3;
     Server_app.campaign_options := campaign_options;
     Server_app.campaign_table := campaigns t3;
     Server_app.keyword_options := keyword_options;
     Server_app.keyword_table := keywords t3;
     Server_app.search_term_options := search_term_options;
     Server_app.search_term_table := search_terms t3 |}.

End Back_up_Final_app.

(* ================================================================== *)
(** ** DataFrames with named columns: what [calculate_metrics] reads and writes *)
(* ================================================================== *)

(** [calculate_metrics] works on whole tables whose columns may or may not
    be there.  A frame is its number of rows and its columns in order; a
    cell is a number or a text.  Reading a column that does not exist raises
    [KeyError]; arithmetic and ordering on a text cell raise [TypeError]
    (a text cell that spells a number is not converted). *)
Module DataFrame.

Inductive cell : Type :=
| Num (x : num)
| Str (s : string).

Definition Series : Type := list cell.

Record frame : Type := mk_frame
  { nrows : nat; cols : list (string * Series) }.

Inductive exn : Type :=
| KeyError (key : string)
| TypeError
| ValueError
| AttributeError.

Inductive result (A : Type) : Type :=
| Ok (a : A)
| Raise (e : exn).
Arguments Ok {A} a.
Arguments Raise {A} e.

Definition bind {A B} (m : result A) (k : A -> result B) : result B :=
  match m with Ok a => k a | Raise e => Raise e end.

Notation "x <- m ;; k" := (bind m (fun x => k))
  (at level 61, m at next level, right associativity).

Fixpoint mapM {A B} (f : A -> result B) (l : list A) : result (list B) :=
  match l with
  | [] => Ok []
  | a :: l' => b <- f a ;; bs <- mapM f l' ;; Ok (b :: bs)
  end.

(** [df.columns] and [col in df.columns]. *)
Definition columns (df : frame) : list string := map fst (cols df).

Definition has_column (df : frame) (col : string) : bool :=
  existsb (String.eqb col) (columns df).

Fixpoint lookup {A} (col : string) (l : list (string * A)) : option A :=
  match l with
  | [] => None
  | (c, s) :: l' => if c =? col then Some s else lookup col l'
  end.

(** [df[col]] *)
Definition getitem (df : frame) (col : string) : result Series :=
  match lookup col (cols df) with
  | Some s => Ok s
  | None => Raise (KeyError col)
  end.

Fixpoint assign (col : string) (s : Series) (l : list (string * Series))
  : list (string * Series) :=
  match l with
  | [] => [(col, s)]
  | (c, s') :: l' => if c =? col then (c, s) :: l' else (c, s') :: assign col s l'
  end.

(** [df[col] = series]: overwrite in place, or append a new last column. *)
Definition setitem (df : frame) (col : string) (s : Series) : frame :=
  mk_frame (nrows df) (assign col s (cols df)).

(** [df[col] = scalar] *)
Definition setitem_scalar (df : frame) (col : string) (v : cell) : frame :=
  setitem df col (repeat v (nrows df)).

(** [if col not in df.columns: df[col] = 0] *)
Definition ensure_column (df : frame) (col : string) : frame :=
  if has_column df col then df else setitem_scalar df col (Num (Fin 0)).

Definition as_num (c : cell) : result num :=
  match c with Num x => Ok x | Str _ => Raise TypeError end.

(** Element-wise numeric expressions over one or two columns. *)
Definition map_num (f : num -> num) (s : Series) : result Series :=
  mapM (fun c => x <- as_num c ;; Ok (Num (f x))) s.

Definition zip_num (f : num -> num -> num) (s1 s2 : Series) : result Series :=
  mapM (fun '(c1, c2) => x <- as_num c1 ;; y <- as_num c2 ;; Ok (Num (f x y)))
       (combine s1 s2).

(** [Series.fillna(0).astype(float)] *)
Definition fillna0_astype_float (s : Series) : result Series :=
  mapM (fun c => match c with
                 | Num x => Ok (Num (fillna x (Fin 0)))
                 | Str _ => Raise ValueError
                 end) s.

(** A row as the lambdas of [df.apply(..., axis=1)] see it. *)
Definition row : Type := list (string * cell).

Definition iloc (df : frame) (i : nat) : row :=
  map (fun '(c, s) => (c, nth i s (Num NaN))) (cols df).

Definition rows (df : frame) : list row := map (iloc df) (seq 0 (nrows df)).

(** [row[col]] *)
Definition row_getitem (r : row) (col : string) : result cell :=
  match lookup col r with
  | Some c => Ok c
  | None => Raise (KeyError col)
  end.

Definition row_num (r : row) (col : string) : result num :=
  c <- row_getitem r col ;; as_num c.

(** [row[col] == number]: a text cell is simply different. *)
Definition row_eq_num (r : row) (col : string) (v : num) : result bool :=
  c <- row_getitem r col ;;
  match c with Num x => Ok (x =? v)%num | Str _ => Ok false end.

(** [row[col].strip().lower()]: only a text cell has [strip]. *)
Definition row_strip_lower (r : row) (col : string) : result string :=
  c <- row_getitem r col ;;
  match c with
  | Str s => Ok (Py.lower (Py.strip s))
  | Num _ => Raise AttributeError
  end.

(** Python's short-circuit [a and b] and the conditional expression. *)
Definition andM (a b : result bool) : result bool :=
  x <- a ;; if x then b else Ok false.

Definition ifM {A} (c : result bool) (a b : result A) : result A :=
  x <- c ;; if x then a else b.

Definition liftM2 {A B C} (f : A -> B -> C) (a : result A) (b : result B) : result C :=
  x <- a ;; y <- b ;; Ok (f x y).

(** [df.apply(f, axis=1)] *)
Definition apply_axis1 (f : row -> result string) (df : frame) : result Series :=
  mapM (fun r => a <- f r ;; Ok (Str a)) (rows df).

(** The tables that [load_and_clean_data] hands to [calculate_metrics]. *)
Record data : Type := mk_data
  { d_campaigns : frame;
    d_keywords : frame;
    d_search_terms : frame;
    d_placements : frame }.

End DataFrame.

(* ================================================================== *)
(** ** calculate_metrics on whole tables *)
(* ================================================================== *)

Module Metrics.
Import DataFrame.

(** [df[out] = f(df[a], df[b])], the operands read left to right. *)
Definition set_zip (df : frame) (out : string) (f : num -> num -> num)
    (a b : string) : result frame :=
  sa <- getitem df a ;; sb <- getitem df b ;;
  s <- zip_num f sa sb ;; Ok (setitem df out s).

(** [df[out] = f(df[a])] *)
Definition set_map (df : frame) (out : string) (f : num -> num) (a : string)
  : result frame :=
  sa <- getitem df a ;; s <- map_num f sa ;; Ok (setitem df out s).

(** [if col in df.columns: df[col] = f(df[col])] *)
Definition update_if_present (df : frame) (col : string) (f : num -> num)
  : result frame :=
  if has_column df col then set_map df col f col else Ok df.

(** [df["Action"] = df.apply(f, axis=1)]; on a table without rows the
    column is the empty one. *)
Definition set_Action (df : frame) (f : row -> result string) : result frame :=
  s <- apply_axis1 f df ;; Ok (setitem df "Action" s).

(** The keyword lambda shared by the four scripts, with its baseline column. *)
Definition keywords_Action_row (baseline : string) (r : row) : result string :=
  ifM (liftM2 gtb (row_num r "Max Bid") (row_num r baseline)) (Ok "Increase Bid")
  (ifM (liftM2 ltb (row_num r "Max Bid") (row_num r baseline)) (Ok "Reduce Bid")
  (ifM (andM (liftM2 gtb (row_num r "Clicks") (Ok (Fin 4)))
             (row_eq_num r "Orders" (Fin 0)))
       (Ok "Pause") (Ok "Do Nothing"))).

(** *** dash_audit.py *)
Module On_dash_audit.

Definition search_terms_Action_row (target_acos : num) (r : row) : result string :=
  ifM (andM (liftM2 ltb (row_num r "ACOS") (Ok target_acos))
            (liftM2 gtb (row_num r "Orders") (Ok (Fin 2))))
      (Ok "Graduate")
  (ifM (andM (liftM2 gtb (row_num r "Clicks") (Ok (Fin 3)))
             (row_eq_num r "Orders" (Fin 0)))
       (Ok "Negate") (Ok "Do Nothing")).

Definition required_columns : list string * list string * list string :=
  (["Sales"; "Clicks"; "Impressions"; "Spend"; "Orders"],
   ["Sales"; "Clicks"; "Spend"; "Orders"; "Ad Group Name"; "Campaign Name"],
   ["Sales"; "Clicks"; "Spend"; "Orders"; "Ad Group Name"; "Campaign Name"]).

Definition calculate_metrics (d : data) (target_acos : num) : result data :=
  let '(rc, rk, rs) := required_columns in
  let campaigns := fold_left ensure_column rc (d_campaigns d) in
  let keywords := fold_left ensure_column rk (d_keywords d) in
  let search_terms := fold_left ensure_column rs (d_search_terms d) in
  campaigns <- set_zip campaigns "CTR" Dash_audit.campaigns_CTR "Clicks" "Impressions" ;;
  campaigns <- set_zip campaigns "CPC" Dash_audit.campaigns_CPC "Spend" "Clicks" ;;
  campaigns <- set_zip campaigns "ACOS" Dash_audit.campaigns_ACOS "Spend" "Sales" ;;
  keywords <- set_zip keywords "Max Bid" (Dash_audit.keywords_Max_Bid target_acos)
                "Sales" "Clicks" ;;
  keywords <- set_Action keywords (keywords_Action_row "Spend") ;;
  search_terms <- set_zip search_terms "ACOS" Dash_audit.search_terms_ACOS
                    "Spend" "Sales" ;;
  search_terms <- set_Action search_terms (search_terms_Action_row target_acos) ;;
  Ok (mk_data campaigns keywords search_terms (d_placements d)).

End On_dash_audit.

(** *** amazon_ads_audit.py *)
Module On_amazon_ads_audit.

Definition placements_Action_row (target_acos : num) (r : row) : result string :=
  ifM (andM (liftM2 ltb (row_num r "ACOS") (Ok target_acos))
            (liftM2 gtb (row_num r "Percentage") (Ok (Fin 0))))
      (Ok "Increase Placement Percentage")
  (ifM (andM (liftM2 gtb (row_num r "ACOS") (Ok target_acos))
             (liftM2 gtb (row_num r "Percentage") (Ok (Fin 0))))
       (Ok "Decrease Placement Percentage") (Ok "Do Nothing")).

Definition calculate_metrics (d : data) (target_acos : num) : result data :=
  let campaigns := ensure_column (d_campaigns d) "Sales" in
  let keywords := ensure_column (d_keywords d) "Sales" in
  let search_terms := ensure_column (d_search_terms d) "Sales" in
  let search_terms := ensure_column search_terms "Orders" in
  let placements := d_placements d in
  campaigns <- set_zip campaigns "CTR" Amazon_ads_audit.campaigns_CTR "Clicks" "Impressions" ;;
  campaigns <- set_zip campaigns "CPC" Amazon_ads_audit.campaigns_CPC "Spend" "Clicks" ;;
  campaigns <- set_zip campaigns "ACOS" Amazon_ads_audit.campaigns_ACOS "Spend" "Sales" ;;
  percentage <- getitem placements "Percentage" ;;
  percentage <- fillna0_astype_float percentage ;;
  let placements := setitem placements "Percentage" percentage in
  acos <- getitem placements "ACOS" ;;
  acos <- fillna0_astype_float acos ;;
  let placements := setitem placements "ACOS" acos in
  placements <- set_Action placements (placements_Action_row target_acos) ;;
  keywords <- set_zip keywords "Max Bid" (Amazon_ads_audit.keywords_Max_Bid target_acos)
                "Sales" "Clicks" ;;
  keywords <- set_Action keywords (keywords_Action_row "CPC") ;;
  search_terms <- set_zip search_terms "ACOS" Amazon_ads_audit.search_terms_ACOS
                    "Spend" "Sales" ;;
  search_terms <- set_Action search_terms (On_dash_audit.search_terms_Action_row target_acos) ;;
  Ok (mk_data campaigns keywords search_terms placements).

End On_amazon_ads_audit.

(** *** amazon_ads_audit_Server.py *)
Module On_server.

Definition percent2 (x : num) : num := round2 (x * Fin 100)%num.

Definition search_terms_Action_row (target_acos : num) (r : row) : result string :=
  ifM (andM (andM (liftM2 ltb (row_num r "ACOS") (Ok (target_acos * Fin 100)%num))
                  (liftM2 geb (row_num r "Orders") (Ok (Fin 2))))
            (m <- row_strip_lower r "Match Type" ;; Ok (negb (m =? "exact"))))
      (Ok "Graduate")
  (ifM (andM (liftM2 gtb (row_num r "Clicks") (Ok (Fin 3)))
             (row_eq_num r "Orders" (Fin 0)))
       (Ok "Negate") (Ok "Do Nothing")).

Definition required_columns : list string * list string * list string :=
  (["Sales"; "Clicks"; "Impressions"; "Spend"; "Orders"; "Daily Budget";
    "Bidding Strategy"],
   ["Sales"; "Clicks"; "Spend"; "Orders"; "Ad Group Name"; "Campaign Name"],
   ["Sales"; "Clicks"; "Spend"; "Orders"; "Ad Group Name"; "Campaign Name"]).

Definition calculate_metrics (d : data) (target_acos : num) : result data :=
  let campaigns := d_campaigns d in
  let keywords := d_keywords d in
  let search_terms := d_search_terms d in
  keywords <- update_if_present keywords "CTR" percent2 ;;
  keywords <- update_if_present keywords "CVR" percent2 ;;
  keywords <- update_if_present keywords "ACOS" percent2 ;;
  search_terms <- update_if_present search_terms "CTR" percent2 ;;
  search_terms <-
    (if has_column search_terms "Sales" && has_column search_terms "Spend"
     then set_zip search_terms "ACOS" Server.search_terms_ACOS "Spend" "Sales"
     else Ok (setitem_scalar search_terms "ACOS" (Num (Fin 0)))) ;;
  search_terms <- update_if_present search_terms "CVR" percent2 ;;
  search_terms <- update_if_present search_terms "CPC" round2 ;;
  search_terms <- update_if_present search_terms "Spend" round2 ;;
  search_terms <- update_if_present search_terms "Sales" round2 ;;
  keywords <- update_if_present keywords "Max Bid" round2 ;;
  let '(rc, rk, rs) := required_columns in
  let campaigns := fold_left ensure_column rc campaigns in
  let keywords := fold_left ensure_column rk keywords in
  let search_terms := fold_left ensure_column rs search_terms in
  campaigns <- set_zip campaigns "CTR" Server.campaigns_CTR "Clicks" "Impressions" ;;
  campaigns <- set_zip campaigns "CPC" Server.campaigns_CPC "Spend" "Clicks" ;;
  campaigns <- set_zip campaigns "ACOS" Server.campaigns_ACOS "Spend" "Sales" ;;
  campaigns <- set_zip campaigns "Conversion Rate" Server.campaigns_Conversion_Rate
                 "Orders" "Clicks" ;;
  campaigns <- set_map campaigns "Spend" round2 "Spend" ;;
  keywords <- set_zip keywords "RPC" Server.keywords_RPC "Sales" "Clicks" ;;
  keywords <- set_map keywords "Max Bid" (fun rpc => (rpc * target_acos)%num) "RPC" ;;
  keywords <- set_Action keywords (keywords_Action_row "CPC") ;;
  keywords <- set_map keywords "Max Bid" round2 "Max Bid" ;;
  keywords <- set_map keywords "RPC" round2 "RPC" ;;
  search_terms <- set_Action search_terms (search_terms_Action_row target_acos) ;;
  Ok (mk_data campaigns keywords search_terms (d_placements d)).

End On_server.

End Metrics.

(* ================================================================== *)
(** ** Vocabulary of the properties *)
(* ================================================================== *)

(** What the keyword rule promises about one row: [Action] is the label
    given when [Max_Bid] is compared with [baseline]. *)
Definition bid_rule (Max_Bid baseline : num) (Action : string) : Prop :=
  (Action = "Pause" -> (Max_Bid =? baseline)%num = true) /\
  ((Max_Bid >? baseline)%num = true -> Action = "Increase Bid") /\
  ((Max_Bid <? baseline)%num = true -> Action = "Reduce Bid").

(** Every keyword's campaign reference is among the campaigns. *)
Definition keywords_resolved (t : tables) : Prop :=
  forall k, In k (keywords t) ->
    In (Keywords.Campaign_1 k) (map Campaigns.Campaign_1 (campaigns t)).

(** Every search term's targeting value is among the keywords. *)
Definition search_terms_resolved (t : tables) : Prop :=
  forall s, In s (search_terms t) ->
    In (Search_terms.Keyword s) (map Keywords.Keyword (keywords t)).

(** A dropdown selection lets a key through: nothing selected, or the key
    is one of the selected values. *)
Definition passes (selection : list string) (key : string) : bool :=
  match selection with [] => true | _ => isin key selection end.

(** Ascending by search-term text: every row is at or before all later rows. *)
Definition sorted_by_CST (df : list Search_terms.row) : Prop :=
  StronglySorted
    (fun r1 r2 => String.leb (Search_terms.CST r1) (Search_terms.CST r2) = true) df.

(** The search-term text of [r] occurs in at least two rows of [df]. *)
Definition repeated_CST (df : list Search_terms.row) (r : Search_terms.row) : bool :=
  (2 <=? count_key Search_terms.CST (Search_terms.CST r) df)%nat.

(** What holds of a keyword row with clicks = 5, orders = 0 and sales = 0:
    its Max Bid is 0, and its label is decided by the baseline alone. *)
Definition zero_sales_rule (baseline Max_Bid : num) (Action : string) : Prop :=
  Max_Bid = Fin 0 /\ round2 Max_Bid = Fin 0 /\
  ((Fin 0 <? baseline)%num = true -> Action = "Reduce Bid") /\
  ((baseline <? Fin 0)%num = true -> Action = "Increase Bid") /\
  (Action = "Pause" <->
     (Fin 0 <? baseline)%num = false /\ (baseline <? Fin 0)%num = false).

(** A non-negative amount. *)
Definition nonneg (a : num) : Prop :=
  match a with Fin q => 0 <= q | _ => False end.

(** Spend-over-sales of a campaign set as the specification words it:
    (sum of spend) / (sum of sales) x 100, and 0 when the sum of sales is 0. *)
Definition weighted_ACOS (campaigns : list Campaigns.row) : num :=
  let total_spend := sum (map Campaigns.Spend campaigns) in
  let total_sales := sum (map Campaigns.Sales campaigns) in
  if (total_sales =? Fin 0)%num then Fin 0
  else (total_spend / total_sales * Fin 100)%num.

(** ** A small account used in the examples

    Two campaigns carry the same keyword text; "red shoes" and "blue shoes"
    were each searched in both campaigns, "green shoes" only once. *)
Module Sample.

Definition campaigns : list Campaigns.row :=
  [ Campaigns.mk 0 "A" (Fin 40) (Fin 100) (Fin 20);
    Campaigns.mk 1 "B" (Fin 20) (Fin 50) (Fin 10) ].

Definition keywords : list Keywords.row :=
  [ Keywords.mk 0 "A" "shoes" "Do Nothing";
    Keywords.mk 1 "B" "shoes" "Pause" ].

Definition search_terms : list Search_terms.row :=
  [ Search_terms.mk 0 "A" "shoes" "red shoes" "Do Nothing";
    Search_terms.mk 1 "B" "shoes" "red shoes" "Negate";
    Search_terms.mk 2 "A" "shoes" "blue shoes" "Graduate";
    Search_terms.mk 3 "B" "shoes" "blue shoes" "Do Nothing";
    Search_terms.mk 4 "A" "shoes" "green shoes" "Do Nothing" ].

Definition metrics : tables := mk_tables campaigns keywords search_terms.

End Sample.

(** ** Small exports used in the examples of [calculate_metrics] *)
Module Sample_frames.
Import DataFrame.

Definition n (z : Z) : cell := Num (Fin (inject_Z z)).

Definition campaigns : frame :=
  mk_frame 1 [ ("Campaign Name", [Str "A"]); ("Impressions", [n 1000]);
               ("Clicks", [n 20]); ("Spend", [n 50]); ("Orders", [n 4]) ].

Definition keywords : frame :=
  mk_frame 1 [ ("Keyword Text", [Str "shoes"]); ("Clicks", [n 20]);
               ("Spend", [n 50]); ("CPC", [Num (Fin 2.5)]); ("Orders", [n 4]) ].

Definition search_terms : frame :=
  mk_frame 1 [ ("Customer Search Term", [Str "red shoes"]); ("Clicks", [n 5]);
               ("Spend", [n 1]); ("Sales", [n 10]); ("Orders", [n 3]) ].

(** A placements table that has its ACOS column but no "Percentage". *)
Definition placements_without_Percentage : frame :=
  mk_frame 1 [ ("Placement", [Str "Placement Top"]); ("ACOS", [Num (Fin 0.2)]) ].

Definition placements : frame :=
  mk_frame 1 [ ("Placement", [Str "Placement Top"]); ("Percentage", [n 10]);
               ("ACOS", [Num (Fin 0.2)]) ].

(** The keyword rows of an export without a "CPC" column. *)
Definition keywords_without_CPC : frame :=
  mk_frame 1 [ ("Keyword Text", [Str "shoes"]); ("Clicks", [n 20]);
               ("Spend", [n 50]); ("Orders", [n 4]) ].

(** The campaign rows of an export without a "Clicks" column. *)
Definition campaigns_without_Clicks : frame :=
  mk_frame 1 [ ("Campaign Name", [Str "A"]); ("Impressions", [n 1000]);
               ("Spend", [n 50]); ("Orders", [n 4]) ].

(** Tables with rows but none of the columns that are read. *)
Definition bare : frame := mk_frame 2 [ ("Entity", [Str "x"; Str "y"]) ].

End Sample_frames.

(** ** amazon_ads_audit_Server.py: the campaign table of [load_and_clean_data] *)

(** The part of [load_and_clean_data] that produces ["campaigns"]: column
    names stripped, the bulk columns renamed, rows without "Entity" dropped,
    and the rows whose "Entity" is "Campaign" kept.  (The merge that follows
    changes the keyword table only.)  The steps on the search-term sheet
    that run in between (its own strip, rename and
    [dropna(subset=["Campaign", "CST"])]) do not touch the bulk table and are
    not part of this function; they can stop the run on their own, so a
    table returned here is the table the source builds if it gets that far. *)
Module Server_load.
Import DataFrame.

Definition bulk_column_renames : list (string * string) :=
  [ ("Campaign Name", "Campaign");
    ("Campaign Name (Informational only)", "Campaign_1");
    ("Ad Group Name", "Ad Group");
    ("Ad Group Name (Informational only)", "Ad Group_1");
    ("Keyword Text", "Keyword");
    ("Impressions", "Imp");
    ("Click-through Rate", "CTR");
    ("Conversion Rate", "CVR") ].

(** [df.columns = df.columns.str.strip()] *)
Definition strip_columns (df : frame) : frame :=
  mk_frame (nrows df) (map (fun '(c, s) => (Py.strip c, s)) (cols df)).

(** [df.rename(columns=mapping, inplace=True)] *)
Definition rename (mapping : list (string * string)) (df : frame) : frame :=
  mk_frame (nrows df)
    (map (fun '(c, s) => (match lookup c mapping with Some c' => c' | None => c end, s))
         (cols df)).

Fixpoint select_cells {A} (mask : list bool) (s : list A) : list A :=
  match mask, s with
  | b :: mask', c :: s' => if b then c :: select_cells mask' s' else select_cells mask' s'
  | _, _ => []
  end.

(** [df[mask]] followed, where the source does it, by [reset_index(drop=True)]. *)
Definition select_rows (mask : list bool) (df : frame) : frame :=
  mk_frame (List.length (filter (fun b => b) (firstn (nrows df) mask)))
           (map (fun '(c, s) => (c, select_cells mask s)) (cols df)).

Definition notna (c : cell) : bool :=
  match c with Num NaN => false | _ => true end.

(** [df.dropna(subset=[col])] *)
Definition dropna_subset (df : frame) (col : string) : result frame :=
  s <- getitem df col ;; Ok (select_rows (map notna s) df).

(** [df[df[col] == text]] *)
Definition where_eq (df : frame) (col text : string) : result frame :=
  s <- getitem df col ;;
  Ok (select_rows
        (map (fun c => match c with Str x => x =? text | Num _ => false end) s) df).

Definition load_campaigns (bulk_data : frame) : result frame :=
  let bulk_data := strip_columns bulk_data in
  let bulk_data := rename bulk_column_renames bulk_data in
  bulk_data <- dropna_subset bulk_data "Entity" ;;
  where_eq bulk_data "Entity" "Campaign".

End Server_load.

(** A bulk sheet with one campaign row and one keyword row, and the
    keyword and search-term tables of the same account after renaming. *)
Module Sample_server.
Import DataFrame.

Definition bulk_data : frame :=
  mk_frame 2
    [ ("Entity", [Str "Campaign"; Str "Keyword"]);
      ("Campaign Name", [Str "A"; Num NaN]);
      ("Campaign Name (Informational only)", [Str "A"; Str "A"]);
      ("Keyword Text", [Num NaN; Str "shoes"]);
      ("Impressions", [Sample_frames.n 1000; Sample_frames.n 400]);
      ("Clicks", [Sample_frames.n 20; Sample_frames.n 8]);
      ("Spend", [Sample_frames.n 50; Sample_frames.n 20]);
      ("Sales", [Sample_frames.n 200; Sample_frames.n 80]);
      ("Orders", [Sample_frames.n 4; Sample_frames.n 2]);
      ("CPC", [Num (Fin 2.5); Num (Fin 2.5)]) ].

Definition keywords : frame :=
  mk_frame 1
    [ ("Campaign_1", [Str "A"]); ("Keyword", [Str "shoes"]);
      ("Imp", [Sample_frames.n 400]); ("Clicks", [Sample_frames.n 8]);
      ("Spend", [Sample_frames.n 20]); ("Sales", [Sample_frames.n 80]);
      ("Orders", [Sample_frames.n 2]); ("CPC", [Num (Fin 2.5)]) ].

Definition search_terms : frame :=
  mk_frame 1
    [ ("Campaign", [Str "A"]); ("Keyword", [Str "shoes"]);
      ("Match Type", [Str "BROAD"]); ("CST", [Str "red shoes"]);
      ("Clicks", [Sample_frames.n 5]); ("Spend", [Sample_frames.n 1]);
      ("Sales", [Sample_frames.n 10]); ("Orders", [Sample_frames.n 3]) ].

Definition search_terms_without_Match_Type : frame :=
  mk_frame 1
    [ ("Campaign", [Str "A"]); ("Keyword", [Str "shoes"]);
      ("CST", [Str "red shoes"]);
      ("Clicks", [Sample_frames.n 5]); ("Spend", [Sample_frames.n 1]);
      ("Sales", [Sample_frames.n 10]); ("Orders", [Sample_frames.n 3]) ].

Definition keywords_without_CPC : frame :=
  mk_frame 1
    [ ("Campaign_1", [Str "A"]); ("Keyword", [Str "shoes"]);
      ("Imp", [Sample_frames.n 400]); ("Clicks", [Sample_frames.n 8]);
      ("Spend", [Sample_frames.n 20]); ("Sales", [Sample_frames.n 80]);
      ("Orders", [Sample_frames.n 2]) ].

End Sample_server.

(** ** Vocabulary of the further properties *)

(** [l'] is [l] with some rows left out, the others in their order. *)
Inductive subseq {A : Type} : list A -> list A -> Prop :=
| subseq_nil : subseq [] []
| subseq_keep (x : A) (l' l : list A) : subseq l' l -> subseq (x :: l') (x :: l)
| subseq_drop (x : A) (l' l : list A) : subseq l' l -> subseq l' (x :: l).

(** Every campaign is named by at least one keyword. *)
Definition campaigns_used (t : tables) : Prop :=
  forall c, In c (campaigns t) ->
    In (Campaigns.Campaign_1 c) (map Keywords.Campaign_1 (keywords t)).

(** Every keyword is targeted by at least one search term. *)
Definition keywords_used (t : tables) : Prop :=
  forall k, In k (keywords t) ->
    In (Keywords.Keyword k) (map Search_terms.Keyword (search_terms t)).

(** The callback was triggered by one of the three search-term action
    buttons or by "Find Duplicates". *)
Definition search_term_button (triggered : option string) : bool :=
  match Server_app.search_term_filter_of triggered with
  | (Some _, _) => true
  | (None, d) => d
  end.

(** The run does not stop on a missing column. *)
Definition no_KeyError {A : Type} (r : DataFrame.result A) : Prop :=
  forall key, r <> DataFrame.Raise (DataFrame.KeyError key).

(** All the columns of a list are in the table. *)
Definition has_columns (df : DataFrame.frame) (l : list string) : bool :=
  forallb (DataFrame.has_column df) l.

(** The campaign table loaded from [Sample_server.bulk_data], and the
    tables computed from it with target 0.30. *)
Module Sample_server_run.
Import DataFrame.

Definition campaigns : frame :=
  Eval vm_compute in
    match Server_load.load_campaigns Sample_server.bulk_data with
    | Ok c => c
    | Raise _ => mk_frame 0 []
    end.

Definition out : data :=
  Eval vm_compute in
    match Metrics.On_server.calculate_metrics
            (mk_data campaigns Sample_server.keywords Sample_server.search_terms
               Sample_frames.placements) (Fin 0.3) with
    | Ok o => o
    | Raise _ => mk_data (mk_frame 0 []) (mk_frame 0 []) (mk_frame 0 []) (mk_frame 0 [])
    end.

End Sample_server_run.

(** *** Back_up_Final.py: calculate_metrics on whole tables *)
Module Metrics_back_up_final.
Import DataFrame.

Definition search_terms_Action_row (target_acos : num) (r : row) : result string :=
  ifM (andM (liftM2 ltb (row_num r "ACOS") (Ok target_acos))
            (liftM2 geb (row_num r "7 Day Total Orders (#)") (Ok (Fin 2))))
      (Ok "Graduate")
  (ifM (andM (liftM2 gtb (row_num r "Clicks") (Ok (Fin 3)))
             (row_eq_num r "7 Day Total Orders (#)" (Fin 0)))
       (Ok "Negate") (Ok "Do Nothing")).

Definition required_columns : list string * list string * list string :=
  (["Sales"; "Clicks"; "Impressions"; "Spend"; "Orders"; "Daily Budget";
    "Bidding Strategy"],
   ["Sales"; "Clicks"; "Spend"; "Orders"; "Ad Group Name"; "Campaign Name"],
   ["Sales"; "Clicks"; "Spend"; "Orders"; "Ad Group Name"; "Campaign Name"]).

Definition calculate_metrics (d : data) (target_acos : num) : result data :=
  let campaigns := d_campaigns d in
  let keywords := d_keywords d in
  let search_terms := d_search_terms d in
  search_terms <- Metrics.update_if_present search_terms "Click-Thru Rate (CTR)"
                    Metrics.On_server.percent2 ;;
  search_terms <- Metrics.update_if_present search_terms
                    "Total Advertising Cost of Sales (ACOS) "
                    Metrics.On_server.percent2 ;;
  search_terms <- Metrics.update_if_present search_terms "7 Day Conversion Rate"
                    Metrics.On_server.percent2 ;;
  search_terms <- Metrics.update_if_present search_terms "Cost Per Click (CPC)" round2 ;;
  search_terms <- Metrics.update_if_present search_terms "Spend" round2 ;;
  search_terms <- Metrics.update_if_present search_terms "7 Day Total Sales " round2 ;;
  let '(rc, rk, rs) := required_columns in
  let campaigns := fold_left ensure_column rc campaigns in
  let keywords := fold_left ensure_column rk keywords in
  let search_terms := fold_left ensure_column rs search_terms in
  campaigns <- Metrics.set_zip campaigns "CTR" Back_up_Final.campaigns_CTR
                 "Clicks" "Impressions" ;;
  campaigns <- Metrics.set_zip campaigns "CPC" Back_up_Final.campaigns_CPC
                 "Spend" "Clicks" ;;
  campaigns <- Metrics.set_zip campaigns "ACOS" Back_up_Final.campaigns_ACOS
                 "Spend" "Sales" ;;
  campaigns <- Metrics.set_zip campaigns "Conversion Rate"
                 Back_up_Final.campaigns_Conversion_Rate "Orders" "Clicks" ;;
  campaigns <- Metrics.set_map campaigns "Spend" round2 "Spend" ;;
  keywords <- Metrics.set_zip keywords "Max Bid"
                (Back_up_Final.keywords_Max_Bid target_acos) "Sales" "Clicks" ;;
  keywords <- Metrics.set_Action keywords (Metrics.keywords_Action_row "Spend") ;;
  keywords <- Metrics.set_map keywords "Click-through Rate"
                Metrics.On_server.percent2 "Click-through Rate" ;;
  keywords <- Metrics.set_map keywords "Conversion Rate"
                Metrics.On_server.percent2 "Conversion Rate" ;;
  keywords <- Metrics.set_map keywords "ACOS" Metrics.On_server.percent2 "ACOS" ;;
  keywords <- Metrics.set_map keywords "Max Bid" round2 "Max Bid" ;;
  search_terms <- Metrics.set_zip search_terms "ACOS" Back_up_Final.search_terms_ACOS
                    "Spend" "7 Day Total Sales " ;;
  search_terms <- Metrics.set_Action search_terms (search_terms_Action_row target_acos) ;;
  Ok (mk_data campaigns keywords search_terms (d_placements d)).

End Metrics_back_up_final.

(** The keyword and search-term tables of an export as Back_up_Final.py
    receives them. *)
Module Sample_back_up.
Import DataFrame.

Definition keywords : frame :=
  mk_frame 1
    [ ("Keyword Text", [Str "shoes"]); ("Clicks", [Sample_frames.n 8]);
      ("Spend", [Sample_frames.n 20]); ("Sales", [Sample_frames.n 80]);
      ("Orders", [Sample_frames.n 2]); ("Click-through Rate", [Num (Fin 0.02)]);
      ("Conversion Rate", [Num (Fin 0.25)]); ("ACOS", [Num (Fin 0.25)]) ].

Definition search_terms : frame :=
  mk_frame 1
    [ ("Customer Search Term", [Str "red shoes"]); ("Clicks", [Sample_frames.n 5]);
      ("Spend", [Sample_frames.n 1]); ("7 Day Total Sales ", [Sample_frames.n 0]);
      ("7 Day Total Orders (#)", [Sample_frames.n 0]) ].

End Sample_back_up.

(** ** amazon_ads_audit.py: generate_audit_summary *)

(** The numbers of the summary dictionary before they are formatted into
    texts; the campaign columns are passed as lists, the other tables by
    their "Action" columns. *)
Module Amazon_summary.

(** Round half to even at one decimal, as [round(x, 1)]. *)
Definition round1 (a : num) : num :=
  match a with
  | Fin q => Fin (Qred (inject_Z (rint (q * 10)) / 10))
  | _ => a
  end.

(** [len(df[df["Action"] == label])] *)
Definition count_Action (label : string) (Action : list string) : nat :=
  List.length (filter (fun a => a =? label) Action).

Record summary : Type := mk
  { Total_Campaigns : nat;
    Total_Keywords : nat;
    Total_Search_Terms : nat;
    ACOS : num;
    Total_Revenue : num;
    Total_Spend : num;
    Total_Clicks : num;
    Total_Orders : num;
    Conversion_Rate : num;
    Increase_Placement_Percentage_Actions : nat;
    Decrease_Placement_Percentage_Actions : nat;
    Increase_Bid_Actions : nat;
    Reduce_Bid_Actions : nat;
    Pause_Keyword_Actions : nat;
    Graduate_Search_Term_Actions : nat;
    Negate_Search_Term_Actions : nat }.

(** [round((Orders.sum() / Clicks.sum()) * 100, 1) if Clicks.sum() > 0 else 0] *)
Definition conversion_rate (Orders Clicks : list num) : num :=
  if (sum Clicks >? Fin 0)%num
  then round1 (sum Orders / sum Clicks * Fin 100)%num
  else Fin 0.

(** The campaign table has one cell per row in each of its columns;
    [Total_Clicks] and [Total_Orders] are the sums passed to [int(...)]. *)
Definition generate_audit_summary
    (campaigns_ACOS campaigns_Sales campaigns_Spend campaigns_Clicks
       campaigns_Orders : list num)
    (keywords_Action search_terms_Action placements_Action : list string) : summary :=
  {| Total_Campaigns := List.length campaigns_ACOS;
     Total_Keywords := List.length keywords_Action;
     Total_Search_Terms := List.length search_terms_Action;
     ACOS := round1 (mean campaigns_ACOS * Fin 100)%num;
     Total_Revenue := round2 (sum campaigns_Sales);
     Total_Spend := round2 (sum campaigns_Spend);
     Total_Clicks := sum campaigns_Clicks;
     Total_Orders := sum campaigns_Orders;
     Conversion_Rate := conversion_rate campaigns_Orders campaigns_Clicks;
     Increase_Placement_Percentage_Actions :=
       count_Action "Increase Placement Percentage" placements_Action;
     Decrease_Placement_Percentage_Actions :=
       count_Action "Decrease Placement Percentage" placements_Action;
     Increase_Bid_Actions := count_Action "Increase Bid" keywords_Action;
     Reduce_Bid_Actions := count_Action "Reduce Bid" keywords_Action;
     Pause_Keyword_Actions := count_Action "Pause" keywords_Action;
     Graduate_Search_Term_Actions := count_Action "Graduate" search_terms_Action;
     Negate_Search_Term_Actions := count_Action "Negate" search_terms_Action |}.

End Amazon_summary.

(** What the keyword rule promises about every row, blank cells included:
    "Pause" is given only when [Max_Bid] is neither above nor below
    [baseline], which for two values that are not NaN means equal. *)
Definition pause_rule (Max_Bid baseline : num) (Action : string) : Prop :=
  (Action = "Pause" ->
   (Max_Bid >? baseline)%num = false /\ (Max_Bid <? baseline)%num = false) /\
  (Action = "Pause" -> Max_Bid <> NaN -> baseline <> NaN ->
   (Max_Bid =? baseline)%num = true) /\
  ((Max_Bid >? baseline)%num = true -> Action = "Increase Bid") /\
  ((Max_Bid <? baseline)%num = true -> Action = "Reduce Bid").

(* ================================================================== *)
(** * Properties *)
(* ================================================================== *)

(** ** Numbers *)

#[local] Arguments Qred : simpl never.

Lemma Qlt_bool_iff (a b : Q) : Qlt_bool a b = true <-> a < b.
Proof.
  unfold Qlt_bool. rewrite negb_true_iff. split; intro H.
  - apply Qnot_le_lt. intro Hle. apply Qle_bool_iff in Hle. congruence.
  - destruct (Qle_bool b a) eqn:E; [|reflexivity].
    apply Qle_bool_iff in E. exfalso. exact (Qlt_not_le _ _ H E).
Qed.

Lemma Qlt_bool_false_iff (a b : Q) : Qlt_bool a b = false <-> b <= a.
Proof.
  unfold Qlt_bool. rewrite negb_false_iff. apply Qle_bool_iff.
Qed.

Lemma ltb_asym (a b : num) : (a <? b)%num = true -> (b <? a)%num = false.
Proof.
  destruct a as [x| | |], b as [y| | |]; simpl; try congruence.
  intro H. apply Qlt_bool_iff in H. apply Qlt_bool_false_iff.
  now apply Qlt_le_weak.
Qed.

Lemma ltb_irrefl_eqb (a b : num) : (a =? b)%num = true -> (a <? b)%num = false.
Proof.
  destruct a as [x| | |], b as [y| | |]; simpl; try congruence.
  intro H. apply Qeq_bool_iff in H. apply Qlt_bool_false_iff.
  rewrite H. apply Qle_refl.
Qed.

(** Two numbers that are not NaN are ordered or equal. *)
Lemma ltb_trichotomy (a b : num) :
  a <> NaN -> b <> NaN ->
  (a <? b)%num = false -> (b <? a)%num = false -> (a =? b)%num = true.
Proof.
  destruct a as [x| | |], b as [y| | |]; simpl; try congruence.
  intros _ _ H1 H2. apply Qlt_bool_false_iff in H1, H2.
  apply Qeq_bool_iff. now apply Qle_antisym.
Qed.

Lemma is_finite_not_NaN (a : num) : is_finite a -> a <> NaN.
Proof. destruct a; simpl; intros H; congruence || contradiction. Qed.

Lemma replace_0_1_finite (a : num) :
  is_finite a -> exists q, replace a (Fin 0) (Fin 1) = Fin q /\ ~ q == 0.
Proof.
  destruct a as [x| | |]; simpl; try contradiction. intros _.
  unfold replace. simpl. destruct (Qeq_bool x 0) eqn:E.
  - exists 1. split; [reflexivity|]. discriminate.
  - exists x. split; [reflexivity|]. intro H. apply Qeq_bool_iff in H. congruence.
Qed.

(** With the denominator's zero replaced by one, a quotient of numbers is a number. *)
Lemma div_replace_finite (a b : num) :
  is_finite a -> is_finite b -> is_finite (a / replace b (Fin 0) (Fin 1))%num.
Proof.
  intros Ha Hb. destruct (replace_0_1_finite b Hb) as [q [-> Hq]].
  destruct a as [x| | |]; simpl in *; try contradiction.
  destruct (Qeq_bool q 0) eqn:E; [|exact I].
  apply Qeq_bool_iff in E. contradiction.
Qed.

Lemma mul_finite (a b : num) : is_finite a -> is_finite b -> is_finite (a * b)%num.
Proof. destruct a, b; simpl; tauto. Qed.

Lemma round2_finite (a : num) : is_finite a -> is_finite (round2 a).
Proof. destruct a; simpl; tauto. Qed.



(** ** The keyword action rule *)

Section keyword_rule.

(** The lambda is the same text in the four scripts. *)
Lemma keywords_Action_same (mb base clicks orders : num) :
  Dash_audit.keywords_Action mb base clicks orders
    = Server.keywords_Action mb base clicks orders /\
  Amazon_ads_audit.keywords_Action mb base clicks orders
    = Server.keywords_Action mb base clicks orders /\
  Back_up_Final.keywords_Action mb base clicks orders
    = Server.keywords_Action mb base clicks orders.
Proof. repeat split. Qed.

Lemma keywords_Action_gt (mb base clicks orders : num) :
  (mb >? base)%num = true ->
  Server.keywords_Action mb base clicks orders = "Increase Bid".
Proof. unfold Server.keywords_Action. now intros ->. Qed.

Lemma keywords_Action_lt (mb base clicks orders : num) :
  (mb <? base)%num = true ->
  Server.keywords_Action mb base clicks orders = "Reduce Bid".
Proof.
  unfold Server.keywords_Action, gtb. intros H.
  rewrite (ltb_asym _ _ H), H. reflexivity.
Qed.

Lemma keywords_Action_Pause (mb base clicks orders : num) :
  Server.keywords_Action mb base clicks orders = "Pause" <->
  (mb >? base)%num = false /\ (mb <? base)%num = false /\
  (clicks >? Fin 4)%num = true /\ (orders =? Fin 0)%num = true.
Proof.
  unfold Server.keywords_Action.
  destruct (mb >? base)%num; [split; [discriminate|intros [? _]; discriminate]|].
  destruct (mb <? base)%num; [split; [discriminate|intros [_ [? _]]; discriminate]|].
  destruct (clicks >? Fin 4)%num, (orders =? Fin 0)%num; simpl;
    split; try discriminate; intuition discriminate.
Qed.

Lemma keywords_Max_Bid_finite (target sales clicks : num) :
  is_finite target -> is_finite sales -> is_finite clicks ->
  is_finite (Server.keywords_Max_Bid target sales clicks).
Proof.
  intros Ht Hs Hc. unfold Server.keywords_Max_Bid, Server.keywords_RPC.
  apply mul_finite; [apply div_replace_finite|]; assumption.
Qed.

End keyword_rule.

Lemma bid_rule_holds (mb base clicks orders : num) :
  mb <> NaN -> base <> NaN ->
  bid_rule mb base (Server.keywords_Action mb base clicks orders).
Proof.
  intros Hm Hb. repeat split.
  - intros H. apply keywords_Action_Pause in H. destruct H as (H1 & H2 & _).
    unfold gtb in H1. now apply ltb_trichotomy.
  - apply keywords_Action_gt.
  - apply keywords_Action_lt.
Qed.

Lemma pause_rule_holds (mb base clicks orders : num) :
  pause_rule mb base (Server.keywords_Action mb base clicks orders).
Proof.
  split; [|split; [|split]].
  - intros H. apply keywords_Action_Pause in H. tauto.
  - intros H Hm Hb. apply keywords_Action_Pause in H. destruct H as (H1 & H2 & _).
    unfold gtb in H1. now apply ltb_trichotomy.
  - apply keywords_Action_gt.
  - apply keywords_Action_lt.
Qed.

(** C10, as stated, fails: a keyword row with sales 0, 5 clicks, no order
    and a blank CPC cell (NaN) has Max Bid 0, which is neither above nor
    below NaN, and is labelled "Pause" although its Max Bid is not equal
    to the baseline. *)
Lemma C10_counterexample :
  Server.keywords_Max_Bid (Fin 0.3) (Fin 0) (Fin 5) = Fin 0 /\
  Server.keywords_Action (Server.keywords_Max_Bid (Fin 0.3) (Fin 0) (Fin 5))
    NaN (Fin 5) (Fin 0) = "Pause" /\
  (Server.keywords_Max_Bid (Fin 0.3) (Fin 0) (Fin 5) =? NaN)%num = false.
Proof. repeat split. Qed.

(** C10 (amended).  In every script the keyword lambda labels a row
    "Pause" only when its Max Bid is neither above nor below the baseline
    it is compared with (Spend in dash_audit.py and Back_up_Final.py, CPC
    in amazon_ads_audit.py and amazon_ads_audit_Server.py); when neither
    value is NaN, that is, no cell involved is blank, this means that the
    Max Bid equals the baseline.  A Max Bid above the baseline gives
    "Increase Bid" and one below gives "Reduce Bid", whatever Clicks and
    Orders are. *)
Theorem C10_pause_only_when_bid_comparison_undecided
    (target_acos Sales Clicks Orders baseline : num) :
  pause_rule (Dash_audit.keywords_Max_Bid target_acos Sales Clicks) baseline
    (Dash_audit.keywords_Action
       (Dash_audit.keywords_Max_Bid target_acos Sales Clicks) baseline Clicks Orders) /\
  pause_rule (Amazon_ads_audit.keywords_Max_Bid target_acos Sales Clicks) baseline
    (Amazon_ads_audit.keywords_Action
       (Amazon_ads_audit.keywords_Max_Bid target_acos Sales Clicks) baseline Clicks Orders) /\
  pause_rule (Back_up_Final.keywords_Max_Bid target_acos Sales Clicks) baseline
    (Back_up_Final.keywords_Action
       (Back_up_Final.keywords_Max_Bid target_acos Sales Clicks) baseline Clicks Orders) /\
  pause_rule (Server.keywords_Max_Bid target_acos Sales Clicks) baseline
    (Server.keywords_Action
       (Server.keywords_Max_Bid target_acos Sales Clicks) baseline Clicks Orders).
Proof.
  pose proof (pause_rule_holds (Server.keywords_Max_Bid target_acos Sales Clicks)
                baseline Clicks Orders) as H.
  split; [exact H|]. split; [exact H|]. split; exact H.
Qed.

(** On rows whose cells are numbers the Max Bid is a number too, and
    "Pause" then means an exact tie. *)
Lemma pause_means_equal_on_numbers (target_acos Sales Clicks Orders baseline : num) :
  is_finite target_acos -> is_finite Sales -> is_finite Clicks -> is_finite baseline ->
  bid_rule (Server.keywords_Max_Bid target_acos Sales Clicks) baseline
    (Server.keywords_Action
       (Server.keywords_Max_Bid target_acos Sales Clicks) baseline Clicks Orders).
Proof.
  intros Ht Hs Hc Hb. apply bid_rule_holds.
  - apply is_finite_not_NaN, keywords_Max_Bid_finite; assumption.
  - now apply is_finite_not_NaN.
Qed.

(** A blank baseline cell is NaN: it is neither above nor below the Max
    Bid, so the row falls through to the click rule without being equal. *)
Lemma keywords_Action_blank_baseline :
  Server.keywords_Action (Fin 0) NaN (Fin 5) (Fin 0) = "Pause" /\
  (Fin 0 =? NaN)%num = false.
Proof. split; reflexivity. Qed.

(** ** A keyword without sales: clicks = 5, orders = 0, sales = 0, target 0.30 *)

Lemma zero_sales_Max_Bid :
  Server.keywords_Max_Bid (Fin 0.3) (Fin 0) (Fin 5) = Fin 0 /\
  round2 (Server.keywords_Max_Bid (Fin 0.3) (Fin 0) (Fin 5)) = Fin 0.
Proof. split; reflexivity. Qed.

Lemma zero_sales_Action (baseline : num) :
  let Action := Server.keywords_Action (Fin 0) baseline (Fin 5) (Fin 0) in
  ((Fin 0 <? baseline)%num = true -> Action = "Reduce Bid") /\
  ((baseline <? Fin 0)%num = true -> Action = "Increase Bid") /\
  (Action = "Pause" <->
     (Fin 0 <? baseline)%num = false /\ (baseline <? Fin 0)%num = false).
Proof.
  cbv zeta. split; [|split].
  - apply keywords_Action_lt.
  - apply keywords_Action_gt.
  - rewrite keywords_Action_Pause. unfold gtb. simpl. tauto.
Qed.

(** C3, as stated, fails: in dash_audit.py a keyword with clicks = 5,
    orders = 0, sales = 0 that spent 4.00 has Max Bid 0 below its Spend and
    is labelled "Reduce Bid", not "Pause". *)
Lemma C3_counterexample :
  ~ (forall Spend : num,
       is_finite Spend ->
       Dash_audit.keywords_Action
         (Dash_audit.keywords_Max_Bid (Fin 0.3) (Fin 0) (Fin 5))
         Spend (Fin 5) (Fin 0) = "Pause").
Proof.
  intros H. specialize (H (Fin 4) I). vm_compute in H. discriminate.
Qed.

Lemma zero_sales_rule_holds (baseline : num) :
  zero_sales_rule baseline (Server.keywords_Max_Bid (Fin 0.3) (Fin 0) (Fin 5))
    (Server.keywords_Action (Server.keywords_Max_Bid (Fin 0.3) (Fin 0) (Fin 5))
       baseline (Fin 5) (Fin 0)).
Proof.
  destruct zero_sales_Max_Bid as [E1 E2]. rewrite E1.
  split; [reflexivity|]. split; [reflexivity|]. apply zero_sales_Action.
Qed.

(** C3 (amended).  For a keyword row with clicks = 5, orders = 0, sales = 0
    and target ratio 0.30, every script computes Max Bid = 0.00.  The label
    is "Reduce Bid" when the baseline (Spend or CPC) is above 0, "Increase
    Bid" when it is below 0, and "Pause" exactly when the baseline is
    neither above nor below 0. *)
Theorem C3_zero_sales_keyword (baseline : num) :
  zero_sales_rule baseline
    (Dash_audit.keywords_Max_Bid (Fin 0.3) (Fin 0) (Fin 5))
    (Dash_audit.keywords_Action
       (Dash_audit.keywords_Max_Bid (Fin 0.3) (Fin 0) (Fin 5)) baseline (Fin 5) (Fin 0)) /\
  zero_sales_rule baseline
    (Amazon_ads_audit.keywords_Max_Bid (Fin 0.3) (Fin 0) (Fin 5))
    (Amazon_ads_audit.keywords_Action
       (Amazon_ads_audit.keywords_Max_Bid (Fin 0.3) (Fin 0) (Fin 5)) baseline (Fin 5) (Fin 0)) /\
  zero_sales_rule baseline
    (Back_up_Final.keywords_Max_Bid (Fin 0.3) (Fin 0) (Fin 5))
    (Back_up_Final.keywords_Action
       (Back_up_Final.keywords_Max_Bid (Fin 0.3) (Fin 0) (Fin 5)) baseline (Fin 5) (Fin 0)) /\
  zero_sales_rule baseline
    (Server.keywords_Max_Bid (Fin 0.3) (Fin 0) (Fin 5))
    (Server.keywords_Action
       (Server.keywords_Max_Bid (Fin 0.3) (Fin 0) (Fin 5)) baseline (Fin 5) (Fin 0)).
Proof.
  pose proof (zero_sales_rule_holds baseline) as H.
  split; [exact H|]. split; [exact H|]. split; exact H.
Qed.

(** ** The search-term rule *)

Lemma andb3_true (a b c : bool) :
  a && b && c = true <-> a = true /\ b = true /\ c = true.
Proof. destruct a, b, c; simpl; intuition discriminate. Qed.

Lemma Server_Graduate_iff (target_acos ACOS Orders Clicks : num) (Match_Type : string) :
  Server.search_terms_Action target_acos ACOS Orders Clicks Match_Type = "Graduate" <->
  (ACOS <? target_acos * Fin 100)%num = true /\ (Orders >=? Fin 2)%num = true /\
  Py.lower (Py.strip Match_Type) <> "exact".
Proof.
  unfold Server.search_terms_Action.
  rewrite <- String.eqb_neq, <- negb_true_iff, <- andb3_true.
  destruct (_ && _ && _); [tauto|].
  destruct (_ && _); split; discriminate.
Qed.

Lemma Back_up_Final_Graduate_iff (target_acos ACOS Orders Clicks : num) :
  Back_up_Final.search_terms_Action target_acos ACOS Orders Clicks = "Graduate" <->
  (ACOS <? target_acos)%num = true /\ (Orders >=? Fin 2)%num = true.
Proof.
  unfold Back_up_Final.search_terms_Action. rewrite <- andb_true_iff.
  destruct ((ACOS <? target_acos)%num && (Orders >=? Fin 2)%num); [tauto|].
  destruct (_ && _); split; discriminate.
Qed.

Lemma Dash_audit_Graduate_iff (target_acos ACOS Orders Clicks : num) :
  Dash_audit.search_terms_Action target_acos ACOS Orders Clicks = "Graduate" <->
  (ACOS <? target_acos)%num = true /\ (Orders >? Fin 2)%num = true.
Proof.
  unfold Dash_audit.search_terms_Action. rewrite <- andb_true_iff.
  destruct ((ACOS <? target_acos)%num && (Orders >? Fin 2)%num); [tauto|].
  destruct (_ && _); split; discriminate.
Qed.

(** C4, as stated, fails: dash_audit.py asks for more than two orders, so a
    broad-match term with ACOS 10%, two orders and target 30% is not
    graduated. *)
Lemma C4_counterexample :
  (Fin 0.1 <? Fin 0.3)%num = true /\ (Fin 2 >=? Fin 2)%num = true /\
  Py.lower (Py.strip "broad") <> "exact" /\
  Dash_audit.search_terms_Action (Fin 0.3) (Fin 0.1) (Fin 2) (Fin 10) <> "Graduate".
Proof. repeat split; vm_compute; discriminate. Qed.

(** C4 (amended).  amazon_ads_audit_Server.py labels a search term
    "Graduate" exactly when its ACOS (in percent) is below the target
    percentage, it has at least 2 orders and its match type, trimmed and
    lower-cased, is not "exact".  Back_up_Final.py has no match-type
    condition (ACOS below target and at least 2 orders); dash_audit.py and
    amazon_ads_audit.py graduate exactly when ACOS is below target and
    there are more than 2 orders.  A term with ACOS 10%, 3 orders, match
    type "broad" and target 30% is "Graduate" in all four. *)
Theorem C4_graduate_rule (target_acos ACOS Orders Clicks : num) (Match_Type : string) :
  (Server.search_terms_Action target_acos ACOS Orders Clicks Match_Type = "Graduate" <->
     (ACOS <? target_acos * Fin 100)%num = true /\ (Orders >=? Fin 2)%num = true /\
     Py.lower (Py.strip Match_Type) <> "exact") /\
  (Back_up_Final.search_terms_Action target_acos ACOS Orders Clicks = "Graduate" <->
     (ACOS <? target_acos)%num = true /\ (Orders >=? Fin 2)%num = true) /\
  (Dash_audit.search_terms_Action target_acos ACOS Orders Clicks = "Graduate" <->
     (ACOS <? target_acos)%num = true /\ (Orders >? Fin 2)%num = true) /\
  (Amazon_ads_audit.search_terms_Action target_acos ACOS Orders Clicks = "Graduate" <->
     (ACOS <? target_acos)%num = true /\ (Orders >? Fin 2)%num = true) /\
  Server.search_terms_Action (Fin 0.3) (Fin 10) (Fin 3) Clicks "broad" = "Graduate" /\
  Back_up_Final.search_terms_Action (Fin 0.3) (Fin 0.1) (Fin 3) Clicks = "Graduate" /\
  Dash_audit.search_terms_Action (Fin 0.3) (Fin 0.1) (Fin 3) Clicks = "Graduate" /\
  Amazon_ads_audit.search_terms_Action (Fin 0.3) (Fin 0.1) (Fin 3) Clicks = "Graduate".
Proof.
  split; [apply Server_Graduate_iff|].
  split; [apply Back_up_Final_Graduate_iff|].
  split; [apply Dash_audit_Graduate_iff|].
  split; [apply (Dash_audit_Graduate_iff target_acos ACOS Orders Clicks)|].
  repeat split.
Qed.

(** ** Zero denominators *)

(** The specification's campaign: impressions 1000, clicks 20, spend 50,
    sales 200 has CTR 2.0% and ACOS 25.0% where the scripts scale, 0.02 and
    0.25 where they do not. *)
Example campaign_of_the_specification :
  Server.campaigns_CTR (Fin 20) (Fin 1000) = Fin 2 /\
  Server.campaigns_ACOS (Fin 50) (Fin 200) = Fin 25 /\
  Dash_audit.campaigns_CTR (Fin 20) (Fin 1000) = Fin (1 # 50) /\
  Dash_audit.campaigns_ACOS (Fin 50) (Fin 200) = Fin (1 # 4) /\
  Py.lower (Py.strip "  Exact ") = "exact".
Proof. repeat split. Qed.

(** Where the zero of the denominator is replaced by one, numbers give numbers. *)
Lemma campaigns_CPC_ACOS_finite (Spend Clicks Sales : num) :
  is_finite Spend -> is_finite Clicks -> is_finite Sales ->
  is_finite (Dash_audit.campaigns_CPC Spend Clicks) /\
  is_finite (Dash_audit.campaigns_ACOS Spend Sales) /\
  is_finite (Server.campaigns_CPC Spend Clicks) /\
  is_finite (Server.campaigns_ACOS Spend Sales).
Proof.
  intros Hs Hc Ha.
  unfold Dash_audit.campaigns_CPC, Dash_audit.campaigns_ACOS,
    Server.campaigns_CPC, Server.campaigns_ACOS.
  repeat split;
    repeat first [apply round2_finite | apply mul_finite
                 | apply div_replace_finite | assumption | exact I].
Qed.

(** [fillna(0)] repairs 0/0 only. *)
Lemma campaigns_CTR_no_impressions (Clicks : num) :
  Dash_audit.campaigns_CTR Clicks (Fin 0) =
    match Clicks with
    | Fin c => if Qeq_bool c 0 then Fin 0 else if Qlt_bool 0 c then PInf else NInf
    | PInf => PInf
    | NInf => NInf
    | NaN => Fin 0
    end.
Proof.
  destruct Clicks as [c| | |]; try reflexivity.
  unfold Dash_audit.campaigns_CTR. simpl.
  destruct (Qeq_bool c 0); [reflexivity|]. destruct (Qlt_bool 0 c); reflexivity.
Qed.

(** C2.  The claim does not hold of the code: a campaign with 5 clicks and
    0 impressions gets CTR = +inf in dash_audit.py (and in the two scripts
    that scale by 100), where the claim says 0; an order without a click
    gives an infinite conversion rate; Back_up_Final.py divides Spend by
    "7 Day Total Sales " without any guard, so a search term without sales
    gets ACOS = +inf or NaN; and amazon_ads_audit_Server.py leaves 0/0 as
    NaN in the search terms' ACOS. *)
Theorem C2_zero_denominators_evaluated :
  Dash_audit.campaigns_CTR (Fin 5) (Fin 0) = PInf /\
  Amazon_ads_audit.campaigns_CTR (Fin 5) (Fin 0) = PInf /\
  Back_up_Final.campaigns_CTR (Fin 5) (Fin 0) = PInf /\
  Server.campaigns_CTR (Fin 5) (Fin 0) = PInf /\
  Server.campaigns_Conversion_Rate (Fin 1) (Fin 0) = PInf /\
  Back_up_Final.search_terms_ACOS (Fin 5) (Fin 0) = PInf /\
  Back_up_Final.search_terms_ACOS (Fin 0) (Fin 0) = NaN /\
  Server.search_terms_ACOS (Fin 0) (Fin 0) = NaN.
Proof. repeat split. Qed.

(** ** Campaign CPC *)

(** C5.  The claim does not hold of the code: amazon_ads_audit_Server.py
    and Back_up_Final.py multiply the campaign CPC by 100 before rounding,
    so spend 50 over 20 clicks is stored as 250.0 and not 2.50;
    dash_audit.py and amazon_ads_audit.py store 2.5, unscaled. *)
Theorem C5_campaign_CPC_evaluated :
  Server.campaigns_CPC (Fin 50) (Fin 20) = Fin 250 /\
  Back_up_Final.campaigns_CPC (Fin 50) (Fin 20) = Fin 250 /\
  Dash_audit.campaigns_CPC (Fin 50) (Fin 20) = Fin (5 # 2) /\
  Amazon_ads_audit.campaigns_CPC (Fin 50) (Fin 20) = Fin (5 # 2) /\
  (forall Spend Clicks,
     Server.campaigns_CPC Spend Clicks
       = round2 (Dash_audit.campaigns_CPC Spend Clicks * Fin 100)%num) /\
  (forall Spend, Dash_audit.campaigns_CPC Spend (Fin 0) = (Spend / Fin 1)%num).
Proof. repeat split. Qed.

(** ** The summary's ACOS *)

Lemma sum_from_nonneg (s : list num) (a : Q) :
  Forall nonneg s -> 0 <= a ->
  exists t, fold_left (fun acc x => match x with NaN => acc | _ => add acc x end)
                      s (Fin a) = Fin t /\ 0 <= t.
Proof.
  revert a. induction s as [|x s IH]; intros a Hs Ha; simpl.
  - exists a. split; [reflexivity|assumption].
  - inversion Hs as [|? ? Hx Hs']; subst.
    destruct x as [q| | |]; simpl in Hx; try contradiction.
    simpl. apply IH; [assumption|].
    rewrite Qred_correct. rewrite <- (Qplus_0_r 0). now apply Qplus_le_compat.
Qed.

Lemma sum_nonneg (s : list num) :
  Forall nonneg s -> exists t, sum s = Fin t /\ 0 <= t.
Proof. intros Hs. apply sum_from_nonneg; [assumption|apply Qle_refl]. Qed.

(** With sales that are amounts, the callback's guard [total_sales > 0]
    separates exactly the cases of the weighted ratio. *)
Lemma average_acos_weighted (cs : list Campaigns.row) :
  Forall (fun r => nonneg (Campaigns.Sales r)) cs ->
  Server_app.average_acos cs = weighted_ACOS cs.
Proof.
  intros H. unfold Server_app.average_acos, weighted_ACOS.
  destruct (sum_nonneg (map Campaigns.Sales cs)) as [t [-> Ht]].
  { now apply Forall_map. }
  unfold gtb. simpl.
  destruct (Qeq_bool t 0) eqn:E.
  - apply Qeq_bool_iff in E.
    replace (Qlt_bool 0 t) with false; [reflexivity|].
    symmetry. apply Qlt_bool_false_iff. rewrite E. apply Qle_refl.
  - replace (Qlt_bool 0 t) with true; [reflexivity|].
    symmetry. apply Qlt_bool_iff. apply Qle_lteq in Ht. destruct Ht as [Ht|Ht].
    + assumption.
    + exfalso. symmetry in Ht. apply Qeq_bool_iff in Ht. congruence.
Qed.

(** ** The pipeline of [update_output] *)

Lemma tables_eta (t : tables) :
  mk_tables (campaigns t) (keywords t) (search_terms t) = t.
Proof. now destruct t. Qed.

(** The filtered triple is the six filters applied in source order. *)
Lemma result_update_output (m : tables) (tr : option string) (sc sk ss : list string) :
  Server_app.result (Server_app.update_output m tr sc sk ss) =
  Server_app.apply_selected_keywords
    (Server_app.apply_selected_campaigns
       (Server_app.apply_find_duplicates
          (Server_app.apply_search_term_filter
             (Server_app.apply_selected_search_terms
                (Server_app.apply_action_filter m (Server_app.action_filter_of tr)) ss)
             (fst (Server_app.search_term_filter_of tr)))
          (snd (Server_app.search_term_filter_of tr)))
       sc)
    sk.
Proof.
  unfold Server_app.update_output, Server_app.result.
  destruct (Server_app.search_term_filter_of tr) as [f d]. simpl.
  apply tables_eta.
Qed.

Lemma summary_update_output (m : tables) (tr : option string) (sc sk ss : list string) :
  Server_app.audit_summary (Server_app.update_output m tr sc sk ss) =
  Server_app.make_summary (Server_app.result (Server_app.update_output m tr sc sk ss)).
Proof.
  unfold Server_app.update_output, Server_app.result.
  destruct (Server_app.search_term_filter_of tr) as [f d]. reflexivity.
Qed.

(** Back_up_Final.py is the same callback without buttons. *)
Lemma Back_up_Final_update_output (m : tables) (sc sk ss : list string) :
  Back_up_Final_app.update_output m sc sk ss = Server_app.update_output m None sc sk ss.
Proof. reflexivity. Qed.






(** The weighted ratio is not the mean of the campaigns' own ratios, which
    is what amazon_ads_audit.py and dash_audit.py report. *)
Lemma weighted_ACOS_is_not_the_mean :
  let cs := [ Campaigns.mk 0 "A" (Fin 10) (Fin 100) (Fin 5);
              Campaigns.mk 1 "B" (Fin 30) (Fin 50) (Fin 5) ] in
  weighted_ACOS cs = Fin (80 # 3) /\
  Amazon_ads_audit.summary_ACOS
    (map (fun r => Amazon_ads_audit.campaigns_ACOS (Campaigns.Spend r) (Campaigns.Sales r)) cs)
    = Fin 35.
Proof. split; reflexivity. Qed.

(** ** Selections on tables *)

Lemma isin_In (v : string) (l : list string) : isin v l = true <-> In v l.
Proof.
  unfold isin. rewrite existsb_exists. split.
  - intros [x [Hx E]]. apply String.eqb_eq in E. now subst.
  - intros H. exists v. split; [assumption|apply String.eqb_refl].
Qed.

Lemma unique_In (v : string) (l : list string) : In v (unique l) <-> In v l.
Proof.
  induction l as [|x l IH]; simpl; [tauto|].
  rewrite filter_In, IH, negb_true_iff, String.eqb_neq.
  destruct (string_dec x v) as [->|N]; [tauto|].
  split; [tauto|]. intros [H|H]; [contradiction|]. right. split; [assumption|congruence].
Qed.

Lemma isin_unique (v : string) (l : list string) : isin v (unique l) = isin v l.
Proof.
  apply eq_true_iff_eq. rewrite !isin_In. apply unique_In.
Qed.

Lemma campaigns_of_keywords_In (cs : list Campaigns.row) (ks : list Keywords.row) c :
  In c (Server_app.campaigns_of_keywords cs ks) <->
  In c cs /\ In (Campaigns.Campaign_1 c) (map Keywords.Campaign_1 ks).
Proof.
  unfold Server_app.campaigns_of_keywords.
  now rewrite filter_In, isin_unique, isin_In.
Qed.

Lemma keywords_of_search_terms_In (ks : list Keywords.row) (sts : list Search_terms.row) k :
  In k (Server_app.keywords_of_search_terms ks sts) <->
  In k ks /\ In (Keywords.Keyword k) (map Search_terms.Keyword sts).
Proof.
  unfold Server_app.keywords_of_search_terms.
  now rewrite filter_In, isin_unique, isin_In.
Qed.

Lemma sort_values_CST_In (df : list Search_terms.row) r :
  In r (sort_values_CST df) <-> In r df.
Proof.
  unfold sort_values_CST. split; apply Permutation_in.
  - apply Permutation_sym, CST_sort.Permuted_sort.
  - apply CST_sort.Permuted_sort.
Qed.

(** *** Keywords keep their campaign *)

(** Restricting the keywords and then keeping the campaigns they name. *)
Lemma keywords_resolved_restrict (cs : list Campaigns.row) (ks ks' : list Keywords.row)
    (sts sts' : list Search_terms.row) :
  (forall k, In k ks' -> In k ks) ->
  keywords_resolved (mk_tables cs ks sts) ->
  keywords_resolved (mk_tables (Server_app.campaigns_of_keywords cs ks') ks' sts').
Proof.
  unfold keywords_resolved. simpl. intros Hsub H k Hk.
  specialize (H k (Hsub k Hk)). apply in_map_iff in H. destruct H as [c [Ec Hc]].
  apply in_map_iff. exists c. split; [assumption|].
  apply campaigns_of_keywords_In. split; [assumption|].
  rewrite Ec. now apply in_map.
Qed.

Lemma keywords_of_search_terms_incl ks sts k :
  In k (Server_app.keywords_of_search_terms ks sts) -> In k ks.
Proof. intros H. now apply keywords_of_search_terms_In in H. Qed.

Lemma keywords_resolved_action_filter (m : tables) (a : option string) :
  keywords_resolved m -> keywords_resolved (Server_app.apply_action_filter m a).
Proof.
  intros H. destruct a as [a|]; simpl.
  - apply keywords_resolved_restrict with (ks := keywords m) (sts := search_terms m).
    + intros k Hk. now apply filter_In in Hk.
    + now rewrite tables_eta.
  - now rewrite tables_eta.
Qed.

Lemma keywords_resolved_selected_search_terms (t : tables) (ss : list string) :
  keywords_resolved t -> keywords_resolved (Server_app.apply_selected_search_terms t ss).
Proof.
  intros H. destruct ss as [|s ss]; [assumption|].
  unfold Server_app.apply_selected_search_terms.
  apply keywords_resolved_restrict with (ks := keywords t) (sts := search_terms t).
  - apply keywords_of_search_terms_incl.
  - now rewrite tables_eta.
Qed.

Lemma keywords_resolved_search_term_filter (t : tables) (f : option string) :
  keywords_resolved t -> keywords_resolved (Server_app.apply_search_term_filter t f).
Proof.
  intros H. destruct f as [a|]; [|assumption].
  unfold Server_app.apply_search_term_filter.
  apply keywords_resolved_restrict with (ks := keywords t) (sts := search_terms t).
  - apply keywords_of_search_terms_incl.
  - now rewrite tables_eta.
Qed.

Lemma keywords_resolved_find_duplicates (t : tables) (d : bool) :
  keywords_resolved t -> keywords_resolved (Server_app.apply_find_duplicates t d).
Proof.
  intros H. destruct d; [|assumption].
  unfold Server_app.apply_find_duplicates.
  apply keywords_resolved_restrict with (ks := keywords t) (sts := search_terms t).
  - apply keywords_of_search_terms_incl.
  - now rewrite tables_eta.
Qed.

Lemma keywords_resolved_selected_campaigns (t : tables) (sc : list string) :
  keywords_resolved t -> keywords_resolved (Server_app.apply_selected_campaigns t sc).
Proof.
  intros H. destruct sc as [|c0 sc]; [assumption|].
  unfold Server_app.apply_selected_campaigns, keywords_resolved. simpl.
  intros k Hk. apply filter_In in Hk. destruct Hk as [Hk Hsel].
  specialize (H k Hk). apply in_map_iff in H. destruct H as [c [Ec Hc]].
  apply in_map_iff. exists c. split; [assumption|].
  apply filter_In. split; [assumption|]. now rewrite Ec.
Qed.

Lemma keywords_resolved_selected_keywords (t : tables) (sk : list string) :
  keywords_resolved t -> keywords_resolved (Server_app.apply_selected_keywords t sk).
Proof.
  intros H. destruct sk as [|k0 sk]; [assumption|].
  unfold Server_app.apply_selected_keywords.
  apply keywords_resolved_restrict with (ks := keywords t) (sts := search_terms t).
  - intros k Hk. now apply filter_In in Hk.
  - now rewrite tables_eta.
Qed.

(** *** Search terms keep their keyword *)

(** Restricting the search terms and then keeping the keywords they target. *)
Lemma search_terms_resolved_restrict (cs cs' : list Campaigns.row)
    (ks : list Keywords.row) (sts sts' : list Search_terms.row) :
  (forall s, In s sts' -> In s sts) ->
  search_terms_resolved (mk_tables cs ks sts) ->
  search_terms_resolved
    (mk_tables cs' (Server_app.keywords_of_search_terms ks sts') sts').
Proof.
  unfold search_terms_resolved. simpl. intros Hsub H s Hs.
  specialize (H s (Hsub s Hs)). apply in_map_iff in H. destruct H as [k [Ek Hk]].
  apply in_map_iff. exists k. split; [assumption|].
  apply keywords_of_search_terms_In. split; [assumption|].
  rewrite Ek. now apply in_map.
Qed.

(** A keyword action filter restricts the search terms to the surviving
    keywords, whatever the tables were. *)
Lemma search_terms_resolved_action_filter (m : tables) (a : string) :
  search_terms_resolved (Server_app.apply_action_filter m (Some a)).
Proof.
  unfold search_terms_resolved. simpl. intros s Hs.
  apply filter_In in Hs. destruct Hs as [_ Hs].
  rewrite isin_unique in Hs. now apply isin_In.
Qed.

Lemma search_terms_resolved_no_action_filter (m : tables) :
  search_terms_resolved m ->
  search_terms_resolved (Server_app.apply_action_filter m None).
Proof. simpl. now rewrite tables_eta. Qed.

Lemma search_terms_resolved_selected_search_terms (t : tables) (ss : list string) :
  search_terms_resolved t ->
  search_terms_resolved (Server_app.apply_selected_search_terms t ss).
Proof.
  intros H. destruct ss as [|s ss]; [assumption|].
  unfold Server_app.apply_selected_search_terms.
  apply search_terms_resolved_restrict with (cs := campaigns t) (sts := search_terms t).
  - intros r Hr. now apply filter_In in Hr.
  - now rewrite tables_eta.
Qed.

Lemma search_terms_resolved_search_term_filter (t : tables) (f : option string) :
  search_terms_resolved t ->
  search_terms_resolved (Server_app.apply_search_term_filter t f).
Proof.
  intros H. destruct f as [a|]; [|assumption].
  unfold Server_app.apply_search_term_filter.
  apply search_terms_resolved_restrict with (cs := campaigns t) (sts := search_terms t).
  - intros r Hr. now apply filter_In in Hr.
  - now rewrite tables_eta.
Qed.

Lemma search_terms_resolved_find_duplicates (t : tables) (d : bool) :
  search_terms_resolved t ->
  search_terms_resolved (Server_app.apply_find_duplicates t d).
Proof.
  intros H. destruct d; [|assumption].
  unfold Server_app.apply_find_duplicates.
  apply search_terms_resolved_restrict with (cs := campaigns t) (sts := search_terms t).
  - intros r Hr. rewrite sort_values_CST_In in Hr.
    unfold duplicated_keep_False in Hr. now apply filter_In in Hr.
  - now rewrite tables_eta.
Qed.

Lemma search_terms_resolved_selected_keywords (t : tables) (sk : list string) :
  search_terms_resolved t ->
  search_terms_resolved (Server_app.apply_selected_keywords t sk).
Proof.
  intros H. destruct sk as [|k0 sk]; [assumption|].
  unfold Server_app.apply_selected_keywords, search_terms_resolved. simpl.
  intros s Hs. apply filter_In in Hs. destruct Hs as [Hs Hsel].
  specialize (H s Hs). apply in_map_iff in H. destruct H as [k [Ek Hk]].
  apply in_map_iff. exists k. split; [assumption|].
  apply filter_In. split; [assumption|]. now rewrite Ek.
Qed.

Lemma keywords_resolved_update_output (m : tables) tr (sc sk ss : list string) :
  keywords_resolved m ->
  keywords_resolved (Server_app.result (Server_app.update_output m tr sc sk ss)).
Proof.
  intros H. rewrite result_update_output.
  apply keywords_resolved_selected_keywords, keywords_resolved_selected_campaigns,
    keywords_resolved_find_duplicates, keywords_resolved_search_term_filter,
    keywords_resolved_selected_search_terms, keywords_resolved_action_filter, H.
Qed.

Lemma search_terms_resolved_update_output (m : tables) tr (sk ss : list string) :
  search_terms_resolved m \/ Server_app.action_filter_of tr <> None ->
  search_terms_resolved (Server_app.result (Server_app.update_output m tr [] sk ss)).
Proof.
  intros H. rewrite result_update_output.
  apply search_terms_resolved_selected_keywords. simpl.
  apply search_terms_resolved_find_duplicates, search_terms_resolved_search_term_filter,
    search_terms_resolved_selected_search_terms.
  destruct (Server_app.action_filter_of tr) as [a|].
  - apply search_terms_resolved_action_filter.
  - apply search_terms_resolved_no_action_filter. destruct H as [H|H]; [assumption|].
    now contradiction H.
Qed.

(** C1, as stated, fails: with the keyword "shoes" in campaigns A and B,
    pausing in B only, the "Pause" button together with the selection of
    campaign A leaves no keyword at all but keeps the search terms of
    campaign A, whose targeting value is then in no keyword row. *)
Lemma C1_counterexample :
  keywords_resolved Sample.metrics /\ search_terms_resolved Sample.metrics /\
  ~ search_terms_resolved
      (Server_app.result
         (Server_app.update_output Sample.metrics (Some "pause-btn") ["A"] [] [])).
Proof.
  split; [|split].
  - intros k Hk. simpl in Hk. simpl.
    destruct Hk as [<-|[<-|[]]]; simpl; tauto.
  - intros s Hs. simpl in Hs. simpl.
    repeat (destruct Hs as [<-|Hs]; [simpl; tauto|]). destruct Hs.
  - intros H.
    specialize (H (Search_terms.mk 0 "A" "shoes" "red shoes" "Do Nothing")).
    vm_compute in H. apply H. left. reflexivity.
Qed.

(** A search term of an automatic campaign targets "*", which no keyword
    row carries: selecting it empties the keyword table and keeps the term. *)
Lemma unresolved_search_term_stays :
  let m := mk_tables Sample.campaigns Sample.keywords
             [Search_terms.mk 0 "A" "*" "red shoes" "Do Nothing"] in
  Server_app.result (Back_up_Final_app.update_output m [] [] ["red shoes"])
    = mk_tables [] [] [Search_terms.mk 0 "A" "*" "red shoes" "Do Nothing"].
Proof. reflexivity. Qed.

(** C1 (amended).  When every keyword of the unfiltered table names a
    campaign of the unfiltered campaign table, every keyword row of every
    filtered result names a campaign of the filtered campaign set, whatever
    button and selections produced it.  When no campaign selection is
    active and either every unfiltered search term targets a keyword of the
    unfiltered table or a keyword action button triggered the filter, every
    search-term row of the filtered result targets a keyword of the
    filtered keyword set.  Both hold of amazon_ads_audit_Server.py and of
    Back_up_Final.py. *)
Theorem C1_referential_consistency
    (metrics : tables) (triggered : option string)
    (selected_campaigns selected_keywords selected_search_terms : list string) :
  keywords_resolved metrics ->
  keywords_resolved
    (Server_app.result
       (Server_app.update_output metrics triggered
          selected_campaigns selected_keywords selected_search_terms)) /\
  keywords_resolved
    (Server_app.result
       (Back_up_Final_app.update_output metrics
          selected_campaigns selected_keywords selected_search_terms)) /\
  (selected_campaigns = [] ->
   (search_terms_resolved metrics \/ Server_app.action_filter_of triggered <> None ->
    search_terms_resolved
      (Server_app.result
         (Server_app.update_output metrics triggered
            selected_campaigns selected_keywords selected_search_terms))) /\
   (search_terms_resolved metrics ->
    search_terms_resolved
      (Server_app.result
         (Back_up_Final_app.update_output metrics
            selected_campaigns selected_keywords selected_search_terms)))).
Proof.
  intros HK. split; [|split].
  - now apply keywords_resolved_update_output.
  - rewrite Back_up_Final_update_output. now apply keywords_resolved_update_output.
  - intros ->. split.
    + apply search_terms_resolved_update_output.
    + intros HS. rewrite Back_up_Final_update_output.
      apply search_terms_resolved_update_output. now left.
Qed.

Lemma C1_witness :
  keywords_resolved
    (Server_app.result
       (Server_app.update_output Sample.metrics (Some "pause-btn") [] ["shoes"] [])) /\
  search_terms_resolved
    (Server_app.result
       (Server_app.update_output Sample.metrics (Some "pause-btn") [] ["shoes"] [])).
Proof.
  assert (HK : keywords_resolved Sample.metrics).
  { intros k Hk. simpl in Hk. destruct Hk as [<-|[<-|[]]]; simpl; tauto. }
  destruct (C1_referential_consistency Sample.metrics (Some "pause-btn")
              [] ["shoes"] [] HK) as (H1 & _ & H3).
  split; [exact H1|]. apply H3; [reflexivity|]. right. discriminate.
Defined.

(** ** Ordering by search-term text *)

Lemma string_compare_not_Gt_trans (a b c : string) :
  String.compare a b <> Gt -> String.compare b c <> Gt -> String.compare a c <> Gt.
Proof.
  revert b c. induction a as [|x a IH]; intros [|y b] [|z c]; simpl;
    try congruence.
  unfold Ascii.compare.
  destruct (N.compare_spec (N_of_ascii x) (N_of_ascii y)) as [Exy|Lxy|Gxy];
    destruct (N.compare_spec (N_of_ascii y) (N_of_ascii z)) as [Eyz|Lyz|Gyz];
    destruct (N.compare_spec (N_of_ascii x) (N_of_ascii z)) as [Exz|Lxz|Gxz];
    try congruence; try lia.
  apply IH.
Qed.

Lemma string_leb_trans (a b c : string) :
  String.leb a b = true -> String.leb b c = true -> String.leb a c = true.
Proof.
  unfold String.leb. intros H1 H2.
  pose proof (string_compare_not_Gt_trans a b c) as H.
  destruct (String.compare a b), (String.compare b c), (String.compare a c);
    try reflexivity; try discriminate; exfalso; apply H; congruence.
Qed.

Lemma CST_leb_Transitive :
  RelationClasses.Transitive (fun r1 r2 => is_true (CST_order.leb r1 r2)).
Proof.
  intros r1 r2 r3. unfold CST_order.leb, is_true. apply string_leb_trans.
Qed.

Lemma sort_values_CST_sorted (df : list Search_terms.row) :
  sorted_by_CST (sort_values_CST df).
Proof.
  unfold sorted_by_CST, sort_values_CST.
  apply (CST_sort.StronglySorted_sort df CST_leb_Transitive).
Qed.

Lemma StronglySorted_filter {A} (R : A -> A -> Prop) (f : A -> bool) (l : list A) :
  StronglySorted R l -> StronglySorted R (filter f l).
Proof.
  induction 1 as [|x l Hl IH Hx]; simpl; [constructor|].
  destruct (f x); [|assumption].
  constructor; [assumption|].
  rewrite Forall_forall in *. intros y Hy. apply filter_In in Hy. now apply Hx.
Qed.

(** ** Filters on lists *)

Lemma filter_true {A} (l : list A) : filter (fun _ => true) l = l.
Proof. induction l as [|x l IH]; simpl; congruence. Qed.

Lemma filter_filter {A} (f g : A -> bool) (l : list A) :
  filter f (filter g l) = filter (fun x => g x && f x) l.
Proof.
  induction l as [|x l IH]; simpl; [reflexivity|].
  destruct (g x); simpl; [destruct (f x)|]; congruence.
Qed.

Lemma Permutation_filter {A} (f : A -> bool) (l l' : list A) :
  Permutation l l' -> Permutation (filter f l) (filter f l').
Proof.
  induction 1 as [|x l l' _ IH|x y l|l l' l'' _ IH1 _ IH2]; simpl.
  - constructor.
  - destruct (f x); [now constructor|assumption].
  - destruct (f x), (f y); try apply Permutation_refl. apply perm_swap.
  - now transitivity (filter f l').
Qed.

(** Selecting by a key keeps or drops all rows of one key together, so it
    does not change how often a kept key occurs. *)
Lemma count_key_filter_isin {A} (key : A -> string) (sel : list string)
    (v : string) (df : list A) :
  isin v sel = true ->
  count_key key v (filter (fun r => isin (key r) sel) df) = count_key key v df.
Proof.
  intros Hv. unfold count_key. f_equal. rewrite filter_filter.
  apply filter_ext. intros r.
  destruct (key r =? v) eqn:E; [|now rewrite andb_false_r].
  apply String.eqb_eq in E. rewrite E, Hv. reflexivity.
Qed.

(** ** The duplicate query *)

Lemma search_terms_selected_search_terms (t : tables) (ss : list string) :
  search_terms (Server_app.apply_selected_search_terms t ss)
    = filter (fun r => passes ss (Search_terms.CST r)) (search_terms t).
Proof. destruct ss; simpl; [now rewrite filter_true|reflexivity]. Qed.

Lemma search_terms_selected_campaigns (t : tables) (sc : list string) :
  search_terms (Server_app.apply_selected_campaigns t sc)
    = filter (fun r => passes sc (Search_terms.Campaign r)) (search_terms t).
Proof. destruct sc; simpl; [now rewrite filter_true|reflexivity]. Qed.

Lemma search_terms_selected_keywords (t : tables) (sk : list string) :
  search_terms (Server_app.apply_selected_keywords t sk)
    = filter (fun r => passes sk (Search_terms.Keyword r)) (search_terms t).
Proof. destruct sk; simpl; [now rewrite filter_true|reflexivity]. Qed.

Lemma duplicated_after_selection (ss : list string) (df : list Search_terms.row) :
  duplicated_keep_False Search_terms.CST
    (filter (fun r => passes ss (Search_terms.CST r)) df)
  = filter (fun r => passes ss (Search_terms.CST r) && repeated_CST df r) df.
Proof.
  unfold duplicated_keep_False, repeated_CST. rewrite filter_filter.
  apply filter_ext. intros r.
  destruct (passes ss (Search_terms.CST r)) eqn:E; [|reflexivity].
  rewrite andb_true_l. destruct ss as [|s ss].
  - unfold passes. now rewrite filter_true.
  - unfold passes in *.
    now rewrite (count_key_filter_isin Search_terms.CST (s :: ss) _ df E).
Qed.

(** The search terms shown by the "Find Duplicates" button, before sorting
    is taken into account. *)
Lemma search_terms_find_duplicates (m : tables) (sc sk ss : list string) :
  Server_app.search_term_table
    (Server_app.update_output m (Some "duplicate-btn") sc sk ss)
  = filter (fun r => passes sk (Search_terms.Keyword r))
      (filter (fun r => passes sc (Search_terms.Campaign r))
         (sort_values_CST
            (filter (fun r => passes ss (Search_terms.CST r)
                              && repeated_CST (search_terms m) r)
                    (search_terms m)))).
Proof.
  change (Server_app.search_term_table
            (Server_app.update_output m (Some "duplicate-btn") sc sk ss))
    with (search_terms (Server_app.result
            (Server_app.update_output m (Some "duplicate-btn") sc sk ss))).
  rewrite result_update_output.
  rewrite search_terms_selected_keywords, search_terms_selected_campaigns.
  change (Server_app.action_filter_of (Some "duplicate-btn")) with (@None string).
  change (Server_app.search_term_filter_of (Some "duplicate-btn"))
    with (@None string, true).
  cbn [fst snd Server_app.apply_search_term_filter Server_app.apply_find_duplicates
       search_terms].
  rewrite search_terms_selected_search_terms.
  cbn [Server_app.apply_action_filter search_terms].
  now rewrite duplicated_after_selection.
Qed.

(** C7, as stated, fails: with "red shoes" selected in the search-term
    dropdown, "Find Duplicates" returns the two "red shoes" rows only,
    although "blue shoes" also occurs twice in the unfiltered table. *)
Lemma C7_counterexample :
  let blue := Search_terms.mk 2 "A" "shoes" "blue shoes" "Graduate" in
  In blue (search_terms Sample.metrics) /\
  repeated_CST (search_terms Sample.metrics) blue = true /\
  ~ In blue (Server_app.search_term_table
               (Server_app.update_output Sample.metrics (Some "duplicate-btn")
                  [] [] ["red shoes"])) /\
  Server_app.search_term_table
    (Server_app.update_output Sample.metrics (Some "duplicate-btn") [] [] ["red shoes"])
  = [ Search_terms.mk 0 "A" "shoes" "red shoes" "Do Nothing";
      Search_terms.mk 1 "B" "shoes" "red shoes" "Negate" ].
Proof.
  cbv zeta. split; [simpl; tauto|]. split; [reflexivity|]. split.
  - vm_compute. intros [H|[H|[]]]; discriminate.
  - reflexivity.
Qed.

(** C7 (amended).  "Find Duplicates" returns exactly the search-term rows
    whose search-term text occurs at least twice in the unfiltered table
    and which pass the explicit selections that are active (text among the
    selected search terms, campaign among the selected campaigns, targeting
    among the selected keywords), in ascending order of the text; with no
    explicit selection these are exactly the rows whose text occurs at
    least twice. *)
Theorem C7_duplicate_query
    (metrics : tables)
    (selected_campaigns selected_keywords selected_search_terms : list string) :
  let shown :=
    Server_app.search_term_table
      (Server_app.update_output metrics (Some "duplicate-btn")
         selected_campaigns selected_keywords selected_search_terms) in
  Permutation shown
    (filter (fun r => repeated_CST (search_terms metrics) r
                      && passes selected_search_terms (Search_terms.CST r)
                      && passes selected_campaigns (Search_terms.Campaign r)
                      && passes selected_keywords (Search_terms.Keyword r))
            (search_terms metrics)) /\
  sorted_by_CST shown /\
  (selected_campaigns = [] -> selected_keywords = [] -> selected_search_terms = [] ->
   Permutation shown
     (filter (repeated_CST (search_terms metrics)) (search_terms metrics))).
Proof.
  cbv zeta. rewrite search_terms_find_duplicates.
  assert (HP : Permutation
    (filter (fun r => passes selected_keywords (Search_terms.Keyword r))
       (filter (fun r => passes selected_campaigns (Search_terms.Campaign r))
          (sort_values_CST
             (filter (fun r => passes selected_search_terms (Search_terms.CST r)
                               && repeated_CST (search_terms metrics) r)
                     (search_terms metrics)))))
    (filter (fun r => repeated_CST (search_terms metrics) r
                      && passes selected_search_terms (Search_terms.CST r)
                      && passes selected_campaigns (Search_terms.Campaign r)
                      && passes selected_keywords (Search_terms.Keyword r))
            (search_terms metrics))).
  { etransitivity.
    - apply Permutation_filter, Permutation_filter, Permutation_sym,
        CST_sort.Permuted_sort.
    - rewrite !filter_filter. erewrite filter_ext; [apply Permutation_refl|].
      intros r. simpl.
      destruct (repeated_CST (search_terms metrics) r),
        (passes selected_search_terms (Search_terms.CST r)); reflexivity. }
  split; [exact HP|]. split.
  - apply StronglySorted_filter, StronglySorted_filter, sort_values_CST_sorted.
  - intros -> -> ->. etransitivity; [exact HP|].
    erewrite filter_ext; [apply Permutation_refl|].
    intros r. simpl. now rewrite !andb_true_r.
Qed.

Example find_duplicates_without_selection :
  Server_app.search_term_table
    (Server_app.update_output Sample.metrics (Some "duplicate-btn") [] [] [])
  = [ Search_terms.mk 2 "A" "shoes" "blue shoes" "Graduate";
      Search_terms.mk 3 "B" "shoes" "blue shoes" "Do Nothing";
      Search_terms.mk 0 "A" "shoes" "red shoes" "Do Nothing";
      Search_terms.mk 1 "B" "shoes" "red shoes" "Negate" ].
Proof. reflexivity. Qed.

(** ** Reset *)

(** The Reset button triggers the callback like any input that is not an
    action button: only the dropdown selections filter. *)
Lemma reset_is_selection_only (m : tables) (sc sk ss : list string) :
  Server_app.update_output m (Some "reset-btn") sc sk ss
    = Back_up_Final_app.update_output m sc sk ss.
Proof. reflexivity. Qed.

Lemma update_output_no_selection (m : tables) :
  Server_app.result (Server_app.update_output m (Some "reset-btn") [] [] []) = m.
Proof. rewrite result_update_output. simpl. apply tables_eta. Qed.

(** C8, as stated, fails: after campaign A has been selected in the
    dropdown, Reset still shows campaign A only, with its keyword and its
    search terms. *)
Lemma C8_counterexample :
  Server_app.result
    (Dashboard.shown_after Sample.metrics
       [Dashboard.Select_campaigns ["A"]] (Dashboard.Click "reset-btn"))
  = mk_tables
      [ Campaigns.mk 0 "A" (Fin 40) (Fin 100) (Fin 20) ]
      [ Keywords.mk 0 "A" "shoes" "Do Nothing" ]
      [ Search_terms.mk 0 "A" "shoes" "red shoes" "Do Nothing";
        Search_terms.mk 2 "A" "shoes" "blue shoes" "Graduate";
        Search_terms.mk 4 "A" "shoes" "green shoes" "Do Nothing" ] /\
  Server_app.result
    (Dashboard.shown_after Sample.metrics
       [Dashboard.Select_campaigns ["A"]] (Dashboard.Click "reset-btn"))
  <> Sample.metrics.
Proof. split; [reflexivity|]. vm_compute. discriminate. Qed.

(** C8 (amended).  After any sequence of interactions, Reset shows what the
    dropdown selections alone select (the action-category or duplicate
    filter is gone); when the three dropdowns are empty at that moment, this
    is exactly the unfiltered triple. *)
Theorem C8_reset_clears_button_filters (metrics : tables) (es : list Dashboard.event) :
  let s := Dashboard.selections_after Dashboard.no_selection es in
  Dashboard.campaign_dropdown s = [] ->
  Dashboard.keyword_dropdown s = [] ->
  Dashboard.search_term_dropdown s = [] ->
  Server_app.result
    (Dashboard.shown_after metrics es (Dashboard.Click "reset-btn")) = metrics /\
  Dashboard.shown_after metrics es (Dashboard.Click "reset-btn")
    = Back_up_Final_app.update_output metrics [] [] [].
Proof.
  cbv zeta. intros Hc Hk Hs.
  unfold Dashboard.shown_after, Dashboard.fire. cbn [snd Dashboard.set_value Dashboard.component_id].
  rewrite Hc, Hk, Hs. split.
  - apply update_output_no_selection.
  - apply reset_is_selection_only.
Qed.

Lemma C8_witness :
  Server_app.result
    (Dashboard.shown_after Sample.metrics
       [Dashboard.Click "pause-btn"; Dashboard.Select_campaigns ["A"];
        Dashboard.Select_campaigns []]
       (Dashboard.Click "reset-btn")) = Sample.metrics.
Proof.
  apply (C8_reset_clears_button_filters Sample.metrics
           [Dashboard.Click "pause-btn"; Dashboard.Select_campaigns ["A"];
            Dashboard.Select_campaigns []]); reflexivity.
Defined.

(** With selections in place, Reset shows the selections' own filter. *)
Lemma reset_keeps_selections (metrics : tables) (es : list Dashboard.event) :
  let s := Dashboard.selections_after Dashboard.no_selection es in
  Dashboard.shown_after metrics es (Dashboard.Click "reset-btn")
    = Back_up_Final_app.update_output metrics
        (Dashboard.campaign_dropdown s) (Dashboard.keyword_dropdown s)
        (Dashboard.search_term_dropdown s).
Proof. reflexivity. Qed.

(** ** Missing columns *)

Section row_lambdas.
Import DataFrame.

(** On a row that has the columns, with numbers in them, the lambdas of
    the table-level functions are the row rules studied above. *)
Lemma keywords_Action_row_numeric (r : row) (baseline : string)
    (Max_Bid b Clicks Orders : num) :
  row_getitem r "Max Bid" = Ok (Num Max_Bid) ->
  row_getitem r baseline = Ok (Num b) ->
  row_getitem r "Clicks" = Ok (Num Clicks) ->
  row_getitem r "Orders" = Ok (Num Orders) ->
  Metrics.keywords_Action_row baseline r
    = Ok (Server.keywords_Action Max_Bid b Clicks Orders).
Proof.
  intros H1 H2 H3 H4.
  unfold Metrics.keywords_Action_row, row_num, row_eq_num, Server.keywords_Action.
  rewrite H1, H2, H3, H4. cbn [ifM andM liftM2 bind as_num].
  destruct (Max_Bid >? b)%num; [reflexivity|].
  destruct (Max_Bid <? b)%num; [reflexivity|].
  destruct (Clicks >? Fin 4)%num, (Orders =? Fin 0)%num; reflexivity.
Qed.

Lemma Server_search_terms_Action_row_numeric (r : row) (target_acos : num)
    (ACOS Orders Clicks : num) (Match_Type : string) :
  row_getitem r "ACOS" = Ok (Num ACOS) ->
  row_getitem r "Orders" = Ok (Num Orders) ->
  row_getitem r "Clicks" = Ok (Num Clicks) ->
  row_getitem r "Match Type" = Ok (Str Match_Type) ->
  Metrics.On_server.search_terms_Action_row target_acos r
    = Ok (Server.search_terms_Action target_acos ACOS Orders Clicks Match_Type).
Proof.
  intros H1 H2 H3 H4.
  unfold Metrics.On_server.search_terms_Action_row, row_num, row_eq_num,
    row_strip_lower, Server.search_terms_Action.
  rewrite H1, H2, H3, H4. cbn [ifM andM liftM2 bind as_num].
  destruct (ACOS <? target_acos * Fin 100)%num, (Orders >=? Fin 2)%num,
    (Py.lower (Py.strip Match_Type) =? "exact")%string,
    (Clicks >? Fin 3)%num, (Orders =? Fin 0)%num; reflexivity.
Qed.

(** A column that is absent is created with zeros, and stays as it is
    when present. *)
Lemma ensure_column_has (df : frame) (col : string) :
  has_column (ensure_column df col) col = true.
Proof.
  unfold ensure_column. destruct (has_column df col) eqn:E; [assumption|].
  unfold has_column, columns, setitem_scalar, setitem. simpl.
  generalize (repeat (Num (Fin 0)) (nrows df)). intros s.
  induction (cols df) as [|[c s'] l IH]; simpl.
  - now rewrite String.eqb_refl.
  - destruct (c =? col)%string eqn:Ec; simpl.
    + apply String.eqb_eq in Ec. subst. now rewrite String.eqb_refl.
    + rewrite IH. apply orb_true_r.
Qed.

Lemma ensure_column_absent (df : frame) (col : string) :
  has_column df col = false ->
  getitem (ensure_column df col) col = Ok (repeat (Num (Fin 0)) (nrows df)).
Proof.
  intros E. unfold ensure_column. rewrite E.
  unfold getitem, setitem_scalar, setitem. simpl.
  generalize (repeat (Num (Fin 0)) (nrows df)). intros s.
  unfold has_column, columns in E.
  induction (cols df) as [|[c s'] l IH]; simpl in *.
  - now rewrite String.eqb_refl.
  - apply orb_false_iff in E. destruct E as [E1 E2].
    rewrite String.eqb_sym in E1. rewrite E1. simpl. rewrite E1. now apply IH.
Qed.

End row_lambdas.

(** C9.  The claim does not hold of the code: only the columns of the
    fixed lists are created.  amazon_ads_audit.py raises KeyError on a
    placements table without "Percentage" and on a campaign table without
    "Clicks"; amazon_ads_audit_Server.py raises KeyError on search terms
    without "Match Type" as soon as one row has ACOS below target and at
    least two orders, and on keywords without "CPC".  Columns of the lists
    ("Sales" here) are created with zeros, and dash_audit.py, which reads
    only listed columns, runs on tables that have none of them. *)
Theorem C9_missing_columns_evaluated :
  Metrics.On_amazon_ads_audit.calculate_metrics
    (DataFrame.mk_data Sample_frames.campaigns Sample_frames.keywords
       Sample_frames.search_terms Sample_frames.placements_without_Percentage)
    (Fin 0.3)
    = DataFrame.Raise (DataFrame.KeyError "Percentage") /\
  Metrics.On_amazon_ads_audit.calculate_metrics
    (DataFrame.mk_data Sample_frames.campaigns_without_Clicks Sample_frames.keywords
       Sample_frames.search_terms Sample_frames.placements) (Fin 0.3)
    = DataFrame.Raise (DataFrame.KeyError "Clicks") /\
  (exists campaigns,
     Server_load.load_campaigns Sample_server.bulk_data = DataFrame.Ok campaigns /\
     Metrics.On_server.calculate_metrics
       (DataFrame.mk_data campaigns Sample_server.keywords
          Sample_server.search_terms_without_Match_Type Sample_frames.placements)
       (Fin 0.3)
       = DataFrame.Raise (DataFrame.KeyError "Match Type") /\
     Metrics.On_server.calculate_metrics
       (DataFrame.mk_data campaigns Sample_server.keywords_without_CPC
          Sample_server.search_terms Sample_frames.placements) (Fin 0.3)
       = DataFrame.Raise (DataFrame.KeyError "CPC")) /\
  (exists out,
     Metrics.On_amazon_ads_audit.calculate_metrics
       (DataFrame.mk_data Sample_frames.campaigns Sample_frames.keywords
          Sample_frames.search_terms Sample_frames.placements) (Fin 0.3)
       = DataFrame.Ok out /\
     DataFrame.getitem (DataFrame.d_campaigns out) "Sales"
       = DataFrame.Ok [Sample_frames.n 0]) /\
  (exists out,
     Metrics.On_dash_audit.calculate_metrics
       (DataFrame.mk_data Sample_frames.bare Sample_frames.bare Sample_frames.bare
          Sample_frames.bare) (Fin 0.3)
       = DataFrame.Ok out).
Proof.
  split; [reflexivity|]. split; [reflexivity|]. split; [|split].
  - eexists. split; [vm_compute; reflexivity|]. split; reflexivity.
  - eexists. split; vm_compute; reflexivity.
  - eexists. vm_compute. reflexivity.
Qed.

(** In amazon_ads_audit_Server.py the bulk column "Impressions" is renamed
    to "Imp" on loading, so [calculate_metrics] finds no "Impressions",
    creates it with zeros and divides the clicks by it: a campaign with
    1000 impressions and 20 clicks is shown with an infinite CTR. *)
Lemma Server_campaign_CTR_after_renaming :
  exists campaigns out,
    Server_load.load_campaigns Sample_server.bulk_data = DataFrame.Ok campaigns /\
    DataFrame.getitem campaigns "Imp" = DataFrame.Ok [Sample_frames.n 1000] /\
    DataFrame.has_column campaigns "Impressions" = false /\
    Metrics.On_server.calculate_metrics
      (DataFrame.mk_data campaigns Sample_server.keywords Sample_server.search_terms
         Sample_frames.placements) (Fin 0.3) = DataFrame.Ok out /\
    DataFrame.getitem (DataFrame.d_campaigns out) "Impressions"
      = DataFrame.Ok [Sample_frames.n 0] /\
    DataFrame.getitem (DataFrame.d_campaigns out) "CTR"
      = DataFrame.Ok [DataFrame.Num PInf] /\
    DataFrame.getitem (DataFrame.d_search_terms out) "Action"
      = DataFrame.Ok [DataFrame.Str "Graduate"].
Proof.
  eexists. eexists. split; [vm_compute; reflexivity|].
  split; [reflexivity|]. split; [reflexivity|].
  split; [vm_compute; reflexivity|]. repeat split.
Qed.

(* ================================================================== *)
(** * Further properties of the code *)
(* ================================================================== *)

(** ** The filters only remove rows *)

Lemma subseq_refl {A} (l : list A) : subseq l l.
Proof. induction l; constructor; assumption. Qed.

Lemma subseq_filter {A} (f : A -> bool) (l : list A) : subseq (filter f l) l.
Proof.
  induction l as [|x l IH]; simpl; [constructor|].
  destruct (f x); constructor; assumption.
Qed.

Lemma subseq_trans {A} (l1 l2 l3 : list A) :
  subseq l1 l2 -> subseq l2 l3 -> subseq l1 l3.
Proof.
  intros H12 H23. revert l1 H12.
  induction H23 as [|x l2 l3 H23 IH|x l2 l3 H23 IH]; intros l1 H12.
  - assumption.
  - inversion H12; subst.
    + constructor. now apply IH.
    + apply subseq_drop. now apply IH.
  - apply subseq_drop. now apply IH.
Qed.

Lemma subseq_In {A} (l' l : list A) (x : A) : subseq l' l -> In x l' -> In x l.
Proof.
  induction 1 as [|y l' l H IH|y l' l H IH]; simpl; intros Hx.
  - assumption.
  - destruct Hx as [->|Hx]; [now left|right; now apply IH].
  - right. now apply IH.
Qed.

Lemma subseq_length {A} (l' l : list A) : subseq l' l -> (List.length l' <= List.length l)%nat.
Proof. induction 1; simpl; lia. Qed.

(** The campaign and keyword tables after the filters that follow the
    action filter. *)
Lemma campaigns_keywords_after (t : tables) (f : option string) (d : bool)
    (sc sk ss : list string) :
  let t' :=
    Server_app.apply_selected_keywords
      (Server_app.apply_selected_campaigns
         (Server_app.apply_find_duplicates
            (Server_app.apply_search_term_filter
               (Server_app.apply_selected_search_terms t ss) f) d) sc) sk in
  subseq (campaigns t') (campaigns t) /\ subseq (keywords t') (keywords t).
Proof.
  cbv zeta.
  assert (S2 : subseq (campaigns (Server_app.apply_selected_search_terms t ss)) (campaigns t)
               /\ subseq (keywords (Server_app.apply_selected_search_terms t ss)) (keywords t)).
  { destruct ss; simpl; split; try apply subseq_refl; apply subseq_filter. }
  set (t2 := Server_app.apply_selected_search_terms t ss) in *.
  assert (S3 : subseq (campaigns (Server_app.apply_search_term_filter t2 f)) (campaigns t2)
               /\ subseq (keywords (Server_app.apply_search_term_filter t2 f)) (keywords t2)).
  { destruct f; simpl; split; try apply subseq_refl; apply subseq_filter. }
  set (t3 := Server_app.apply_search_term_filter t2 f) in *.
  assert (S4 : subseq (campaigns (Server_app.apply_find_duplicates t3 d)) (campaigns t3)
               /\ subseq (keywords (Server_app.apply_find_duplicates t3 d)) (keywords t3)).
  { destruct d; simpl; split; try apply subseq_refl; apply subseq_filter. }
  set (t4 := Server_app.apply_find_duplicates t3 d) in *.
  assert (S5 : subseq (campaigns (Server_app.apply_selected_campaigns t4 sc)) (campaigns t4)
               /\ subseq (keywords (Server_app.apply_selected_campaigns t4 sc)) (keywords t4)).
  { destruct sc; simpl; split; try apply subseq_refl; apply subseq_filter. }
  set (t5 := Server_app.apply_selected_campaigns t4 sc) in *.
  assert (S6 : subseq (campaigns (Server_app.apply_selected_keywords t5 sk)) (campaigns t5)
               /\ subseq (keywords (Server_app.apply_selected_keywords t5 sk)) (keywords t5)).
  { destruct sk; simpl; split; try apply subseq_refl; apply subseq_filter. }
  destruct S2, S3, S4, S5, S6.
  split; repeat (eapply subseq_trans; [eassumption|]); apply subseq_refl.
Qed.

Lemma campaigns_keywords_action_filter (m : tables) (a : option string) :
  subseq (campaigns (Server_app.apply_action_filter m a)) (campaigns m) /\
  subseq (keywords (Server_app.apply_action_filter m a)) (keywords m).
Proof. destruct a; simpl; split; try apply subseq_refl; apply subseq_filter. Qed.

(** The search-term table before the duplicate step is a chain of filters. *)
Lemma search_terms_before_duplicates (m : tables) (a f : option string) (ss : list string) :
  subseq
    (search_terms
       (Server_app.apply_search_term_filter
          (Server_app.apply_selected_search_terms
             (Server_app.apply_action_filter m a) ss) f))
    (search_terms m).
Proof.
  eapply subseq_trans; [|eapply subseq_trans].
  - destruct f; simpl; [apply subseq_filter|apply subseq_refl].
  - rewrite search_terms_selected_search_terms. apply subseq_filter.
  - destruct a; simpl; [apply subseq_filter|apply subseq_refl].
Qed.

Lemma search_terms_find_duplicates_step (t : tables) (d : bool) :
  search_terms (Server_app.apply_find_duplicates t d)
    = if d then sort_values_CST (duplicated_keep_False Search_terms.CST (search_terms t))
      else search_terms t.
Proof. destruct d; reflexivity. Qed.

Lemma find_duplicates_only_by_its_button (tr : option string) :
  snd (Server_app.search_term_filter_of tr) = true -> tr = Some "duplicate-btn".
Proof.
  destruct tr as [b|]; simpl; [|discriminate].
  destruct (b =? "graduate-btn"); [discriminate|].
  destruct (b =? "negate-btn"); [discriminate|].
  destruct (b =? "do-nothing-search-btn"); [discriminate|].
  destruct (b =? "duplicate-btn") eqn:E; [|discriminate].
  apply String.eqb_eq in E. now subst.
Qed.

(** X1.  Whatever the button and the selections, the callback shows only
    rows of the unfiltered tables: the campaign and keyword tables are the
    unfiltered ones with rows left out, in the same order, and so is the
    search-term table unless "Find Duplicates" was pressed, in which case
    it is a rearrangement of such a table. *)
Theorem update_output_only_removes_rows
    (metrics : tables) (triggered : option string)
    (selected_campaigns selected_keywords selected_search_terms : list string) :
  let o := Server_app.update_output metrics triggered
             selected_campaigns selected_keywords selected_search_terms in
  subseq (Server_app.campaign_table o) (campaigns metrics) /\
  subseq (Server_app.keyword_table o) (keywords metrics) /\
  (exists part, subseq part (search_terms metrics) /\
                Permutation (Server_app.search_term_table o) part) /\
  (triggered <> Some "duplicate-btn" ->
   subseq (Server_app.search_term_table o) (search_terms metrics)).
Proof.
  cbv zeta.
  change (Server_app.campaign_table
            (Server_app.update_output metrics triggered selected_campaigns
               selected_keywords selected_search_terms))
    with (campaigns (Server_app.result
            (Server_app.update_output metrics triggered selected_campaigns
               selected_keywords selected_search_terms))).
  change (Server_app.keyword_table
            (Server_app.update_output metrics triggered selected_campaigns
               selected_keywords selected_search_terms))
    with (keywords (Server_app.result
            (Server_app.update_output metrics triggered selected_campaigns
               selected_keywords selected_search_terms))).
  change (Server_app.search_term_table
            (Server_app.update_output metrics triggered selected_campaigns
               selected_keywords selected_search_terms))
    with (search_terms (Server_app.result
            (Server_app.update_output metrics triggered selected_campaigns
               selected_keywords selected_search_terms))).
  rewrite result_update_output.
  destruct (campaigns_keywords_after
              (Server_app.apply_action_filter metrics (Server_app.action_filter_of triggered))
              (fst (Server_app.search_term_filter_of triggered))
              (snd (Server_app.search_term_filter_of triggered))
              selected_campaigns selected_keywords selected_search_terms) as [Hc Hk].
  destruct (campaigns_keywords_action_filter metrics
              (Server_app.action_filter_of triggered)) as [Hc1 Hk1].
  split; [eapply subseq_trans; eassumption|].
  split; [eapply subseq_trans; eassumption|].
  rewrite search_terms_selected_keywords, search_terms_selected_campaigns,
    search_terms_find_duplicates_step.
  pose proof (search_terms_before_duplicates metrics
                (Server_app.action_filter_of triggered)
                (fst (Server_app.search_term_filter_of triggered))
                selected_search_terms) as H3.
  destruct (snd (Server_app.search_term_filter_of triggered)) eqn:D.
  - split.
    + eexists. split.
      2:{ apply Permutation_filter, Permutation_filter, Permutation_sym,
            CST_sort.Permuted_sort. }
      eapply subseq_trans; [apply subseq_filter|].
      eapply subseq_trans; [apply subseq_filter|].
      eapply subseq_trans; [apply subseq_filter|]. exact H3.
    + intros N. apply find_duplicates_only_by_its_button in D. contradiction.
  - assert (S : subseq
        (filter (fun r => passes selected_keywords (Search_terms.Keyword r))
           (filter (fun r => passes selected_campaigns (Search_terms.Campaign r))
              (search_terms
                 (Server_app.apply_search_term_filter
                    (Server_app.apply_selected_search_terms
                       (Server_app.apply_action_filter metrics
                          (Server_app.action_filter_of triggered))
                       selected_search_terms)
                    (fst (Server_app.search_term_filter_of triggered))))))
        (search_terms metrics)).
    { eapply subseq_trans; [apply subseq_filter|].
      eapply subseq_trans; [apply subseq_filter|]. exact H3. }
    split; [|intros _; exact S].
    eexists. split; [exact S|apply Permutation_refl].
Qed.

(** ** What the displayed rows have in common *)

Lemma search_terms_after_In (t : tables) (f : option string) (d : bool)
    (sc sk : list string) (r : Search_terms.row) :
  In r (search_terms
          (Server_app.apply_selected_keywords
             (Server_app.apply_selected_campaigns
                (Server_app.apply_find_duplicates
                   (Server_app.apply_search_term_filter t f) d) sc) sk)) ->
  In r (search_terms (Server_app.apply_search_term_filter t f)) /\
  passes sc (Search_terms.Campaign r) = true /\
  passes sk (Search_terms.Keyword r) = true.
Proof.
  rewrite search_terms_selected_keywords, search_terms_selected_campaigns,
    search_terms_find_duplicates_step, !filter_In.
  intros [[H Hc] Hk]. split; [|split; assumption].
  destruct d; [|assumption].
  rewrite sort_values_CST_In in H. unfold duplicated_keep_False in H.
  now apply filter_In in H.
Qed.

Lemma search_term_filter_In (t : tables) (f : option string) (r : Search_terms.row) :
  In r (search_terms (Server_app.apply_search_term_filter t f)) ->
  In r (search_terms t) /\
  match f with Some a => Search_terms.Action r = a | None => True end.
Proof.
  destruct f as [a|]; simpl; [|tauto].
  rewrite filter_In, String.eqb_eq. tauto.
Qed.

Lemma action_filter_keywords_In (m : tables) (a : option string) (k : Keywords.row) :
  In k (keywords (Server_app.apply_action_filter m a)) ->
  In k (keywords m) /\
  match a with Some l => Keywords.Action k = l | None => True end.
Proof.
  destruct a as [l|]; simpl; [|tauto].
  rewrite filter_In, String.eqb_eq. tauto.
Qed.

(** X2.  After one of the four keyword action buttons every keyword shown
    carries that button's label, and after "Graduate", "Negate" or the
    search terms' "Do Nothing" every search term shown carries that label,
    whatever is selected in the dropdowns. *)
Theorem update_output_rows_carry_the_label
    (metrics : tables) (triggered : option string)
    (selected_campaigns selected_keywords selected_search_terms : list string) :
  let o := Server_app.update_output metrics triggered
             selected_campaigns selected_keywords selected_search_terms in
  match Server_app.action_filter_of triggered with
  | Some label => Forall (fun k => Keywords.Action k = label) (Server_app.keyword_table o)
  | None => True
  end /\
  match fst (Server_app.search_term_filter_of triggered) with
  | Some label =>
      Forall (fun s => Search_terms.Action s = label) (Server_app.search_term_table o)
  | None => True
  end.
Proof.
  cbv zeta.
  change (Server_app.keyword_table
            (Server_app.update_output metrics triggered selected_campaigns
               selected_keywords selected_search_terms))
    with (keywords (Server_app.result
            (Server_app.update_output metrics triggered selected_campaigns
               selected_keywords selected_search_terms))).
  change (Server_app.search_term_table
            (Server_app.update_output metrics triggered selected_campaigns
               selected_keywords selected_search_terms))
    with (search_terms (Server_app.result
            (Server_app.update_output metrics triggered selected_campaigns
               selected_keywords selected_search_terms))).
  rewrite result_update_output. split.
  - destruct (Server_app.action_filter_of triggered) as [label|] eqn:A; [|exact I].
    apply Forall_forall. intros k Hk.
    destruct (campaigns_keywords_after
                (Server_app.apply_action_filter metrics (Some label))
                (fst (Server_app.search_term_filter_of triggered))
                (snd (Server_app.search_term_filter_of triggered))
                selected_campaigns selected_keywords selected_search_terms) as [_ S].
    apply (subseq_In _ _ _ S) in Hk.
    now apply action_filter_keywords_In in Hk.
  - destruct (fst (Server_app.search_term_filter_of triggered)) as [label|] eqn:F;
      [|exact I].
    apply Forall_forall. intros s Hs.
    apply search_terms_after_In in Hs. destruct Hs as [Hs _].
    now apply search_term_filter_In in Hs.
Qed.

Lemma campaigns_selected_campaigns (t : tables) (sc : list string) :
  campaigns (Server_app.apply_selected_campaigns t sc)
    = filter (fun r => passes sc (Campaigns.Campaign_1 r)) (campaigns t).
Proof. destruct sc; simpl; [now rewrite filter_true|reflexivity]. Qed.

Lemma keywords_selected_campaigns (t : tables) (sc : list string) :
  keywords (Server_app.apply_selected_campaigns t sc)
    = filter (fun r => passes sc (Keywords.Campaign_1 r)) (keywords t).
Proof. destruct sc; simpl; [now rewrite filter_true|reflexivity]. Qed.

Lemma keywords_selected_keywords (t : tables) (sk : list string) :
  keywords (Server_app.apply_selected_keywords t sk)
    = filter (fun r => passes sk (Keywords.Keyword r)) (keywords t).
Proof. destruct sk; simpl; [now rewrite filter_true|reflexivity]. Qed.

Lemma campaigns_selected_keywords (t : tables) (sk : list string) :
  subseq (campaigns (Server_app.apply_selected_keywords t sk)) (campaigns t).
Proof. destruct sk; simpl; [apply subseq_refl|apply subseq_filter]. Qed.

Lemma selected_search_terms_In (t : tables) (ss : list string) (r : Search_terms.row) :
  In r (search_terms (Server_app.apply_selected_search_terms t ss)) ->
  In r (search_terms t) /\ passes ss (Search_terms.CST r) = true.
Proof. rewrite search_terms_selected_search_terms, filter_In. tauto. Qed.

(** X3.  Every row shown agrees with every dropdown selection that is
    active: campaigns and keywords belong to a selected campaign, keywords
    and search terms to a selected keyword text, search terms to a selected
    search-term text and to a selected campaign. *)
Theorem update_output_rows_pass_the_selections
    (metrics : tables) (triggered : option string)
    (selected_campaigns selected_keywords selected_search_terms : list string) :
  let o := Server_app.update_output metrics triggered
             selected_campaigns selected_keywords selected_search_terms in
  Forall (fun c => passes selected_campaigns (Campaigns.Campaign_1 c) = true)
         (Server_app.campaign_table o) /\
  Forall (fun k => passes selected_campaigns (Keywords.Campaign_1 k) = true /\
                   passes selected_keywords (Keywords.Keyword k) = true)
         (Server_app.keyword_table o) /\
  Forall (fun s => passes selected_campaigns (Search_terms.Campaign s) = true /\
                   passes selected_keywords (Search_terms.Keyword s) = true /\
                   passes selected_search_terms (Search_terms.CST s) = true)
         (Server_app.search_term_table o).
Proof.
  cbv zeta.
  change (Server_app.campaign_table
            (Server_app.update_output metrics triggered selected_campaigns
               selected_keywords selected_search_terms))
    with (campaigns (Server_app.result
            (Server_app.update_output metrics triggered selected_campaigns
               selected_keywords selected_search_terms))).
  change (Server_app.keyword_table
            (Server_app.update_output metrics triggered selected_campaigns
               selected_keywords selected_search_terms))
    with (keywords (Server_app.result
            (Server_app.update_output metrics triggered selected_campaigns
               selected_keywords selected_search_terms))).
  change (Server_app.search_term_table
            (Server_app.update_output metrics triggered selected_campaigns
               selected_keywords selected_search_terms))
    with (search_terms (Server_app.result
            (Server_app.update_output metrics triggered selected_campaigns
               selected_keywords selected_search_terms))).
  rewrite result_update_output. split; [|split]; apply Forall_forall.
  - intros c Hc.
    apply (subseq_In _ _ _ (campaigns_selected_keywords _ _)) in Hc.
    rewrite campaigns_selected_campaigns in Hc. now apply filter_In in Hc.
  - intros k Hk. rewrite keywords_selected_keywords in Hk.
    apply filter_In in Hk. destruct Hk as [Hk Hsel].
    rewrite keywords_selected_campaigns in Hk. apply filter_In in Hk. tauto.
  - intros s Hs. apply search_terms_after_In in Hs. destruct Hs as (Hs & Hc & Hk).
    apply search_term_filter_In in Hs. destruct Hs as [Hs _].
    apply selected_search_terms_In in Hs. tauto.
Qed.

(** ** The dropdown options *)

Lemma unique_NoDup (l : list string) : NoDup (unique l).
Proof.
  induction l as [|v l IH]; simpl; constructor.
  - rewrite filter_In, negb_true_iff, String.eqb_neq. tauto.
  - now apply NoDup_filter.
Qed.

(** Where the source takes the three option lists. *)
Lemma options_update_output (m : tables) (tr : option string) (sc sk ss : list string) :
  let o := Server_app.update_output m tr sc sk ss in
  let t1 := Server_app.apply_action_filter m (Server_app.action_filter_of tr) in
  let t4 :=
    Server_app.apply_find_duplicates
      (Server_app.apply_search_term_filter
         (Server_app.apply_selected_search_terms t1 ss)
         (fst (Server_app.search_term_filter_of tr)))
      (snd (Server_app.search_term_filter_of tr)) in
  Server_app.search_term_options o = unique (map Search_terms.CST (search_terms t1)) /\
  Server_app.campaign_options o = unique (map Campaigns.Campaign_1 (campaigns t4)) /\
  Server_app.keyword_options o
    = unique (map Keywords.Keyword
                (keywords (Server_app.apply_selected_campaigns t4 sc))).
Proof.
  cbv zeta. unfold Server_app.update_output.
  destruct (Server_app.search_term_filter_of tr) as [f d]. repeat split.
Qed.

(** X4.  Each dropdown offers every value once, offers the key of every
    row that is shown in its table, and offers only keys of the unfiltered
    table. *)
Theorem update_output_options_cover_the_tables
    (metrics : tables) (triggered : option string)
    (selected_campaigns selected_keywords selected_search_terms : list string) :
  let o := Server_app.update_output metrics triggered
             selected_campaigns selected_keywords selected_search_terms in
  (NoDup (Server_app.campaign_options o) /\
   NoDup (Server_app.keyword_options o) /\
   NoDup (Server_app.search_term_options o)) /\
  (Forall (fun c => In (Campaigns.Campaign_1 c) (Server_app.campaign_options o))
          (Server_app.campaign_table o) /\
   Forall (fun k => In (Keywords.Keyword k) (Server_app.keyword_options o))
          (Server_app.keyword_table o) /\
   Forall (fun s => In (Search_terms.CST s) (Server_app.search_term_options o))
          (Server_app.search_term_table o)) /\
  (incl (Server_app.campaign_options o) (map Campaigns.Campaign_1 (campaigns metrics)) /\
   incl (Server_app.keyword_options o) (map Keywords.Keyword (keywords metrics)) /\
   incl (Server_app.search_term_options o) (map Search_terms.CST (search_terms metrics))).
Proof.
  cbv zeta.
  destruct (options_update_output metrics triggered selected_campaigns
              selected_keywords selected_search_terms) as (Es & Ec & Ek).
  rewrite Es, Ec, Ek. clear Es Ec Ek.
  change (Server_app.campaign_table
            (Server_app.update_output metrics triggered selected_campaigns
               selected_keywords selected_search_terms))
    with (campaigns (Server_app.result
            (Server_app.update_output metrics triggered selected_campaigns
               selected_keywords selected_search_terms))).
  change (Server_app.keyword_table
            (Server_app.update_output metrics triggered selected_campaigns
               selected_keywords selected_search_terms))
    with (keywords (Server_app.result
            (Server_app.update_output metrics triggered selected_campaigns
               selected_keywords selected_search_terms))).
  change (Server_app.search_term_table
            (Server_app.update_output metrics triggered selected_campaigns
               selected_keywords selected_search_terms))
    with (search_terms (Server_app.result
            (Server_app.update_output metrics triggered selected_campaigns
               selected_keywords selected_search_terms))).
  rewrite result_update_output.
  set (t1 := Server_app.apply_action_filter metrics (Server_app.action_filter_of triggered)).
  set (t3 := Server_app.apply_search_term_filter
               (Server_app.apply_selected_search_terms t1 selected_search_terms)
               (fst (Server_app.search_term_filter_of triggered))).
  set (t4 := Server_app.apply_find_duplicates t3
               (snd (Server_app.search_term_filter_of triggered))).
  set (t5 := Server_app.apply_selected_campaigns t4 selected_campaigns).
  split; [repeat split; apply unique_NoDup|]. split; [split; [|split]|split; [|split]].
  - apply Forall_forall. intros c Hc. apply unique_In, in_map.
    apply (subseq_In _ _ _ (campaigns_selected_keywords _ _)) in Hc.
    unfold t5 in Hc. rewrite campaigns_selected_campaigns in Hc.
    now apply filter_In in Hc.
  - apply Forall_forall. intros k Hk. apply unique_In, in_map.
    rewrite keywords_selected_keywords in Hk. now apply filter_In in Hk.
  - apply Forall_forall. intros s Hs. apply unique_In, in_map.
    apply search_terms_after_In in Hs. destruct Hs as [Hs _].
    apply search_term_filter_In in Hs. destruct Hs as [Hs _].
    now apply selected_search_terms_In in Hs.
  - intros v Hv. apply unique_In, in_map_iff in Hv. destruct Hv as [c [<- Hc]].
    apply in_map.
    destruct (campaigns_keywords_after t1
                (fst (Server_app.search_term_filter_of triggered))
                (snd (Server_app.search_term_filter_of triggered))
                [] [] selected_search_terms) as [S _].
    simpl in S. apply (subseq_In _ _ _ S) in Hc.
    now apply (subseq_In _ _ _
                 (proj1 (campaigns_keywords_action_filter metrics
                           (Server_app.action_filter_of triggered)))).
  - intros v Hv. apply unique_In, in_map_iff in Hv. destruct Hv as [k [<- Hk]].
    apply in_map.
    destruct (campaigns_keywords_after t1
                (fst (Server_app.search_term_filter_of triggered))
                (snd (Server_app.search_term_filter_of triggered))
                selected_campaigns [] selected_search_terms) as [_ S].
    simpl in S. apply (subseq_In _ _ _ S) in Hk.
    now apply (subseq_In _ _ _
                 (proj2 (campaigns_keywords_action_filter metrics
                           (Server_app.action_filter_of triggered)))).
  - intros v Hv. apply unique_In, in_map_iff in Hv. destruct Hv as [s [<- Hs]].
    apply in_map. unfold t1 in Hs.
    destruct (Server_app.action_filter_of triggered); simpl in Hs;
      [now apply filter_In in Hs|assumption].
Qed.

(** ** Nothing is left without descendants *)

Lemma campaigns_used_of_keywords (cs : list Campaigns.row) (ks : list Keywords.row)
    (sts : list Search_terms.row) :
  campaigns_used (mk_tables (Server_app.campaigns_of_keywords cs ks) ks sts).
Proof.
  intros c Hc. simpl in *. now apply campaigns_of_keywords_In in Hc.
Qed.

Lemma campaigns_used_action_filter (m : tables) (a : option string) :
  campaigns_used m \/ a <> None ->
  campaigns_used (Server_app.apply_action_filter m a).
Proof.
  destruct a as [l|]; simpl.
  - intros _. apply campaigns_used_of_keywords.
  - intros [H|H]; [now rewrite tables_eta|congruence].
Qed.

Lemma campaigns_used_selected_search_terms (t : tables) (ss : list string) :
  campaigns_used t \/ ss <> [] ->
  campaigns_used (Server_app.apply_selected_search_terms t ss).
Proof.
  destruct ss as [|s ss]; simpl.
  - intros [H|H]; [assumption|congruence].
  - intros _. apply campaigns_used_of_keywords.
Qed.

Lemma campaigns_used_search_term_filter (t : tables) (f : option string) :
  campaigns_used t \/ f <> None ->
  campaigns_used (Server_app.apply_search_term_filter t f).
Proof.
  destruct f as [l|]; simpl.
  - intros _. apply campaigns_used_of_keywords.
  - intros [H|H]; [assumption|congruence].
Qed.

Lemma campaigns_used_find_duplicates (t : tables) (d : bool) :
  campaigns_used t \/ d = true ->
  campaigns_used (Server_app.apply_find_duplicates t d).
Proof.
  destruct d; simpl.
  - intros _. apply campaigns_used_of_keywords.
  - intros [H|H]; [assumption|congruence].
Qed.

Lemma campaigns_used_selected_campaigns (t : tables) (sc : list string) :
  campaigns_used t -> campaigns_used (Server_app.apply_selected_campaigns t sc).
Proof.
  intros H. destruct sc as [|c0 sc]; [assumption|].
  unfold Server_app.apply_selected_campaigns, campaigns_used. simpl.
  intros c Hc. apply filter_In in Hc. destruct Hc as [Hc Hsel].
  specialize (H c Hc). apply in_map_iff in H. destruct H as [k [Ek Hk]].
  apply in_map_iff. exists k. split; [assumption|].
  apply filter_In. split; [assumption|]. now rewrite Ek.
Qed.

Lemma campaigns_used_selected_keywords (t : tables) (sk : list string) :
  campaigns_used t \/ sk <> [] ->
  campaigns_used (Server_app.apply_selected_keywords t sk).
Proof.
  destruct sk as [|k sk]; simpl.
  - intros [H|H]; [assumption|congruence].
  - intros _. apply campaigns_used_of_keywords.
Qed.

Lemma search_term_button_cases (tr : option string) :
  search_term_button tr = true ->
  fst (Server_app.search_term_filter_of tr) <> None \/
  snd (Server_app.search_term_filter_of tr) = true.
Proof.
  unfold search_term_button.
  destruct (Server_app.search_term_filter_of tr) as [[l|] d]; simpl.
  - intros _. left. discriminate.
  - intros ->. now right.
Qed.

(** X5.  As soon as a filter other than the campaign dropdown is active
    (an action button, "Find Duplicates", a selected search term or a
    selected keyword), every campaign shown is named by at least one
    keyword shown; with the campaign dropdown alone this holds if it holds
    of the unfiltered tables. *)
Theorem update_output_no_campaign_without_keyword
    (metrics : tables) (triggered : option string)
    (selected_campaigns selected_keywords selected_search_terms : list string) :
  campaigns_used metrics \/
  Server_app.action_filter_of triggered <> None \/
  search_term_button triggered = true \/
  selected_search_terms <> [] \/ selected_keywords <> [] ->
  campaigns_used
    (Server_app.result
       (Server_app.update_output metrics triggered
          selected_campaigns selected_keywords selected_search_terms)).
Proof.
  intros H. rewrite result_update_output.
  apply campaigns_used_selected_keywords.
  destruct (list_eq_dec string_dec selected_keywords []) as [Ek|Nk];
    [left|now right].
  apply campaigns_used_selected_campaigns, campaigns_used_find_duplicates.
  destruct (snd (Server_app.search_term_filter_of triggered)) eqn:D; [now right|left].
  apply campaigns_used_search_term_filter.
  destruct (fst (Server_app.search_term_filter_of triggered)) as [l|] eqn:F;
    [right; discriminate|left].
  apply campaigns_used_selected_search_terms.
  destruct (list_eq_dec string_dec selected_search_terms []) as [Es|Ns];
    [left|now right].
  apply campaigns_used_action_filter.
  destruct H as [H|[H|[H|[H|H]]]]; try tauto.
  apply search_term_button_cases in H. rewrite F, D in H.
  destruct H as [H|H]; congruence.
Qed.

Lemma update_output_no_campaign_without_keyword_witness :
  campaigns_used
    (Server_app.result
       (Server_app.update_output Sample.metrics (Some "pause-btn") [] [] [])).
Proof.
  apply (update_output_no_campaign_without_keyword Sample.metrics (Some "pause-btn")
           [] [] []).
  right. left. discriminate.
Defined.

Lemma keywords_used_of_search_terms (cs : list Campaigns.row) (ks : list Keywords.row)
    (sts : list Search_terms.row) :
  keywords_used (mk_tables cs (Server_app.keywords_of_search_terms ks sts) sts).
Proof.
  intros k Hk. simpl in *. now apply keywords_of_search_terms_In in Hk.
Qed.

Lemma keywords_used_action_filter (m : tables) (a : option string) :
  keywords_used m -> keywords_used (Server_app.apply_action_filter m a).
Proof.
  intros H. destruct a as [l|]; simpl; [|now rewrite tables_eta].
  intros k Hk. simpl in *. pose proof Hk as Hk'. apply filter_In in Hk'.
  destruct Hk' as [Hk' _]. specialize (H k Hk').
  apply in_map_iff in H. destruct H as [s [Es Hs]].
  apply in_map_iff. exists s. split; [assumption|].
  apply filter_In. split; [assumption|].
  rewrite isin_unique. apply isin_In. rewrite Es. now apply in_map.
Qed.

Lemma keywords_used_selected_search_terms (t : tables) (ss : list string) :
  keywords_used t \/ ss <> [] ->
  keywords_used (Server_app.apply_selected_search_terms t ss).
Proof.
  destruct ss as [|s ss]; simpl.
  - intros [H|H]; [assumption|congruence].
  - intros _. apply keywords_used_of_search_terms.
Qed.

Lemma keywords_used_search_term_filter (t : tables) (f : option string) :
  keywords_used t \/ f <> None ->
  keywords_used (Server_app.apply_search_term_filter t f).
Proof.
  destruct f as [l|]; simpl.
  - intros _. apply keywords_used_of_search_terms.
  - intros [H|H]; [assumption|congruence].
Qed.

Lemma keywords_used_find_duplicates (t : tables) (d : bool) :
  keywords_used t \/ d = true ->
  keywords_used (Server_app.apply_find_duplicates t d).
Proof.
  destruct d; simpl.
  - intros _. apply keywords_used_of_search_terms.
  - intros [H|H]; [assumption|congruence].
Qed.

Lemma keywords_used_selected_keywords (t : tables) (sk : list string) :
  keywords_used t -> keywords_used (Server_app.apply_selected_keywords t sk).
Proof.
  intros H. destruct sk as [|k0 sk]; [assumption|].
  unfold Server_app.apply_selected_keywords, keywords_used. simpl.
  intros k Hk. apply filter_In in Hk. destruct Hk as [Hk Hsel].
  specialize (H k Hk). apply in_map_iff in H. destruct H as [s [Es Hs]].
  apply in_map_iff. exists s. split; [assumption|].
  apply filter_In. split; [assumption|]. now rewrite Es.
Qed.

(** X6.  Without a campaign selection, once a search-term level filter is
    active (a search-term action button, "Find Duplicates" or a selected
    search term), every keyword shown is targeted by at least one search
    term shown; under a keyword action button or a keyword selection alone
    this holds if it holds of the unfiltered tables. *)
Theorem update_output_no_keyword_without_search_term
    (metrics : tables) (triggered : option string)
    (selected_keywords selected_search_terms : list string) :
  keywords_used metrics \/
  search_term_button triggered = true \/ selected_search_terms <> [] ->
  keywords_used
    (Server_app.result
       (Server_app.update_output metrics triggered
          [] selected_keywords selected_search_terms)).
Proof.
  intros H. rewrite result_update_output.
  apply keywords_used_selected_keywords. simpl.
  apply keywords_used_find_duplicates.
  destruct (snd (Server_app.search_term_filter_of triggered)) eqn:D; [now right|left].
  apply keywords_used_search_term_filter.
  destruct (fst (Server_app.search_term_filter_of triggered)) as [l|] eqn:F;
    [right; discriminate|left].
  apply keywords_used_selected_search_terms.
  destruct (list_eq_dec string_dec selected_search_terms []) as [Es|Ns];
    [left|now right].
  apply keywords_used_action_filter.
  destruct H as [H|[H|H]]; try tauto.
  apply search_term_button_cases in H. rewrite F, D in H.
  destruct H as [H|H]; congruence.
Qed.

Lemma update_output_no_keyword_without_search_term_witness :
  keywords_used
    (Server_app.result
       (Server_app.update_output Sample.metrics (Some "graduate-btn") [] [] [])).
Proof.
  apply (update_output_no_keyword_without_search_term Sample.metrics
           (Some "graduate-btn") [] []).
  right. left. reflexivity.
Defined.

(** With a campaign selected, keywords are restricted by their campaign and
    search terms by theirs, and a keyword can stay without any search term. *)
Lemma keyword_without_search_term_under_campaign_selection :
  let m := mk_tables Sample.campaigns Sample.keywords
             [Search_terms.mk 0 "A" "shoes" "red shoes" "Graduate"] in
  keywords_used m /\
  ~ keywords_used
      (Server_app.result (Server_app.update_output m (Some "graduate-btn") ["B"] [] [])).
Proof.
  cbv zeta. split.
  - intros k Hk. simpl in *. destruct Hk as [<-|[<-|[]]]; simpl; tauto.
  - intros H. specialize (H (Keywords.mk 1 "B" "shoes" "Pause")).
    vm_compute in H. apply H. left. reflexivity.
Qed.

(** ** A selection that matches nothing *)

Lemma filter_none {A} (f : A -> bool) (l : list A) :
  (forall x, In x l -> f x = false) -> filter f l = [].
Proof.
  induction l as [|x l IH]; simpl; intros H; [reflexivity|].
  rewrite (H x (or_introl eq_refl)). apply IH. intros y Hy. apply H. now right.
Qed.

Lemma later_filters_on_empty_tables (f : option string) (d : bool) (sc sk : list string) :
  Server_app.apply_selected_keywords
    (Server_app.apply_selected_campaigns
       (Server_app.apply_find_duplicates
          (Server_app.apply_search_term_filter (mk_tables [] [] []) f) d) sc) sk
  = mk_tables [] [] [].
Proof. destruct f, d, sc, sk; reflexivity. Qed.

(** X7.  When search terms are selected and no search term of the table
    has one of the selected texts, the three tables are empty whatever
    else is pressed or selected, and the summary shows zero counts, zero
    revenue and clicks and ACOS 0 (no division takes place). *)
Theorem update_output_selection_without_match
    (metrics : tables) (triggered : option string)
    (selected_campaigns selected_keywords selected_search_terms : list string) :
  selected_search_terms <> [] ->
  (forall s, In s (search_terms metrics) ->
             isin (Search_terms.CST s) selected_search_terms = false) ->
  let o := Server_app.update_output metrics triggered
             selected_campaigns selected_keywords selected_search_terms in
  Server_app.result o = mk_tables [] [] [] /\
  Server_app.audit_summary o
    = Server_app.mk_summary 0 0 0 (Fin 0) (Fin 0) (Fin 0).
Proof.
  intros Hne Hno. cbv zeta.
  assert (E : Server_app.result
                (Server_app.update_output metrics triggered selected_campaigns
                   selected_keywords selected_search_terms) = mk_tables [] [] []).
  { rewrite result_update_output.
    assert (E2 : Server_app.apply_selected_search_terms
                   (Server_app.apply_action_filter metrics
                      (Server_app.action_filter_of triggered)) selected_search_terms
                 = mk_tables [] [] []).
    { destruct selected_search_terms as [|s0 ss]; [congruence|].
      unfold Server_app.apply_selected_search_terms.
      rewrite (filter_none (fun r => isin (Search_terms.CST r) (s0 :: ss))).
      - unfold Server_app.keywords_of_search_terms, Server_app.campaigns_of_keywords.
        simpl. rewrite (filter_none (fun _ : Keywords.row => false)) by reflexivity.
        simpl. now rewrite (filter_none (fun _ : Campaigns.row => false)) by reflexivity.
      - intros r Hr. apply Hno.
        destruct (Server_app.action_filter_of triggered); simpl in Hr;
          [now apply filter_In in Hr|assumption]. }
    rewrite E2. apply later_filters_on_empty_tables. }
  split; [exact E|]. rewrite summary_update_output, E. reflexivity.
Qed.

Lemma update_output_selection_without_match_witness :
  Server_app.result
    (Server_app.update_output Sample.metrics (Some "pause-btn") ["A"] []
       ["purple shoes"]) = mk_tables [] [] [].
Proof.
  refine (proj1 (update_output_selection_without_match Sample.metrics
                   (Some "pause-btn") ["A"] [] ["purple shoes"] _ _)).
  - discriminate.
  - intros s Hs. simpl in Hs.
    repeat (destruct Hs as [<-|Hs]; [reflexivity|]). destruct Hs.
Defined.

(** ** The bid labels *)

Lemma keywords_Action_Increase_iff (mb base clicks orders : num) :
  Server.keywords_Action mb base clicks orders = "Increase Bid" <->
  (mb >? base)%num = true.
Proof.
  unfold Server.keywords_Action.
  destruct (mb >? base)%num; [tauto|].
  destruct (mb <? base)%num; [split; discriminate|].
  destruct (_ && _); split; discriminate.
Qed.

Lemma keywords_Action_Reduce_iff (mb base clicks orders : num) :
  Server.keywords_Action mb base clicks orders = "Reduce Bid" <->
  (mb <? base)%num = true.
Proof.
  split; [|apply keywords_Action_lt].
  unfold Server.keywords_Action.
  destruct (mb >? base)%num; [discriminate|].
  destruct (mb <? base)%num; [reflexivity|].
  destruct (_ && _); discriminate.
Qed.

(** ** Ratios guarded by [fillna(0)] *)

(** X9.  The click-through rate and the conversion rate, which divide
    first and fill NaN afterwards, are numbers exactly when the
    denominator is not zero or the numerator is zero too: zero over zero
    gives 0, a ratio over a non-zero denominator is that ratio (times 100
    and rounded where the script scales), and a non-zero count over zero
    stays infinite. *)
Theorem fillna_guarded_ratio (x y : Q) :
  (is_finite (Dash_audit.campaigns_CTR (Fin x) (Fin y)) <-> (y == 0 -> x == 0)) /\
  (is_finite (Server.campaigns_CTR (Fin x) (Fin y)) <-> (y == 0 -> x == 0)) /\
  (is_finite (Server.campaigns_Conversion_Rate (Fin x) (Fin y)) <-> (y == 0 -> x == 0)) /\
  (y == 0 -> x == 0 ->
   Dash_audit.campaigns_CTR (Fin x) (Fin y) = Fin 0 /\
   Server.campaigns_CTR (Fin x) (Fin y) = Fin 0 /\
   Server.campaigns_Conversion_Rate (Fin x) (Fin y) = Fin 0) /\
  (~ y == 0 ->
   Dash_audit.campaigns_CTR (Fin x) (Fin y) = Fin (Qred (x / y)) /\
   Server.campaigns_CTR (Fin x) (Fin y) = Fin (Qround2 (Qred (Qred (x / y) * 100)))).
Proof.
  unfold Dash_audit.campaigns_CTR, Server.campaigns_CTR,
    Server.campaigns_Conversion_Rate. simpl.
  destruct (Qeq_bool y 0) eqn:Ey.
  - apply Qeq_bool_iff in Ey. destruct (Qeq_bool x 0) eqn:Ex.
    + apply Qeq_bool_iff in Ex. simpl. repeat split; tauto.
    + assert (Nx : ~ x == 0) by (intro E; apply Qeq_bool_iff in E; congruence).
      destruct (Qlt_bool 0 x); simpl; repeat split; try tauto; intros; exfalso; tauto.
  - assert (Ny : ~ y == 0) by (intro E; apply Qeq_bool_iff in E; congruence).
    simpl. repeat split; try tauto; intros; exfalso; tauto.
Qed.

(** ** The search terms' ACOS in amazon_ads_audit_Server.py *)

(** X10.  In amazon_ads_audit_Server.py a search term that spent money
    without any sale is shown with ACOS 0 (the infinite ratio is replaced
    by 0), a search term without spend and without sales has ACOS NaN, and
    with sales the ACOS is the percentage spend / sales x 100 rounded to
    two decimals.  A term with ACOS 0 passes the "below target" test of any
    positive target, a term with ACOS NaN never does. *)
Theorem Server_search_terms_ACOS_cases (Spend Sales target : Q) :
  (Sales == 0 -> ~ Spend == 0 ->
   Server.search_terms_ACOS (Fin Spend) (Fin Sales) = Fin 0) /\
  (Sales == 0 -> Spend == 0 ->
   Server.search_terms_ACOS (Fin Spend) (Fin Sales) = NaN) /\
  (~ Sales == 0 ->
   Server.search_terms_ACOS (Fin Spend) (Fin Sales)
     = Fin (Qround2 (Qred (Qred (Spend / Sales) * 100)))) /\
  (0 < target -> (Fin 0 <? Fin target * Fin 100)%num = true) /\
  (NaN <? Fin target * Fin 100)%num = false.
Proof.
  unfold Server.search_terms_ACOS. simpl.
  split; [|split; [|split; [|split]]].
  - intros Es Ns. apply Qeq_bool_iff in Es. rewrite Es.
    destruct (Qeq_bool Spend 0) eqn:E; [apply Qeq_bool_iff in E; contradiction|].
    destruct (Qlt_bool 0 Spend); reflexivity.
  - intros Es E0. apply Qeq_bool_iff in Es, E0. now rewrite Es, E0.
  - intros Ns. destruct (Qeq_bool Sales 0) eqn:E;
      [apply Qeq_bool_iff in E; contradiction|reflexivity].
  - intros Ht. apply Qlt_bool_iff. rewrite Qred_correct.
    rewrite <- (Qmult_0_l 100). apply Qmult_lt_compat_r; [reflexivity|assumption].
  - reflexivity.
Qed.

Lemma Server_search_terms_ACOS_cases_witness :
  Server.search_terms_ACOS (Fin 5) (Fin 0) = Fin 0.
Proof.
  refine (proj1 (Server_search_terms_ACOS_cases 5 0 0.3) _ _).
  - reflexivity.
  - discriminate.
Defined.

(** ** The "Negate" rule *)

Lemma geb_2_not_zero (o : num) : (o >=? Fin 2)%num = true -> (o =? Fin 0)%num = false.
Proof.
  destruct o as [q| | |]; simpl; try reflexivity; try discriminate.
  unfold geb, gtb. simpl. intros H. apply orb_true_iff in H.
  destruct (Qeq_bool q 0) eqn:E; [|reflexivity]. apply Qeq_bool_iff in E.
  destruct H as [H|H].
  - apply Qlt_bool_iff in H. rewrite E in H. discriminate.
  - apply Qeq_bool_iff in H. rewrite E in H. discriminate.
Qed.

Lemma gtb_2_not_zero (o : num) : (o >? Fin 2)%num = true -> (o =? Fin 0)%num = false.
Proof.
  intros H. apply geb_2_not_zero. unfold geb. now rewrite H.
Qed.

(** X11.  In every script a search term is labelled "Negate" exactly when
    it has more than 3 clicks and no order: the "Graduate" test that comes
    first asks for orders and so never takes such a row away. *)
Theorem search_terms_Negate_iff (target_acos ACOS Orders Clicks : num) (Match_Type : string) :
  (Server.search_terms_Action target_acos ACOS Orders Clicks Match_Type = "Negate" <->
     (Clicks >? Fin 3)%num = true /\ (Orders =? Fin 0)%num = true) /\
  (Back_up_Final.search_terms_Action target_acos ACOS Orders Clicks = "Negate" <->
     (Clicks >? Fin 3)%num = true /\ (Orders =? Fin 0)%num = true) /\
  (Dash_audit.search_terms_Action target_acos ACOS Orders Clicks = "Negate" <->
     (Clicks >? Fin 3)%num = true /\ (Orders =? Fin 0)%num = true) /\
  (Amazon_ads_audit.search_terms_Action target_acos ACOS Orders Clicks = "Negate" <->
     (Clicks >? Fin 3)%num = true /\ (Orders =? Fin 0)%num = true).
Proof.
  unfold Server.search_terms_Action, Back_up_Final.search_terms_Action,
    Dash_audit.search_terms_Action, Amazon_ads_audit.search_terms_Action.
  pose proof (geb_2_not_zero Orders) as G. pose proof (gtb_2_not_zero Orders) as G'.
  rewrite <- andb_true_iff.
  destruct (Orders >=? Fin 2)%num, (Orders >? Fin 2)%num, (Orders =? Fin 0)%num;
    try (specialize (G eq_refl); discriminate);
    try (specialize (G' eq_refl); discriminate);
    rewrite ?andb_false_r, ?andb_true_r;
    destruct (ACOS <? target_acos * Fin 100)%num, (ACOS <? target_acos)%num,
      (negb (Py.lower (Py.strip Match_Type) =? "exact")%string),
      (Clicks >? Fin 3)%num; simpl; repeat split; try discriminate; tauto.
Qed.

(** ** Placements in amazon_ads_audit.py *)

(** X12.  A placement is told to increase exactly when its ACOS is below
    target and its percentage positive, to decrease exactly when its ACOS
    is above target and its percentage positive, and never both.  Blank
    cells count as 0: a blank percentage always gives "Do Nothing", and a
    blank ACOS with a positive percentage and a positive target gives
    "Increase Placement Percentage". *)
Theorem placements_Action_cases (target_acos ACOS Percentage : num) :
  (Amazon_ads_audit.placements_Action target_acos ACOS Percentage
     = "Increase Placement Percentage" <->
   (ACOS <? target_acos)%num = true /\ (Percentage >? Fin 0)%num = true) /\
  (Amazon_ads_audit.placements_Action target_acos ACOS Percentage
     = "Decrease Placement Percentage" <->
   (ACOS >? target_acos)%num = true /\ (Percentage >? Fin 0)%num = true) /\
  Amazon_ads_audit.placements_Action target_acos ACOS (fillna NaN (Fin 0)) = "Do Nothing" /\
  ((Fin 0 <? target_acos)%num = true -> (Percentage >? Fin 0)%num = true ->
   Amazon_ads_audit.placements_Action target_acos (fillna NaN (Fin 0)) Percentage
     = "Increase Placement Percentage").
Proof.
  unfold Amazon_ads_audit.placements_Action.
  split; [|split; [|split]].
  - destruct (ACOS <? target_acos)%num, (Percentage >? Fin 0)%num,
      (ACOS >? target_acos)%num; simpl; intuition discriminate.
  - pose proof (ltb_asym ACOS target_acos) as A. unfold gtb in *.
    destruct (ACOS <? target_acos)%num, (target_acos <? ACOS)%num,
      (Fin 0 <? Percentage)%num; try (specialize (A eq_refl); discriminate);
      simpl; intuition discriminate.
  - simpl. unfold gtb. simpl. rewrite !andb_false_r. reflexivity.
  - simpl. intros -> ->. reflexivity.
Qed.

(** ** Columns of a table *)

Section columns_facts.
Import DataFrame.

Lemma lookup_has {A} (col : string) (l : list (string * A)) :
  existsb (String.eqb col) (map fst l) = true <-> exists s, lookup col l = Some s.
Proof.
  induction l as [|[c s] l IH]; simpl.
  - split; [discriminate|intros [s H]; discriminate].
  - rewrite (String.eqb_sym col c). destruct (c =? col)%string; simpl.
    + split; [intros _; now exists s|reflexivity].
    + exact IH.
Qed.

Lemma getitem_has (df : frame) (col : string) :
  has_column df col = true <-> exists s, getitem df col = Ok s.
Proof.
  unfold has_column, columns, getitem. rewrite lookup_has.
  destruct (lookup col (cols df)) as [s|].
  - split; intros _; now exists s.
  - split; intros [s H]; discriminate.
Qed.

Lemma getitem_KeyError (df : frame) (col : string) :
  has_column df col = false -> getitem df col = Raise (KeyError col).
Proof.
  intros H. unfold getitem. destruct (lookup col (cols df)) as [s|] eqn:E; [|reflexivity].
  assert (has_column df col = true) by (apply getitem_has; unfold getitem; rewrite E; eauto).
  congruence.
Qed.

Lemma lookup_assign_same (col : string) (s : Series) (l : list (string * Series)) :
  lookup col (assign col s l) = Some s.
Proof.
  induction l as [|[c s'] l IH]; simpl.
  - now rewrite String.eqb_refl.
  - destruct (c =? col)%string eqn:E; simpl; rewrite E; [reflexivity|exact IH].
Qed.

Lemma lookup_assign_other (col col' : string) (s : Series) (l : list (string * Series)) :
  col' <> col -> lookup col' (assign col s l) = lookup col' l.
Proof.
  intros N. induction l as [|[c s'] l IH]; simpl.
  - apply String.eqb_neq in N. rewrite String.eqb_sym in N. now rewrite N.
  - destruct (c =? col)%string eqn:E; simpl.
    + apply String.eqb_eq in E. subst c.
      apply String.eqb_neq in N. rewrite String.eqb_sym in N. now rewrite N.
    + destruct (c =? col')%string; [reflexivity|exact IH].
Qed.

(** What was written to a column is read back, and the other columns are
    as before. *)
Lemma getitem_setitem_same (df : frame) (col : string) (s : Series) :
  getitem (setitem df col s) col = Ok s.
Proof. unfold getitem, setitem. simpl. now rewrite lookup_assign_same. Qed.

Lemma getitem_setitem_other (df : frame) (col col' : string) (s : Series) :
  col' <> col -> getitem (setitem df col s) col' = getitem df col'.
Proof.
  intros N. unfold getitem, setitem. simpl. now rewrite lookup_assign_other.
Qed.

Lemma has_column_setitem (df : frame) (col col' : string) (s : Series) :
  has_column (setitem df col s) col' = has_column df col' || (col' =? col)%string.
Proof.
  apply eq_true_iff_eq. rewrite orb_true_iff, !getitem_has, String.eqb_eq.
  destruct (string_dec col' col) as [->|N].
  - rewrite getitem_setitem_same. split; [now right|intros _; eauto].
  - rewrite (getitem_setitem_other _ _ _ _ N). tauto.
Qed.

Lemma has_column_ensure (df : frame) (col col' : string) :
  has_column (ensure_column df col) col'
    = has_column df col' || (col' =? col)%string.
Proof.
  unfold ensure_column. destruct (has_column df col) eqn:E.
  - destruct (col' =? col)%string eqn:E'; [|now rewrite orb_false_r].
    apply String.eqb_eq in E'. subst. now rewrite E.
  - unfold setitem_scalar. apply has_column_setitem.
Qed.

Lemma getitem_ensure_present (df : frame) (col col' : string) :
  has_column df col' = true -> getitem (ensure_column df col) col' = getitem df col'.
Proof.
  intros H. unfold ensure_column. destruct (has_column df col) eqn:E; [reflexivity|].
  apply getitem_setitem_other. intros ->. congruence.
Qed.

Lemma nrows_ensure (df : frame) (col : string) : nrows (ensure_column df col) = nrows df.
Proof. unfold ensure_column. now destruct (has_column df col). Qed.

(** X13.  The loop "Ensure necessary columns exist" leaves a table in which
    every listed column exists; columns that were there keep their cells,
    listed columns that were missing hold one 0 per row, no other column
    appears, and the number of rows is unchanged. *)
Theorem required_columns_loop (cols_required : list string) (df : frame) (col : string) :
  let df' := fold_left ensure_column cols_required df in
  nrows df' = nrows df /\
  has_column df' col = has_column df col || isin col cols_required /\
  (has_column df col = true -> getitem df' col = getitem df col) /\
  (has_column df col = false -> In col cols_required ->
   getitem df' col = Ok (repeat (Num (Fin 0)) (nrows df))).
Proof.
  cbv zeta. revert df. induction cols_required as [|c l IH]; intros df; simpl.
  - rewrite orb_false_r. repeat split; tauto.
  - destruct (IH (ensure_column df c)) as (Hn & Hh & Hp & Ha).
    rewrite nrows_ensure in *. rewrite has_column_ensure in *.
    split; [exact Hn|]. split.
    { rewrite Hh. now rewrite orb_assoc. }
    split.
    + intros H. rewrite Hp by (now rewrite H). now apply getitem_ensure_present.
    + intros H [->|Hin].
      * rewrite Hp by (apply orb_true_iff; right; apply String.eqb_refl).
        now apply ensure_column_absent.
      * destruct (col =? c)%string eqn:E.
        -- apply String.eqb_eq in E. subst c.
           rewrite Hp by apply orb_true_r.
           now apply ensure_column_absent.
        -- apply Ha; [now rewrite H|assumption].
Qed.

End columns_facts.

(** ** Which missing columns stop [calculate_metrics] *)

Section missing_columns.
Import DataFrame.

Lemma nk_Ok {A} (a : A) : no_KeyError (Ok a).
Proof. intros key. discriminate. Qed.

Lemma nk_bind {A B} (m : result A) (k : A -> result B) :
  no_KeyError m -> (forall a, m = Ok a -> no_KeyError (k a)) -> no_KeyError (bind m k).
Proof.
  intros Hm Hk. destruct m as [a|e]; simpl; [now apply Hk|].
  intros key E. apply (Hm key). congruence.
Qed.

Lemma nk_mapM {A B} (f : A -> result B) (l : list A) :
  (forall x, In x l -> no_KeyError (f x)) -> no_KeyError (mapM f l).
Proof.
  induction l as [|x l IH]; simpl; intros H; [apply nk_Ok|].
  apply nk_bind; [apply H; now left|]. intros b _.
  apply nk_bind; [apply IH; intros y Hy; apply H; now right|].
  intros bs _. apply nk_Ok.
Qed.

Lemma nk_as_num (c : cell) : no_KeyError (as_num c).
Proof. destruct c; intros key; discriminate. Qed.

Lemma nk_map_num (f : num -> num) (s : Series) : no_KeyError (map_num f s).
Proof.
  apply nk_mapM. intros c _. apply nk_bind; [apply nk_as_num|intros; apply nk_Ok].
Qed.

Lemma nk_zip_num (f : num -> num -> num) (s1 s2 : Series) : no_KeyError (zip_num f s1 s2).
Proof.
  apply nk_mapM. intros [c1 c2] _.
  apply nk_bind; [apply nk_as_num|intros x _].
  apply nk_bind; [apply nk_as_num|intros; apply nk_Ok].
Qed.

Lemma nk_fillna0_astype_float (s : Series) : no_KeyError (fillna0_astype_float s).
Proof. apply nk_mapM. intros [x|t] _ key; discriminate. Qed.

Lemma nk_getitem (df : frame) (col : string) :
  has_column df col = true -> no_KeyError (getitem df col).
Proof. intros H. apply getitem_has in H. destruct H as [s ->]. apply nk_Ok. Qed.

Lemma set_zip_columns (df df' : frame) (out : string) (f : num -> num -> num)
    (a b : string) :
  Metrics.set_zip df out f a b = Ok df' ->
  forall c, has_column df' c = has_column df c || (c =? out)%string.
Proof.
  unfold Metrics.set_zip. intros H c.
  destruct (getitem df a); simpl in H; [|discriminate].
  destruct (getitem df b); simpl in H; [|discriminate].
  destruct (zip_num f a0 a1); simpl in H; [|discriminate].
  injection H as <-. apply has_column_setitem.
Qed.

Lemma nk_set_zip (df : frame) (out : string) (f : num -> num -> num) (a b : string) :
  has_column df a = true -> has_column df b = true ->
  no_KeyError (Metrics.set_zip df out f a b).
Proof.
  intros Ha Hb. unfold Metrics.set_zip.
  apply nk_bind; [now apply nk_getitem|intros sa _].
  apply nk_bind; [now apply nk_getitem|intros sb _].
  apply nk_bind; [apply nk_zip_num|intros; apply nk_Ok].
Qed.

Lemma set_map_columns (df df' : frame) (out : string) (f : num -> num) (a : string) :
  Metrics.set_map df out f a = Ok df' ->
  forall c, has_column df' c = has_column df c || (c =? out)%string.
Proof.
  unfold Metrics.set_map. intros H c.
  destruct (getitem df a); simpl in H; [|discriminate].
  destruct (map_num f a0); simpl in H; [|discriminate].
  injection H as <-. apply has_column_setitem.
Qed.

Lemma nk_set_map (df : frame) (out : string) (f : num -> num) (a : string) :
  has_column df a = true -> no_KeyError (Metrics.set_map df out f a).
Proof.
  intros Ha. unfold Metrics.set_map.
  apply nk_bind; [now apply nk_getitem|intros sa _].
  apply nk_bind; [apply nk_map_num|intros; apply nk_Ok].
Qed.

Lemma update_if_present_columns (df df' : frame) (col : string) (f : num -> num) :
  Metrics.update_if_present df col f = Ok df' ->
  forall c, has_column df' c = has_column df c.
Proof.
  unfold Metrics.update_if_present. intros H c.
  destruct (has_column df col) eqn:E; [|now injection H as <-].
  rewrite (set_map_columns _ _ _ _ _ H).
  destruct (c =? col)%string eqn:Ec; [|apply orb_false_r].
  apply String.eqb_eq in Ec. subst. rewrite E. reflexivity.
Qed.

Lemma nk_update_if_present (df : frame) (col : string) (f : num -> num) :
  no_KeyError (Metrics.update_if_present df col f).
Proof.
  unfold Metrics.update_if_present.
  destruct (has_column df col) eqn:E; [now apply nk_set_map|apply nk_Ok].
Qed.

Lemma set_Action_columns (df df' : frame) (f : row -> result string) :
  Metrics.set_Action df f = Ok df' ->
  forall c, has_column df' c = has_column df c || (c =? "Action")%string.
Proof.
  unfold Metrics.set_Action. intros H c.
  destruct (apply_axis1 f df); simpl in H; [|discriminate].
  injection H as <-. apply has_column_setitem.
Qed.

Lemma nk_set_Action (df : frame) (f : row -> result string) :
  (forall r, In r (rows df) -> no_KeyError (f r)) ->
  no_KeyError (Metrics.set_Action df f).
Proof.
  intros H. unfold Metrics.set_Action, apply_axis1.
  apply nk_bind; [|intros; apply nk_Ok].
  apply nk_mapM. intros r Hr. apply nk_bind; [now apply H|intros; apply nk_Ok].
Qed.

(** A row of a table has the table's columns. *)
Lemma rows_getitem (df : frame) (r : row) (col : string) :
  In r (rows df) -> has_column df col = true -> exists v, row_getitem r col = Ok v.
Proof.
  unfold rows. rewrite in_map_iff. intros [i [<- _]] H.
  apply getitem_has in H. destruct H as [s H]. unfold getitem in H.
  unfold row_getitem, iloc.
  induction (cols df) as [|[c s'] l IH]; simpl in *; [discriminate|].
  destruct (c =? col)%string; [eauto|now apply IH].
Qed.

Lemma nk_row_num (r : row) (col : string) :
  (exists v, row_getitem r col = Ok v) -> no_KeyError (row_num r col).
Proof. intros [v H]. unfold row_num. rewrite H. apply nk_as_num. Qed.

Lemma nk_row_eq_num (r : row) (col : string) (x : num) :
  (exists v, row_getitem r col = Ok v) -> no_KeyError (row_eq_num r col x).
Proof. intros [v H]. unfold row_eq_num. rewrite H. destruct v; apply nk_Ok. Qed.

Lemma nk_row_strip_lower (r : row) (col : string) :
  (exists v, row_getitem r col = Ok v) -> no_KeyError (row_strip_lower r col).
Proof.
  intros [v H]. unfold row_strip_lower. rewrite H.
  destruct v; intros key; discriminate.
Qed.

Lemma nk_ifM {A} (c : result bool) (a b : result A) :
  no_KeyError c -> no_KeyError a -> no_KeyError b -> no_KeyError (ifM c a b).
Proof.
  intros Hc Ha Hb. unfold ifM. apply nk_bind; [assumption|].
  intros [|] _; assumption.
Qed.

Lemma nk_andM (a b : result bool) :
  no_KeyError a -> no_KeyError b -> no_KeyError (andM a b).
Proof.
  intros Ha Hb. unfold andM. apply nk_bind; [assumption|].
  intros [|] _; [assumption|apply nk_Ok].
Qed.

Lemma nk_liftM2 {A B C} (f : A -> B -> C) (a : result A) (b : result B) :
  no_KeyError a -> no_KeyError b -> no_KeyError (liftM2 f a b).
Proof.
  intros Ha Hb. unfold liftM2. apply nk_bind; [assumption|intros x _].
  apply nk_bind; [assumption|intros; apply nk_Ok].
Qed.

Lemma nk_keywords_Action_rows (df : frame) (baseline : string) :
  has_column df "Max Bid" = true -> has_column df baseline = true ->
  has_column df "Clicks" = true -> has_column df "Orders" = true ->
  forall r, In r (rows df) -> no_KeyError (Metrics.keywords_Action_row baseline r).
Proof.
  intros H1 H2 H3 H4 r Hr. unfold Metrics.keywords_Action_row.
  pose proof (rows_getitem df r _ Hr H1). pose proof (rows_getitem df r _ Hr H2).
  pose proof (rows_getitem df r _ Hr H3). pose proof (rows_getitem df r _ Hr H4).
  repeat first [ apply nk_ifM | apply nk_andM | apply nk_liftM2 | apply nk_Ok
               | now apply nk_row_num | now apply nk_row_eq_num ].
Qed.

Lemma nk_Dash_search_terms_Action_rows (df : frame) (target_acos : num) :
  has_column df "ACOS" = true -> has_column df "Orders" = true ->
  has_column df "Clicks" = true ->
  forall r, In r (rows df) ->
    no_KeyError (Metrics.On_dash_audit.search_terms_Action_row target_acos r).
Proof.
  intros H1 H2 H3 r Hr. unfold Metrics.On_dash_audit.search_terms_Action_row.
  pose proof (rows_getitem df r _ Hr H1). pose proof (rows_getitem df r _ Hr H2).
  pose proof (rows_getitem df r _ Hr H3).
  repeat first [ apply nk_ifM | apply nk_andM | apply nk_liftM2 | apply nk_Ok
               | now apply nk_row_num | now apply nk_row_eq_num ].
Qed.

Lemma nk_Server_search_terms_Action_rows (df : frame) (target_acos : num) :
  has_column df "ACOS" = true -> has_column df "Orders" = true ->
  has_column df "Clicks" = true -> has_column df "Match Type" = true ->
  forall r, In r (rows df) ->
    no_KeyError (Metrics.On_server.search_terms_Action_row target_acos r).
Proof.
  intros H1 H2 H3 H4 r Hr. unfold Metrics.On_server.search_terms_Action_row.
  pose proof (rows_getitem df r _ Hr H1). pose proof (rows_getitem df r _ Hr H2).
  pose proof (rows_getitem df r _ Hr H3). pose proof (rows_getitem df r _ Hr H4).
  repeat first [ apply nk_ifM | apply nk_andM | apply nk_liftM2 | apply nk_Ok
               | now apply nk_row_num | now apply nk_row_eq_num
               | apply nk_bind; [now apply nk_row_strip_lower|intros; apply nk_Ok] ].
Qed.

Lemma nk_placements_Action_rows (df : frame) (target_acos : num) :
  has_column df "ACOS" = true -> has_column df "Percentage" = true ->
  forall r, In r (rows df) ->
    no_KeyError (Metrics.On_amazon_ads_audit.placements_Action_row target_acos r).
Proof.
  intros H1 H2 r Hr. unfold Metrics.On_amazon_ads_audit.placements_Action_row.
  pose proof (rows_getitem df r _ Hr H1). pose proof (rows_getitem df r _ Hr H2).
  repeat first [ apply nk_ifM | apply nk_andM | apply nk_liftM2 | apply nk_Ok
               | now apply nk_row_num | now apply nk_row_eq_num ].
Qed.

Lemma has_column_fold_ensure (l : list string) (df : frame) (col : string) :
  has_column (fold_left ensure_column l df) col = has_column df col || isin col l.
Proof. apply (required_columns_loop l df col). Qed.

End missing_columns.

Section calculate_metrics_columns.
Import DataFrame.

Ltac has_tac :=
  repeat first
    [ match goal with
      | H : forall c, has_column ?d c = _ |- context [has_column ?d _] => rewrite H
      end
    | rewrite has_column_fold_ensure
    | rewrite has_column_ensure
    | rewrite has_column_setitem ];
  repeat match goal with
         | H : has_column _ _ = true |- _ => rewrite H
         end;
  cbn [isin existsb String.eqb Ascii.eqb Bool.eqb orb andb];
  rewrite ?orb_false_r, ?orb_true_r; reflexivity.

Ltac learn E :=
  first [ pose proof (set_zip_columns _ _ _ _ _ _ E)
        | pose proof (set_map_columns _ _ _ _ _ E)
        | pose proof (update_if_present_columns _ _ _ _ E)
        | pose proof (set_Action_columns _ _ _ E) ];
  clear E.

Ltac step :=
  apply nk_bind;
  [ first [ apply nk_update_if_present
          | apply nk_set_zip; has_tac
          | apply nk_set_map; has_tac
          | apply nk_set_Action;
            first [ apply (nk_keywords_Action_rows _ _); has_tac
                  | apply (nk_Dash_search_terms_Action_rows _ _); has_tac
                  | apply (nk_Server_search_terms_Action_rows _ _); has_tac
                  | apply (nk_placements_Action_rows _ _); has_tac ] ]
  | let df := fresh "df" in let E := fresh "E" in intros df E; learn E ].

(** X14.  [calculate_metrics] of dash_audit.py never stops on a missing
    column, whatever columns the three tables have: everything it reads is
    in its lists of required columns or was written by itself. *)
Theorem Dash_audit_calculate_metrics_no_KeyError (d : data) (target_acos : num) :
  no_KeyError (Metrics.On_dash_audit.calculate_metrics d target_acos).
Proof.
  unfold Metrics.On_dash_audit.calculate_metrics, Metrics.On_dash_audit.required_columns.
  cbv zeta beta iota.
  do 7 step. apply nk_Ok.
Qed.

Ltac split_has H :=
  unfold has_columns in H; cbn [forallb] in H;
  repeat (apply andb_true_iff in H; let H' := fresh "Hcol" in destruct H as [H' H]);
  clear H.

(** X15.  [calculate_metrics] of amazon_ads_audit_Server.py stops on a
    missing column for two columns only: with "CPC" among the keyword
    columns and "Match Type" among the search-term columns it never raises
    KeyError, whatever else is missing. *)
Theorem Server_calculate_metrics_no_KeyError (d : data) (target_acos : num) :
  has_column (d_keywords d) "CPC" = true ->
  has_column (d_search_terms d) "Match Type" = true ->
  no_KeyError (Metrics.On_server.calculate_metrics d target_acos).
Proof.
  intros Hcpc Hmt.
  unfold Metrics.On_server.calculate_metrics, Metrics.On_server.required_columns.
  cbv zeta beta iota.
  do 4 step.
  apply nk_bind.
  { destruct (has_column df2 "Sales" && has_column df2 "Spend") eqn:C; [|apply nk_Ok].
    apply andb_true_iff in C. destruct C as [C1 C2]. now apply nk_set_zip. }
  intros df3 E.
  assert (H3 : forall c, has_column df3 c = has_column df2 c || (c =? "ACOS")%string).
  { destruct (has_column df2 "Sales" && has_column df2 "Spend").
    - exact (set_zip_columns _ _ _ _ _ _ E).
    - injection E as <-. intros c. apply has_column_setitem. }
  clear E.
  do 16 step. apply nk_Ok.
Qed.

Lemma Server_calculate_metrics_no_KeyError_witness :
  no_KeyError
    (Metrics.On_server.calculate_metrics
       (mk_data Sample_frames.bare Sample_server.keywords Sample_server.search_terms
          Sample_frames.bare) (Fin 0.3)).
Proof.
  apply (Server_calculate_metrics_no_KeyError
           (mk_data Sample_frames.bare Sample_server.keywords Sample_server.search_terms
              Sample_frames.bare) (Fin 0.3)); reflexivity.
Defined.

(** X16.  [calculate_metrics] of amazon_ads_audit.py never raises KeyError
    when the campaigns have "Clicks", "Impressions" and "Spend", the
    placements "Percentage" and "ACOS", the keywords "Clicks", "CPC" and
    "Orders", and the search terms "Spend" and "Clicks"; the "Sales"
    columns and the search terms' "Orders" may be missing. *)
Theorem Amazon_ads_audit_calculate_metrics_no_KeyError (d : data) (target_acos : num) :
  has_columns (d_campaigns d) ["Clicks"; "Impressions"; "Spend"] = true ->
  has_columns (d_placements d) ["Percentage"; "ACOS"] = true ->
  has_columns (d_keywords d) ["Clicks"; "CPC"; "Orders"] = true ->
  has_columns (d_search_terms d) ["Spend"; "Clicks"] = true ->
  no_KeyError (Metrics.On_amazon_ads_audit.calculate_metrics d target_acos).
Proof.
  intros Hc Hp Hk Hs. split_has Hc. split_has Hp. split_has Hk. split_has Hs.
  unfold Metrics.On_amazon_ads_audit.calculate_metrics. cbv zeta beta iota.
  do 3 step.
  apply nk_bind; [now apply nk_getitem|intros p0 _].
  apply nk_bind; [apply nk_fillna0_astype_float|intros p1 _].
  apply nk_bind; [apply nk_getitem; has_tac|intros a0 _].
  apply nk_bind; [apply nk_fillna0_astype_float|intros a1 _].
  do 5 step. apply nk_Ok.
Qed.

Lemma Amazon_ads_audit_calculate_metrics_no_KeyError_witness :
  no_KeyError
    (Metrics.On_amazon_ads_audit.calculate_metrics
       (mk_data Sample_frames.campaigns Sample_frames.keywords
          Sample_frames.search_terms Sample_frames.placements) (Fin 0.3)).
Proof.
  apply (Amazon_ads_audit_calculate_metrics_no_KeyError
           (mk_data Sample_frames.campaigns Sample_frames.keywords
              Sample_frames.search_terms Sample_frames.placements) (Fin 0.3));
    reflexivity.
Defined.

Lemma nk_Back_up_search_terms_Action_rows (df : frame) (target_acos : num) :
  has_column df "ACOS" = true -> has_column df "7 Day Total Orders (#)" = true ->
  has_column df "Clicks" = true ->
  forall r, In r (rows df) ->
    no_KeyError (Metrics_back_up_final.search_terms_Action_row target_acos r).
Proof.
  intros H1 H2 H3 r Hr. unfold Metrics_back_up_final.search_terms_Action_row.
  pose proof (rows_getitem df r _ Hr H1). pose proof (rows_getitem df r _ Hr H2).
  pose proof (rows_getitem df r _ Hr H3).
  repeat first [ apply nk_ifM | apply nk_andM | apply nk_liftM2 | apply nk_Ok
               | now apply nk_row_num | now apply nk_row_eq_num ].
Qed.

(** X18.  [calculate_metrics] of Back_up_Final.py never raises KeyError
    when the keywords have "Click-through Rate", "Conversion Rate" and
    "ACOS" and the search terms have "7 Day Total Sales " and
    "7 Day Total Orders (#)"; the columns of its required lists may all be
    missing. *)
Theorem Back_up_Final_calculate_metrics_no_KeyError (d : data) (target_acos : num) :
  has_columns (d_keywords d) ["Click-through Rate"; "Conversion Rate"; "ACOS"] = true ->
  has_columns (d_search_terms d) ["7 Day Total Sales "; "7 Day Total Orders (#)"] = true ->
  no_KeyError (Metrics_back_up_final.calculate_metrics d target_acos).
Proof.
  intros Hk Hs. split_has Hk. split_has Hs.
  unfold Metrics_back_up_final.calculate_metrics, Metrics_back_up_final.required_columns.
  cbv zeta beta iota.
  do 18 step.
  apply nk_bind;
    [apply nk_set_Action; apply (nk_Back_up_search_terms_Action_rows _ _); has_tac|].
  intros; apply nk_Ok.
Qed.

Lemma Back_up_Final_calculate_metrics_no_KeyError_witness :
  no_KeyError
    (Metrics_back_up_final.calculate_metrics
       (mk_data Sample_frames.bare Sample_back_up.keywords Sample_back_up.search_terms
          Sample_frames.bare) (Fin 0.3)).
Proof.
  apply (Back_up_Final_calculate_metrics_no_KeyError
           (mk_data Sample_frames.bare Sample_back_up.keywords
              Sample_back_up.search_terms Sample_frames.bare) (Fin 0.3));
    reflexivity.
Defined.

(** The run of Back_up_Final.py on a search term that spent without
    selling: the ACOS that decides its action is infinite. *)
Example Back_up_Final_run :
  exists out,
    Metrics_back_up_final.calculate_metrics
      (mk_data Sample_frames.bare Sample_back_up.keywords Sample_back_up.search_terms
         Sample_frames.bare) (Fin 0.3) = Ok out /\
    getitem (d_search_terms out) "ACOS" = Ok [Num PInf] /\
    getitem (d_search_terms out) "Action" = Ok [Str "Negate"].
Proof. eexists. split; [vm_compute; reflexivity|]. split; reflexivity. Qed.

End calculate_metrics_columns.

(** ** The campaigns' CTR in amazon_ads_audit_Server.py *)

Section server_campaign_ctr.
Import DataFrame.

Lemma renamed_not_Impressions (name : string) :
  match lookup name Server_load.bulk_column_renames with
  | Some name' => name'
  | None => name
  end <> "Impressions".
Proof.
  unfold Server_load.bulk_column_renames. cbn [lookup].
  repeat match goal with
         | |- context [if (?k =? name)%string then _ else _] =>
             let E := fresh "E" in
             destruct (k =? name)%string eqn:E;
             [discriminate|apply String.eqb_neq in E]
         end.
  congruence.
Qed.

Lemma columns_select_rows (mask : list bool) (df : frame) :
  columns (Server_load.select_rows mask df) = columns df.
Proof.
  unfold columns, Server_load.select_rows. simpl. rewrite map_map.
  apply map_ext. now intros [c s].
Qed.

(** After loading, no campaign table has a column called "Impressions":
    the bulk column of that name is now "Imp". *)
Lemma load_campaigns_without_Impressions (bulk_data campaigns : frame) :
  Server_load.load_campaigns bulk_data = Ok campaigns ->
  has_column campaigns "Impressions" = false.
Proof.
  unfold Server_load.load_campaigns, Server_load.dropna_subset, Server_load.where_eq.
  set (b := Server_load.rename Server_load.bulk_column_renames
              (Server_load.strip_columns bulk_data)).
  intros H.
  assert (Hb : has_column b "Impressions" = false).
  { destruct (has_column b "Impressions") eqn:Eb; [|reflexivity]. exfalso.
    unfold has_column, columns in Eb. apply existsb_exists in Eb.
    destruct Eb as [name [Hin Ename]]. apply String.eqb_eq in Ename.
    apply in_map_iff in Hin. destruct Hin as [[c s] [Ec Hin]].
    unfold b, Server_load.rename in Hin. cbn [cols] in Hin.
    apply in_map_iff in Hin. destruct Hin as [[c0 s0] [E0 _]].
    injection E0 as E0 _. cbn [fst] in Ec. subst.
    symmetry in Ename. exact (renamed_not_Impressions _ Ename). }
  destruct (getitem b "Entity") as [e|]; simpl in H; [|discriminate].
  destruct (getitem (Server_load.select_rows (map Server_load.notna e) b) "Entity")
    as [e'|]; simpl in H; [|discriminate].
  injection H as <-.
  unfold has_column in *. now rewrite !columns_select_rows.
Qed.

Lemma mapM_Forall2 {A B} (f : A -> result B) (l : list A) (l' : list B) :
  mapM f l = Ok l' -> Forall2 (fun a b => f a = Ok b) l l'.
Proof.
  revert l'. induction l as [|a l IH]; simpl; intros l' H.
  - injection H as <-. constructor.
  - destruct (f a) as [b|] eqn:E; simpl in H; [|discriminate].
    destruct (mapM f l) as [bs|]; simpl in H; [|discriminate].
    injection H as <-. constructor; [assumption|now apply IH].
Qed.

(** Clicks divided by a column of zeros. *)
Lemma Server_campaigns_CTR_over_zero (x : num) :
  Server.campaigns_CTR x (Fin 0) = Fin 0 \/
  Server.campaigns_CTR x (Fin 0) = PInf \/
  Server.campaigns_CTR x (Fin 0) = NInf.
Proof.
  destruct x as [q| | |]; unfold Server.campaigns_CTR; simpl; auto.
  destruct (Qeq_bool q 0); [left; reflexivity|].
  destruct (Qlt_bool 0 q); simpl; auto.
Qed.

Lemma zip_num_over_zeros (f : num -> num -> num) (s1 s : Series) (n : nat) :
  zip_num f s1 (repeat (Num (Fin 0)) n) = Ok s ->
  Forall (fun c => exists x, c = Num (f x (Fin 0))) s.
Proof.
  unfold zip_num. intros H. apply mapM_Forall2 in H.
  remember (combine s1 (repeat (Num (Fin 0)) n)) as l eqn:El.
  assert (Hl : Forall (fun p => snd p = Num (Fin 0)) l).
  { subst l. apply Forall_forall. intros [c1 c2] Hin.
    apply in_combine_r in Hin. apply repeat_spec in Hin. exact Hin. }
  clear El. induction H as [|[c1 c2] b l l' Hb H IH]; [constructor|].
  inversion Hl as [|? ? Hc2 Hl']; subst. simpl in Hc2. subst c2.
  constructor; [|now apply IH].
  destruct c1 as [x|t]; simpl in Hb; [|discriminate].
  injection Hb as <-. now exists x.
Qed.

Lemma set_zip_getitem_other (df df' : frame) (out : string) (f : num -> num -> num)
    (a b col : string) :
  Metrics.set_zip df out f a b = Ok df' -> col <> out ->
  getitem df' col = getitem df col.
Proof.
  unfold Metrics.set_zip. intros H N.
  destruct (getitem df a); simpl in H; [|discriminate].
  destruct (getitem df b); simpl in H; [|discriminate].
  destruct (zip_num f a0 a1); simpl in H; [|discriminate].
  injection H as <-. now apply getitem_setitem_other.
Qed.

Lemma set_map_getitem_other (df df' : frame) (out : string) (f : num -> num)
    (a col : string) :
  Metrics.set_map df out f a = Ok df' -> col <> out ->
  getitem df' col = getitem df col.
Proof.
  unfold Metrics.set_map. intros H N.
  destruct (getitem df a); simpl in H; [|discriminate].
  destruct (map_num f a0); simpl in H; [|discriminate].
  injection H as <-. now apply getitem_setitem_other.
Qed.

(** X17.  In amazon_ads_audit_Server.py the campaign table that
    [load_and_clean_data] produces never has a column "Impressions" (it is
    renamed "Imp"), so [calculate_metrics] creates one with zeros and
    divides the clicks by it: whenever the run succeeds, every CTR cell of
    the campaign table is 0, +inf or -inf, never a click-through rate. *)
Theorem Server_campaigns_CTR_is_never_a_rate
    (bulk_data campaigns keywords search_terms placements : frame)
    (target_acos : num) (out : data) :
  Server_load.load_campaigns bulk_data = Ok campaigns ->
  Metrics.On_server.calculate_metrics
    (mk_data campaigns keywords search_terms placements) target_acos = Ok out ->
  exists CTR,
    getitem (d_campaigns out) "CTR" = Ok CTR /\
    Forall (fun c => c = Num (Fin 0) \/ c = Num PInf \/ c = Num NInf) CTR.
Proof.
  intros Hload H. apply load_campaigns_without_Impressions in Hload.
  unfold Metrics.On_server.calculate_metrics, Metrics.On_server.required_columns in H.
  cbv zeta beta iota in H. cbn [d_campaigns d_keywords d_search_terms d_placements] in H.
  repeat match type of H with
         | bind ?m _ = Ok _ =>
             let E := fresh "E" in
             destruct m eqn:E; cbn [bind] in H; [|discriminate]
         end.
  injection H as <-. cbn [d_campaigns].
  match goal with
  | E1 : Metrics.set_zip _ "CTR" _ _ _ = Ok ?c1,
    E2 : Metrics.set_zip ?c1 "CPC" _ _ _ = Ok ?c2,
    E3 : Metrics.set_zip ?c2 "ACOS" _ _ _ = Ok ?c3,
    E4 : Metrics.set_zip ?c3 "Conversion Rate" _ _ _ = Ok ?c4,
    E5 : Metrics.set_map ?c4 "Spend" _ _ = Ok ?c5 |- _ =>
      rewrite (set_map_getitem_other _ _ _ _ _ "CTR" E5) by discriminate;
      rewrite (set_zip_getitem_other _ _ _ _ _ _ "CTR" E4) by discriminate;
      rewrite (set_zip_getitem_other _ _ _ _ _ _ "CTR" E3) by discriminate;
      rewrite (set_zip_getitem_other _ _ _ _ _ _ "CTR" E2) by discriminate;
      rename E1 into ECTR
  end.
  unfold Metrics.set_zip in ECTR.
  destruct (required_columns_loop
              ["Sales"; "Clicks"; "Impressions"; "Spend"; "Orders"; "Daily Budget";
               "Bidding Strategy"] campaigns "Impressions") as (_ & _ & _ & Hz).
  rewrite (Hz Hload) in ECTR by (simpl; tauto).
  destruct (getitem _ "Clicks") as [clicks|]; cbn [bind] in ECTR; [|discriminate].
  destruct (zip_num _ _ _) as [s|] eqn:Ez; cbn [bind] in ECTR; [|discriminate].
  injection ECTR as <-. rewrite getitem_setitem_same.
  exists s. split; [reflexivity|].
  apply zip_num_over_zeros in Ez. rewrite Forall_forall in *.
  intros c Hc. destruct (Ez c Hc) as [x ->].
  destruct (Server_campaigns_CTR_over_zero x) as [Ex | [Ex | Ex]];
    rewrite Ex; auto.
Qed.

Lemma Server_campaigns_CTR_is_never_a_rate_witness :
  Server_load.load_campaigns Sample_server.bulk_data = Ok Sample_server_run.campaigns /\
  Metrics.On_server.calculate_metrics
    (mk_data Sample_server_run.campaigns Sample_server.keywords
       Sample_server.search_terms Sample_frames.placements) (Fin 0.3)
    = Ok Sample_server_run.out /\
  exists CTR,
    getitem (d_campaigns Sample_server_run.out) "CTR" = Ok CTR /\
    Forall (fun c => c = Num (Fin 0) \/ c = Num PInf \/ c = Num NInf) CTR.
Proof.
  assert (E1 : Server_load.load_campaigns Sample_server.bulk_data
               = Ok Sample_server_run.campaigns) by (vm_compute; reflexivity).
  assert (E2 : Metrics.On_server.calculate_metrics
                 (mk_data Sample_server_run.campaigns Sample_server.keywords
                    Sample_server.search_terms Sample_frames.placements) (Fin 0.3)
               = Ok Sample_server_run.out) by (vm_compute; reflexivity).
  split; [exact E1|]. split; [exact E2|].
  exact (Server_campaigns_CTR_is_never_a_rate Sample_server.bulk_data
           Sample_server_run.campaigns Sample_server.keywords
           Sample_server.search_terms Sample_frames.placements (Fin 0.3)
           Sample_server_run.out E1 E2).
Defined.

End server_campaign_ctr.

(** ** Loading the campaign rows *)

Section load_campaigns_rows.
Import DataFrame.

Lemma getitem_select_rows (mask : list bool) (df : frame) (col : string) :
  getitem (Server_load.select_rows mask df) col
    = (s <- getitem df col ;; Ok (Server_load.select_cells mask s)).
Proof.
  unfold getitem, Server_load.select_rows. simpl.
  induction (cols df) as [|[c s] l IH]; simpl; [reflexivity|].
  destruct (c =? col)%string; [reflexivity|exact IH].
Qed.

Lemma select_cells_by_own_mask {A} (p : A -> bool) (s : list A) :
  Forall (fun c => p c = true) (Server_load.select_cells (map p s) s).
Proof.
  induction s as [|c s IH]; simpl; [constructor|].
  destruct (p c) eqn:E; [constructor|]; assumption.
Qed.

(** X19.  When [load_and_clean_data] of amazon_ads_audit_Server.py
    produces a campaign table, that table holds only rows whose "Entity"
    is the text "Campaign"; when the bulk sheet has no column called
    "Entity" once the names are stripped, no campaign table is produced. *)
Theorem load_campaigns_only_Campaign_rows (bulk_data : frame) :
  (forall campaigns Entity,
     Server_load.load_campaigns bulk_data = Ok campaigns ->
     getitem campaigns "Entity" = Ok Entity ->
     Forall (fun c => c = Str "Campaign") Entity) /\
  (has_column (Server_load.strip_columns bulk_data) "Entity" = false ->
   forall campaigns, Server_load.load_campaigns bulk_data <> Ok campaigns).
Proof.
  unfold Server_load.load_campaigns, Server_load.dropna_subset, Server_load.where_eq.
  set (b := Server_load.rename Server_load.bulk_column_renames
              (Server_load.strip_columns bulk_data)).
  assert (Hb : has_column b "Entity"
               = has_column (Server_load.strip_columns bulk_data) "Entity").
  { unfold has_column, columns, b, Server_load.rename. cbn [cols].
    rewrite map_map.
    induction (cols (Server_load.strip_columns bulk_data)) as [|[c s] l IH];
      [reflexivity|].
    cbn [map existsb fst]. rewrite IH. f_equal.
    unfold Server_load.bulk_column_renames. cbn [lookup].
    repeat match goal with
           | |- context [if (?k =? c)%string then _ else _] =>
               let E := fresh "E" in
               destruct (k =? c)%string eqn:E;
               [apply String.eqb_eq in E; subst c; reflexivity|]
           end.
    reflexivity. }
  rewrite <- Hb. clear Hb.
  destruct (getitem b "Entity") as [e|] eqn:Ee.
  - assert (Hh : has_column b "Entity" = true) by (apply getitem_has; eauto).
    cbn [bind]. rewrite getitem_select_rows, Ee. cbn [bind].
    split.
    + intros campaigns Entity H HE. injection H as <-.
      rewrite getitem_select_rows, getitem_select_rows, Ee in HE. cbn [bind] in HE.
      injection HE as <-.
      eapply Forall_impl; [|apply select_cells_by_own_mask].
      intros [x|t] Hc; [discriminate|]. apply String.eqb_eq in Hc. now subst.
    + rewrite Hh. discriminate.
  - cbn [bind]. split.
    + intros campaigns Entity H. discriminate.
    + intros _ campaigns. discriminate.
Qed.

End load_campaigns_rows.

(** ** The summary of amazon_ads_audit.py *)

Lemma sum_from_finite (s : list num) (a : Q) :
  Forall is_finite s ->
  is_finite (fold_left (fun acc x => match x with NaN => acc | _ => add acc x end)
                       s (Fin a)).
Proof.
  revert a. induction s as [|x s IH]; intros a Hs; simpl; [exact I|].
  inversion Hs as [|? ? Hx Hs']; subst.
  destruct x as [q| | |]; simpl in Hx; try contradiction.
  simpl. now apply IH.
Qed.

Lemma sum_finite (s : list num) : Forall is_finite s -> is_finite (sum s).
Proof. apply sum_from_finite. Qed.

Lemma filter_finite_all (s : list num) :
  Forall is_finite s ->
  filter (fun x => match x with NaN => false | _ => true end) s = s.
Proof.
  induction 1 as [|x s Hx Hs IH]; simpl; [reflexivity|].
  destruct x; simpl in Hx; try contradiction. now rewrite IH.
Qed.

Lemma count_Action_disjoint (l1 l2 : string) (Action : list string) :
  l1 <> l2 ->
  (Amazon_summary.count_Action l1 Action + Amazon_summary.count_Action l2 Action
   <= List.length Action)%nat.
Proof.
  intros N. unfold Amazon_summary.count_Action.
  induction Action as [|a l IH]; simpl; [lia|].
  destruct (a =? l1) eqn:E1, (a =? l2) eqn:E2; simpl; try lia.
  apply String.eqb_eq in E1, E2. congruence.
Qed.

(** X20.  In the summary of amazon_ads_audit.py, with numbers in the
    campaign columns and no negative click count, the conversion rate is
    always a number (0 when there is no click at all), while the ACOS,
    the mean of the campaigns' ratios, is a number exactly when there is
    at least one campaign: without campaigns it is NaN.  The placement
    counts, and the keyword counts, never add up to more than the rows of
    their table. *)
Theorem generate_audit_summary_numbers
    (ACOS Sales Spend Clicks Orders : list num)
    (keywords_Action search_terms_Action placements_Action : list string) :
  Forall is_finite ACOS -> Forall nonneg Clicks -> Forall is_finite Orders ->
  let s := Amazon_summary.generate_audit_summary ACOS Sales Spend Clicks Orders
             keywords_Action search_terms_Action placements_Action in
  is_finite (Amazon_summary.Conversion_Rate s) /\
  ((sum Clicks =? Fin 0)%num = true -> Amazon_summary.Conversion_Rate s = Fin 0) /\
  (is_finite (Amazon_summary.ACOS s) <-> ACOS <> []) /\
  (ACOS = [] -> Amazon_summary.ACOS s = NaN) /\
  (Amazon_summary.Increase_Placement_Percentage_Actions s
   + Amazon_summary.Decrease_Placement_Percentage_Actions s
   <= List.length placements_Action)%nat /\
  (Amazon_summary.Increase_Bid_Actions s + Amazon_summary.Reduce_Bid_Actions s
   <= Amazon_summary.Total_Keywords s)%nat.
Proof.
  intros HA HC HO. cbv zeta. cbn [Amazon_summary.generate_audit_summary
    Amazon_summary.Conversion_Rate Amazon_summary.ACOS
    Amazon_summary.Increase_Placement_Percentage_Actions
    Amazon_summary.Decrease_Placement_Percentage_Actions
    Amazon_summary.Increase_Bid_Actions Amazon_summary.Reduce_Bid_Actions
    Amazon_summary.Total_Keywords].
  destruct (sum_nonneg Clicks HC) as [c [Ec Hc]].
  pose proof (sum_finite Orders HO) as Ho.
  split; [|split; [|split; [|split; [|split]]]].
  - unfold Amazon_summary.conversion_rate. rewrite Ec. unfold gtb. simpl.
    destruct (Qlt_bool 0 c) eqn:E; [|exact I].
    destruct (sum Orders) as [o| | |]; simpl in Ho; try contradiction.
    simpl. destruct (Qeq_bool c 0) eqn:E0; [|exact I].
    apply Qeq_bool_iff in E0. apply Qlt_bool_iff in E. rewrite E0 in E. discriminate.
  - unfold Amazon_summary.conversion_rate. rewrite Ec. unfold gtb. simpl.
    intros E0. apply Qeq_bool_iff in E0.
    replace (Qlt_bool 0 c) with false; [reflexivity|].
    symmetry. apply Qlt_bool_false_iff. rewrite E0. apply Qle_refl.
  - unfold mean. rewrite (filter_finite_all ACOS HA).
    pose proof (sum_finite ACOS HA) as Hs.
    destruct ACOS as [|x l].
    + split; [intros []|intros N; now contradiction N].
    + destruct (sum (x :: l)) as [a| | |]; simpl in Hs; try contradiction.
      split; [discriminate|intros _].
      unfold num_of_Z. simpl div.
      destruct (Qeq_bool (inject_Z (Z.of_nat (List.length (x :: l)))) 0) eqn:E0.
      * apply Qeq_bool_iff in E0. unfold Qeq in E0. simpl in E0. lia.
      * exact I.
  - intros ->. reflexivity.
  - apply count_Action_disjoint. discriminate.
  - apply count_Action_disjoint. discriminate.
Qed.

Lemma generate_audit_summary_numbers_witness :
  is_finite
    (Amazon_summary.Conversion_Rate
       (Amazon_summary.generate_audit_summary
          [Fin 0.25] [Fin 200] [Fin 50] [Fin 0] [Fin 4]
          ["Increase Bid"] ["Negate"] ["Do Nothing"])).
Proof.
  refine (proj1 (generate_audit_summary_numbers
                   [Fin 0.25] [Fin 200] [Fin 50] [Fin 0] [Fin 4]
                   ["Increase Bid"] ["Negate"] ["Do Nothing"] _ _ _)).
  - repeat constructor.
  - repeat constructor. discriminate.
  - repeat constructor.
Defined.
